(** * Course tracker: server actions over the course schema

    A shallow embedding of [src/actions/index.ts] (the eight server actions and
    the [requireUser] guard) and of the table definitions of the schema module,
    followed by the properties of the actions.

    The storage layer ([astro:db], a Drizzle query builder over SQLite) is not
    part of the repository.  It is modelled here as four lists of rows kept in
    insertion order, with the statements the actions use:
    [select ... where], [insert ... values ... returning],
    [update ... set ... where ... returning] and
    [delete ... where ... returning].

    The zod schemas of the actions are embedded as the record types of the
    inputs ([None] for an optional field that is absent).  Their refinements
    (non-empty title, well-formed url, ranges of the counters) are enforced
    before a handler is entered; the handlers are modelled on every value of
    the input types, and no property below depends on a refinement. *)

From Stdlib Require Import ZArith List String Bool Lia.
Import ListNotations.

Local Open Scope string_scope.
Local Open Scope list_scope.
Local Open Scope Z_scope.

(** ** JavaScript values that may be missing *)

(** A value of TypeScript type [A | null | undefined].  Input fields declared
    [.optional()] are [A | undefined] and are written [option A] ([None] is
    [undefined]); nullable columns read from a row are [A | null] and are
    written [option A] as well ([None] is [NULL]).  [JsOpt] is used where both
    can meet: in the object handed to [.values(...)] or [.set(...)]. *)
Inductive JsOpt (A : Type) : Type :=
  | Undefined
  | Null
  | Value (a : A).
Arguments Undefined {A}.
Arguments Null {A}.
Arguments Value {A} a.

(** An optional input field: [undefined] when absent. *)
Definition ofInput {A} (x : option A) : JsOpt A :=
  match x with Some a => Value a | None => Undefined end.

(** A nullable column of a row that was read: [null] when unset. *)
Definition ofColumn {A} (x : option A) : JsOpt A :=
  match x with Some a => Value a | None => Null end.

(** [existing?.f] *)
Definition optChain {R A} (existing : option R) (f : R -> JsOpt A) : JsOpt A :=
  match existing with Some r => f r | None => Undefined end.

(** [a ?? b] *)
Definition nullish {A} (a b : JsOpt A) : JsOpt A :=
  match a with Value _ => a | _ => b end.

(** [a ?? d] where [d] is a plain value. *)
Definition nullishOr {A} (a : JsOpt A) (d : A) : A :=
  match a with Value x => x | _ => d end.

(** What a nullable column holds after an insert of the given value. *)
Definition stored {A} (x : JsOpt A) : option A :=
  match x with Value a => Some a | _ => None end.

(** What a nullable column holds after [.set] of the given value: a key whose
    value is [undefined] is dropped from the SET clause, [null] clears it. *)
Definition assigned {A} (x : JsOpt A) (old : option A) : option A :=
  match x with Undefined => old | Null => None | Value a => Some a end.

(** The same for a column that is not nullable. *)
Definition assignedReq {A} (x : option A) (old : A) : A :=
  match x with Some a => a | None => old end.

(** ** Enumerations of the schema *)

Module Level.
Inductive t := beginner | intermediate | advanced.
End Level.

Module CourseStatus.
Inductive t := planned | in_progress | completed | dropped.
Definition eqb (a b : t) : bool :=
  match a, b with
  | planned, planned | in_progress, in_progress
  | completed, completed | dropped, dropped => true
  | _, _ => false
  end.
End CourseStatus.

Module ItemType.
Inductive t := lesson | module | assignment | quiz | exam | other.
End ItemType.

Module ProgressStatus.
Inductive t := not_started | in_progress | completed | dropped.
End ProgressStatus.

Module ItemProgressStatus.
Inductive t := not_started | in_progress | completed | skipped.
End ItemProgressStatus.

(** The payload of a [json] column and of a [z.any()] input. *)
Local Unset Elimination Schemes.
Inductive Json :=
  | JNull
  | JBool (b : bool)
  | JNum (n : Z)
  | JStr (s : string)
  | JArr (l : list Json)
  | JObj (l : list (string * Json)).
Local Set Elimination Schemes.

(** A [z.any().optional()] input field as a JavaScript value: absent is
    [undefined], the JSON literal [null] is [null]. *)
Definition ofAny (x : option Json) : JsOpt Json :=
  match x with
  | None => Undefined
  | Some JNull => Null
  | Some j => Value j
  end.

(** ** The four tables

    Each module gives the row type of a table ([row], dates as milliseconds),
    the object accepted by [.values] and [.set] ([values], every key optional),
    the row an insert builds ([ofValues], with the column defaults of the
    schema; [None] when a required column is missing) and the effect of a SET
    clause on a row ([applySet]). *)

Module Courses.
Record row := {
  id : Z;
  ownerId : string;
  title : string;
  description : option string;
  provider : option string;
  platform : option string;
  url : option string;
  level : Level.t;
  tags : option string;
  status : CourseStatus.t;
  createdAt : Z;
  updatedAt : Z
}.

Record values := {
  v_ownerId : option string;
  v_title : option string;
  v_description : JsOpt string;
  v_provider : JsOpt string;
  v_platform : JsOpt string;
  v_url : JsOpt string;
  v_level : option Level.t;
  v_tags : JsOpt string;
  v_status : option CourseStatus.t;
  v_createdAt : option Z;
  v_updatedAt : option Z
}.

Definition ofValues (newId NOW : Z) (v : values) : option row :=
  match v_ownerId v, v_title v with
  | Some o, Some t =>
      Some {| id := newId;
              ownerId := o;
              title := t;
              description := stored (v_description v);
              provider := stored (v_provider v);
              platform := stored (v_platform v);
              url := stored (v_url v);
              level := match v_level v with Some l => l | None => Level.beginner end;
              tags := stored (v_tags v);
              status := match v_status v with Some s => s | None => CourseStatus.planned end;
              createdAt := match v_createdAt v with Some d => d | None => NOW end;
              updatedAt := match v_updatedAt v with Some d => d | None => NOW end |}
  | _, _ => None
  end.

Definition applySet (v : values) (r : row) : row :=
  {| id := id r;
     ownerId := assignedReq (v_ownerId v) (ownerId r);
     title := assignedReq (v_title v) (title r);
     description := assigned (v_description v) (description r);
     provider := assigned (v_provider v) (provider r);
     platform := assigned (v_platform v) (platform r);
     url := assigned (v_url v) (url r);
     level := assignedReq (v_level v) (level r);
     tags := assigned (v_tags v) (tags r);
     status := assignedReq (v_status v) (status r);
     createdAt := assignedReq (v_createdAt v) (createdAt r);
     updatedAt := assignedReq (v_updatedAt v) (updatedAt r) |}.
End Courses.

Module CourseItems.
Record row := {
  id : Z;
  courseId : Z;
  type : ItemType.t;
  title : string;
  description : option string;
  position : Z;
  dueDate : option Z;
  estimatedMinutes : option Z;
  isRequired : bool;
  createdAt : Z
}.

Record values := {
  v_courseId : option Z;
  v_type : option ItemType.t;
  v_title : option string;
  v_description : JsOpt string;
  v_position : option Z;
  v_dueDate : JsOpt Z;
  v_estimatedMinutes : JsOpt Z;
  v_isRequired : option bool;
  v_createdAt : option Z
}.

Definition ofValues (newId NOW : Z) (v : values) : option row :=
  match v_courseId v, v_title v with
  | Some c, Some t =>
      Some {| id := newId;
              courseId := c;
              type := match v_type v with Some x => x | None => ItemType.lesson end;
              title := t;
              description := stored (v_description v);
              position := match v_position v with Some p => p | None => 0 end;
              dueDate := stored (v_dueDate v);
              estimatedMinutes := stored (v_estimatedMinutes v);
              isRequired := match v_isRequired v with Some b => b | None => true end;
              createdAt := match v_createdAt v with Some d => d | None => NOW end |}
  | _, _ => None
  end.

Definition applySet (v : values) (r : row) : row :=
  {| id := id r;
     courseId := assignedReq (v_courseId v) (courseId r);
     type := assignedReq (v_type v) (type r);
     title := assignedReq (v_title v) (title r);
     description := assigned (v_description v) (description r);
     position := assignedReq (v_position v) (position r);
     dueDate := assigned (v_dueDate v) (dueDate r);
     estimatedMinutes := assigned (v_estimatedMinutes v) (estimatedMinutes r);
     isRequired := assignedReq (v_isRequired v) (isRequired r);
     createdAt := assignedReq (v_createdAt v) (createdAt r) |}.
End CourseItems.

Module CourseProgress.
Record row := {
  id : Z;
  courseId : Z;
  userId : string;
  status : ProgressStatus.t;
  startedAt : option Z;
  completedAt : option Z;
  completionPercent : Z;
  totalItems : Z;
  completedItems : Z;
  lastVisitedItemId : option Z;
  meta : option Json;
  createdAt : Z;
  updatedAt : Z
}.

Record values := {
  v_courseId : option Z;
  v_userId : option string;
  v_status : option ProgressStatus.t;
  v_startedAt : JsOpt Z;
  v_completedAt : JsOpt Z;
  v_completionPercent : option Z;
  v_totalItems : option Z;
  v_completedItems : option Z;
  v_lastVisitedItemId : JsOpt Z;
  v_meta : JsOpt Json;
  v_createdAt : option Z;
  v_updatedAt : option Z
}.

Definition ofValues (newId NOW : Z) (v : values) : option row :=
  match v_courseId v, v_userId v with
  | Some c, Some u =>
      Some {| id := newId;
              courseId := c;
              userId := u;
              status := match v_status v with
                        | Some s => s
                        | None => ProgressStatus.not_started
                        end;
              startedAt := stored (v_startedAt v);
              completedAt := stored (v_completedAt v);
              completionPercent := match v_completionPercent v with Some n => n | None => 0 end;
              totalItems := match v_totalItems v with Some n => n | None => 0 end;
              completedItems := match v_completedItems v with Some n => n | None => 0 end;
              lastVisitedItemId := stored (v_lastVisitedItemId v);
              meta := stored (v_meta v);
              createdAt := match v_createdAt v with Some d => d | None => NOW end;
              updatedAt := match v_updatedAt v with Some d => d | None => NOW end |}
  | _, _ => None
  end.

Definition applySet (v : values) (r : row) : row :=
  {| id := id r;
     courseId := assignedReq (v_courseId v) (courseId r);
     userId := assignedReq (v_userId v) (userId r);
     status := assignedReq (v_status v) (status r);
     startedAt := assigned (v_startedAt v) (startedAt r);
     completedAt := assigned (v_completedAt v) (completedAt r);
     completionPercent := assignedReq (v_completionPercent v) (completionPercent r);
     totalItems := assignedReq (v_totalItems v) (totalItems r);
     completedItems := assignedReq (v_completedItems v) (completedItems r);
     lastVisitedItemId := assigned (v_lastVisitedItemId v) (lastVisitedItemId r);
     meta := assigned (v_meta v) (meta r);
     createdAt := assignedReq (v_createdAt v) (createdAt r);
     updatedAt := assignedReq (v_updatedAt v) (updatedAt r) |}.
End CourseProgress.

Module CourseItemProgress.
Record row := {
  id : Z;
  itemId : Z;
  userId : string;
  status : ItemProgressStatus.t;
  startedAt : option Z;
  completedAt : option Z;
  notes : option string;
  createdAt : Z
}.

Record values := {
  v_itemId : option Z;
  v_userId : option string;
  v_status : option ItemProgressStatus.t;
  v_startedAt : JsOpt Z;
  v_completedAt : JsOpt Z;
  v_notes : JsOpt string;
  v_createdAt : option Z
}.

Definition ofValues (newId NOW : Z) (v : values) : option row :=
  match v_itemId v, v_userId v with
  | Some i, Some u =>
      Some {| id := newId;
              itemId := i;
              userId := u;
              status := match v_status v with
                        | Some s => s
                        | None => ItemProgressStatus.not_started
                        end;
              startedAt := stored (v_startedAt v);
              completedAt := stored (v_completedAt v);
              notes := stored (v_notes v);
              createdAt := match v_createdAt v with Some d => d | None => NOW end |}
  | _, _ => None
  end.

Definition applySet (v : values) (r : row) : row :=
  {| id := id r;
     itemId := assignedReq (v_itemId v) (itemId r);
     userId := assignedReq (v_userId v) (userId r);
     status := assignedReq (v_status v) (status r);
     startedAt := assigned (v_startedAt v) (startedAt r);
     completedAt := assigned (v_completedAt v) (completedAt r);
     notes := assigned (v_notes v) (notes r);
     createdAt := assignedReq (v_createdAt v) (createdAt r) |}.
End CourseItemProgress.

(** ** The database and the world an action runs in *)

(** A table: its rows in insertion order (which is the order of their keys)
    and the key the last insert handed out. *)
Record Table (R : Type) := {
  rows : list R;
  sequence : Z
}.
Arguments rows {R} _.
Arguments sequence {R} _.

Record Db := {
  courses : Table Courses.row;
  courseItems : Table CourseItems.row;
  courseProgress : Table CourseProgress.row;
  courseItemProgress : Table CourseItemProgress.row
}.

Inductive TableName :=
  | TCourses | TCourseItems | TCourseProgress | TCourseItemProgress.

(** The statements sent to the storage layer, recorded in the order sent. *)
Inductive Statement :=
  | SELECT (t : TableName)
  | INSERT (t : TableName)
  | UPDATE (t : TableName)
  | DELETE (t : TableName).

Definition mutating (s : Statement) : bool :=
  match s with SELECT _ => false | _ => true end.

(** The world: the database, the clock (the successive readings of the time,
    by [new Date()] or by the [NOW] default of a column, and how many were
    taken so far) and the statements sent so far. *)
Record World := {
  db : Db;
  clock : nat -> Z;
  ticks : nat;
  log : list Statement
}.

Inductive ActionErrorCode := UNAUTHORIZED | NOT_FOUND.

Record ActionError := {
  code : ActionErrorCode;
  message : string
}.

(** How a handler ends: with a result, with an [ActionError] thrown by the
    handler, or with a failure of the storage layer, which no handler
    catches. *)
Inductive Outcome (A : Type) : Type :=
  | Return (a : A)
  | Throw (e : ActionError)
  | StorageFailure (reason : string).
Arguments Return {A} a.
Arguments Throw {A} e.
Arguments StorageFailure {A} reason.

Definition Action (A : Type) : Type := World -> Outcome A * World.

Definition ret {A} (a : A) : Action A := fun w => (Return a, w).

Definition bind {A B} (m : Action A) (k : A -> Action B) : Action B :=
  fun w =>
    match m w with
    | (Return a, w') => k a w'
    | (Throw e, w') => (Throw e, w')
    | (StorageFailure s, w') => (StorageFailure s, w')
    end.

Definition throw {A} (c : ActionErrorCode) (msg : string) : Action A :=
  fun w => (Throw {| code := c; message := msg |}, w).

Notation "x <- m ;; k" := (bind m (fun x => k))
  (at level 61, m at next level, right associativity).

(** [new Date()] *)
Definition newDate : Action Z :=
  fun w => (Return (clock w (ticks w)),
            {| db := db w; clock := clock w; ticks := S (ticks w); log := log w |}).

(** ** The storage statements *)

(** What [defineTable] gives for a table: where it lives in the database, its
    primary key, and the row an insert or a SET clause produces. *)
Record TableDef (R V : Type) := {
  tableName : TableName;
  getTable : Db -> Table R;
  putTable : Table R -> Db -> Db;
  primaryKey : R -> Z;
  buildRow : Z -> Z -> V -> option R;
  setRow : V -> R -> R
}.
Arguments tableName {R V} _.
Arguments getTable {R V} _ _.
Arguments putTable {R V} _ _ _.
Arguments primaryKey {R V} _ _.
Arguments buildRow {R V} _ _ _ _.
Arguments setRow {R V} _ _ _.

Definition CoursesT : TableDef Courses.row Courses.values :=
  {| tableName := TCourses;
     getTable := courses;
     putTable := fun t d =>
       {| courses := t; courseItems := courseItems d;
          courseProgress := courseProgress d;
          courseItemProgress := courseItemProgress d |};
     primaryKey := Courses.id;
     buildRow := Courses.ofValues;
     setRow := Courses.applySet |}.

Definition CourseItemsT : TableDef CourseItems.row CourseItems.values :=
  {| tableName := TCourseItems;
     getTable := courseItems;
     putTable := fun t d =>
       {| courses := courses d; courseItems := t;
          courseProgress := courseProgress d;
          courseItemProgress := courseItemProgress d |};
     primaryKey := CourseItems.id;
     buildRow := CourseItems.ofValues;
     setRow := CourseItems.applySet |}.

Definition CourseProgressT : TableDef CourseProgress.row CourseProgress.values :=
  {| tableName := TCourseProgress;
     getTable := courseProgress;
     putTable := fun t d =>
       {| courses := courses d; courseItems := courseItems d;
          courseProgress := t;
          courseItemProgress := courseItemProgress d |};
     primaryKey := CourseProgress.id;
     buildRow := CourseProgress.ofValues;
     setRow := CourseProgress.applySet |}.

Definition CourseItemProgressT
  : TableDef CourseItemProgress.row CourseItemProgress.values :=
  {| tableName := TCourseItemProgress;
     getTable := courseItemProgress;
     putTable := fun t d =>
       {| courses := courses d; courseItems := courseItems d;
          courseProgress := courseProgress d;
          courseItemProgress := t |};
     primaryKey := CourseItemProgress.id;
     buildRow := CourseItemProgress.ofValues;
     setRow := CourseItemProgress.applySet |}.

(** The key an insert assigns: one more than the largest key in the table, and
    1 in an empty table.  The tables are created without AUTOINCREMENT, so the
    key of a deleted row is free again: after a delete of the row with the
    largest key the next insert hands that key out once more. *)
Definition nextId {R} (key : R -> Z) (t : Table R) : Z :=
  match map key (rows t) with
  | [] => 1
  | k :: ks => 1 + fold_right Z.max k ks
  end.

Definition sent (s : Statement) (d : Db) (w : World) : World :=
  {| db := d; clock := clock w; ticks := ticks w; log := log w ++ [s] |}.

Section Statements.
Context {R V : Type} (T : TableDef R V).

(** [db.select().from(T).where(p)] *)
Definition select (p : R -> bool) : Action (list R) :=
  fun w =>
    (Return (filter p (rows (getTable T (db w)))),
     sent (SELECT (tableName T)) (db w) w).

(** [db.insert(T).values(v).returning()]: the row gets a fresh key and the
    column defaults; [NOW] is one more reading of the clock.  A missing
    required column is the one storage failure modelled; see [namesItem] and
    [safeInteger] for the two that are stated as hypotheses instead. *)
Definition insert (v : V) : Action (list R) :=
  fun w =>
    let t := getTable T (db w) in
    let newId := nextId (primaryKey T) t in
    let w1 := {| db := db w; clock := clock w; ticks := S (ticks w); log := log w |} in
    match buildRow T newId (clock w (ticks w)) v with
    | Some r =>
        (Return [r],
         sent (INSERT (tableName T))
              (putTable T {| rows := rows t ++ [r]; sequence := newId |} (db w)) w1)
    | None =>
        (StorageFailure "NOT NULL constraint failed",
         sent (INSERT (tableName T)) (db w) w1)
    end.

(** [db.update(T).set(v).where(p).returning()]: every row that satisfies [p]
    is rewritten by the SET clause, which holds the keys of [v] whose value is
    not [undefined] (see [assigned]); the rewritten rows are returned. *)
Definition update (v : V) (p : R -> bool) : Action (list R) :=
  fun w =>
    let t := getTable T (db w) in
    (Return (map (setRow T v) (filter p (rows t))),
     sent (UPDATE (tableName T))
          (putTable T {| rows := map (fun r => if p r then setRow T v r else r) (rows t);
                         sequence := sequence t |} (db w)) w).

(** [db.delete(T).where(p).returning()]: the rows that satisfy [p] are removed
    and returned.  That no other row references them is a hypothesis of the
    properties of a removal, see [unreferenced]. *)
Definition delete (p : R -> bool) : Action (list R) :=
  fun w =>
    let t := getTable T (db w) in
    (Return (filter p (rows t)),
     sent (DELETE (tableName T))
          (putTable T {| rows := filter (fun r => negb (p r)) (rows t);
                         sequence := sequence t |} (db w)) w).
End Statements.

(** [.limit(1)] on the rows of a select. *)
Definition limit1 {R} (m : Action (list R)) : Action (list R) :=
  l <- m ;; ret (firstn 1 l).

(** [const [x] = rows]: the first row, [undefined] when there is none. *)
Definition first {R} (l : list R) : option R := hd_error l.

(** ** The authorization guard *)

(** Modelled from the spec: the declaration of [App.Locals] and of the user
    record is not among the sources; the identity collaborator provides "a user
    identity (id at minimum)", and the actions only read [user.id], which they
    compare with text columns. *)
Module User.
Record t := { id : string }.
End User.

Record Locals := { user : option User.t }.

Record ActionAPIContext := { locals : option Locals }.

(** [locals?.user] *)
Definition currentUser (context : ActionAPIContext) : option User.t :=
  match locals context with
  | Some l => user l
  | None => None
  end.

Definition requireUser (context : ActionAPIContext) : Action User.t :=
  match currentUser context with
  | Some u => ret u
  | None => throw UNAUTHORIZED "You must be signed in to perform this action."
  end.

(** [and(eq(Courses.id, id), eq(Courses.ownerId, userId))] *)
Definition ownedCourse (id : Z) (userId : string) (c : Courses.row) : bool :=
  (Courses.id c =? id) && String.eqb (Courses.ownerId c) userId.

(** ** Course actions *)

Module createCourse.
Record input := {
  title : string;
  description : option string;
  provider : option string;
  platform : option string;
  url : option string;
  level : option Level.t;
  tags : option string;
  status : option CourseStatus.t
}.

Record output := { course : option Courses.row }.

Definition handler (input : input) (context : ActionAPIContext) : Action output :=
  user <- requireUser context ;;
  createdAt <- newDate ;;
  updatedAt <- newDate ;;
  inserted <- insert CoursesT
    {| Courses.v_ownerId := Some (User.id user);
       Courses.v_title := Some (title input);
       Courses.v_description := ofInput (description input);
       Courses.v_provider := ofInput (provider input);
       Courses.v_platform := ofInput (platform input);
       Courses.v_url := ofInput (url input);
       Courses.v_level :=
         Some (match level input with Some l => l | None => Level.beginner end);
       Courses.v_tags := ofInput (tags input);
       Courses.v_status :=
         Some (match status input with Some s => s | None => CourseStatus.planned end);
       Courses.v_createdAt := Some createdAt;
       Courses.v_updatedAt := Some updatedAt |} ;;
  ret {| course := first inserted |}.
End createCourse.

(** The values of the object [updateData : Record<string, unknown>]. *)
Inductive Unknown :=
  | UStr (s : string)
  | ULevel (l : Level.t)
  | UStatus (s : CourseStatus.t).

Module updateCourse.
Record input := {
  id : Z;
  title : option string;
  description : option string;
  provider : option string;
  platform : option string;
  url : option string;
  level : option Level.t;
  tags : option string;
  status : option CourseStatus.t
}.

Record output := { course : option Courses.row }.

(** [Object.entries(rest)] where [const { id, ...rest } = input]. *)
Definition entries (input : input) : list (string * option Unknown) :=
  [ ("title", option_map UStr (title input));
    ("description", option_map UStr (description input));
    ("provider", option_map UStr (provider input));
    ("platform", option_map UStr (platform input));
    ("url", option_map UStr (url input));
    ("level", option_map ULevel (level input));
    ("tags", option_map UStr (tags input));
    ("status", option_map UStatus (status input)) ].

(** The loop that copies the entries whose value is not [undefined]. *)
Fixpoint defined (es : list (string * option Unknown)) : list (string * Unknown) :=
  match es with
  | [] => []
  | (key, Some value) :: rest => (key, value) :: defined rest
  | (_, None) :: rest => defined rest
  end.

Definition lookup (key : string) (o : list (string * Unknown)) : option Unknown :=
  match find (fun e => String.eqb (fst e) key) o with
  | Some e => Some (snd e)
  | None => None
  end.

Definition text (key : string) (o : list (string * Unknown)) : option string :=
  match lookup key o with Some (UStr s) => Some s | _ => None end.

(** [{ ...updateData, updatedAt }] read as values of the table. *)
Definition spread (updateData : list (string * Unknown)) (updatedAt : Z)
  : Courses.values :=
  {| Courses.v_ownerId := None;
     Courses.v_title := text "title" updateData;
     Courses.v_description := ofInput (text "description" updateData);
     Courses.v_provider := ofInput (text "provider" updateData);
     Courses.v_platform := ofInput (text "platform" updateData);
     Courses.v_url := ofInput (text "url" updateData);
     Courses.v_level :=
       match lookup "level" updateData with Some (ULevel l) => Some l | _ => None end;
     Courses.v_tags := ofInput (text "tags" updateData);
     Courses.v_status :=
       match lookup "status" updateData with Some (UStatus s) => Some s | _ => None end;
     Courses.v_createdAt := None;
     Courses.v_updatedAt := Some updatedAt |}.

(** An input that carries the key and nothing else. *)
Definition onlyId (input : input) : Prop :=
  title input = None /\ description input = None /\ provider input = None
  /\ platform input = None /\ url input = None /\ level input = None
  /\ tags input = None /\ status input = None.

Definition handler (input : input) (context : ActionAPIContext) : Action output :=
  user <- requireUser context ;;
  found <- limit1 (select CoursesT (ownedCourse (id input) (User.id user))) ;;
  match first found with
  | None => throw NOT_FOUND "Course not found."
  | Some existing =>
      let updateData := defined (entries input) in
      if (List.length updateData =? 0)%nat then
        ret {| course := Some existing |}
      else
        updatedAt <- newDate ;;
        updated <- update CoursesT (spread updateData updatedAt)
                     (ownedCourse (id input) (User.id user)) ;;
        ret {| course := first updated |}
  end.
End updateCourse.

Module listMyCourses.
Record fields := { status : option CourseStatus.t }.

(** The input object is itself optional. *)
Definition input := option fields.

Record output := { courses : list Courses.row }.

Definition handler (input : input) (context : ActionAPIContext) : Action output :=
  user <- requireUser context ;;
  courses <- select CoursesT (fun c => String.eqb (Courses.ownerId c) (User.id user)) ;;
  let filtered :=
    match input with
    | Some {| status := Some s |} =>
        filter (fun course => CourseStatus.eqb (Courses.status course) s) courses
    | _ => courses
    end in
  ret {| courses := filtered |}.
End listMyCourses.

Module getCourseWithItems.
Record input := { id : Z }.

Record output := { course : Courses.row; items : list CourseItems.row }.

Definition handler (input : input) (context : ActionAPIContext) : Action output :=
  user <- requireUser context ;;
  found <- limit1 (select CoursesT (ownedCourse (id input) (User.id user))) ;;
  match first found with
  | None => throw NOT_FOUND "Course not found."
  | Some course =>
      items <- select CourseItemsT (fun i => CourseItems.courseId i =? id input) ;;
      ret {| course := course; items := items |}
  end.
End getCourseWithItems.

(** ** Course item actions *)

Module saveCourseItem.
Record input := {
  id : option Z;
  courseId : Z;
  type : option ItemType.t;
  title : string;
  description : option string;
  position : option Z;
  dueDate : option Z;
  estimatedMinutes : option Z;
  isRequired : option bool
}.

Record output := { item : option CourseItems.row }.

Definition baseValues (input : input) (createdAt : Z) : CourseItems.values :=
  {| CourseItems.v_courseId := Some (courseId input);
     CourseItems.v_type :=
       Some (match type input with Some t => t | None => ItemType.lesson end);
     CourseItems.v_title := Some (title input);
     CourseItems.v_description := ofInput (description input);
     CourseItems.v_position :=
       Some (match position input with Some p => p | None => 0 end);
     CourseItems.v_dueDate := ofInput (dueDate input);
     CourseItems.v_estimatedMinutes := ofInput (estimatedMinutes input);
     CourseItems.v_isRequired :=
       Some (match isRequired input with Some b => b | None => true end);
     CourseItems.v_createdAt := Some createdAt |}.

(** [if (input.id)]: the key when it is given and not [0]. *)
Definition truthyId (input : input) : option Z :=
  match id input with
  | Some i => if i =? 0 then None else Some i
  | None => None
  end.

Definition handler (input : input) (context : ActionAPIContext) : Action output :=
  user <- requireUser context ;;
  found <- limit1 (select CoursesT (ownedCourse (courseId input) (User.id user))) ;;
  match first found with
  | None => throw NOT_FOUND "Course not found."
  | Some course =>
      createdAt <- newDate ;;
      let baseValues := baseValues input createdAt in
      match truthyId input with
      | Some inputId =>
          items <- limit1 (select CourseItemsT (fun i => CourseItems.id i =? inputId)) ;;
          match first items with
          | None => throw NOT_FOUND "Course item not found."
          | Some existing =>
              if negb (CourseItems.courseId existing =? courseId input) then
                throw NOT_FOUND "Course item not found."
              else
                updated <- update CourseItemsT baseValues
                             (fun i => CourseItems.id i =? inputId) ;;
                ret {| item := first updated |}
          end
      | None =>
          inserted <- insert CourseItemsT baseValues ;;
          ret {| item := first inserted |}
      end
  end.
End saveCourseItem.

Module deleteCourseItem.
Record input := { id : Z; courseId : Z }.

Record output := { item : CourseItems.row }.

Definition handler (input : input) (context : ActionAPIContext) : Action output :=
  user <- requireUser context ;;
  found <- limit1 (select CoursesT (ownedCourse (courseId input) (User.id user))) ;;
  match first found with
  | None => throw NOT_FOUND "Course not found."
  | Some course =>
      removed <- delete CourseItemsT
                   (fun i => (CourseItems.id i =? id input)
                             && (CourseItems.courseId i =? courseId input)) ;;
      match first removed with
      | None => throw NOT_FOUND "Course item not found."
      | Some deleted => ret {| item := deleted |}
      end
  end.
End deleteCourseItem.

(** ** Progress actions *)

(** A [json] column of a row that was read: SQL [NULL] and the JSON literal
    [null] both read as [null]. *)
Definition ofJsonColumn (x : option Json) : JsOpt Json :=
  match x with
  | None => Null
  | Some JNull => Null
  | Some j => Value j
  end.

Module upsertCourseProgress.
Record input := {
  courseId : Z;
  status : option ProgressStatus.t;
  completionPercent : option Z;
  totalItems : option Z;
  completedItems : option Z;
  lastVisitedItemId : option Z;
  meta : option Json
}.

Record output := { progress : option CourseProgress.row }.

(** [existing?.startedAt] *)
Definition existingStartedAt (existing : option CourseProgress.row) : JsOpt Z :=
  optChain existing (fun e => ofColumn (CourseProgress.startedAt e)).

(** The object [baseValues]; [startedAt] is the value of
    [existing?.startedAt ?? new Date()] and [updatedAt] that of [new Date()].
    It has no [completedAt] and no [createdAt] key. *)
Definition baseValues (input : input) (user : User.t)
    (existing : option CourseProgress.row) (startedAt updatedAt : Z)
  : CourseProgress.values :=
  {| CourseProgress.v_courseId := Some (courseId input);
     CourseProgress.v_userId := Some (User.id user);
     CourseProgress.v_status :=
       Some (nullishOr
               (nullish (ofInput (status input))
                  (optChain existing (fun e => Value (CourseProgress.status e))))
               ProgressStatus.not_started);
     CourseProgress.v_startedAt := Value startedAt;
     CourseProgress.v_completedAt := Undefined;
     CourseProgress.v_completionPercent :=
       Some (nullishOr
               (nullish (ofInput (completionPercent input))
                  (optChain existing (fun e => Value (CourseProgress.completionPercent e))))
               0);
     CourseProgress.v_totalItems :=
       Some (nullishOr
               (nullish (ofInput (totalItems input))
                  (optChain existing (fun e => Value (CourseProgress.totalItems e))))
               0);
     CourseProgress.v_completedItems :=
       Some (nullishOr
               (nullish (ofInput (completedItems input))
                  (optChain existing (fun e => Value (CourseProgress.completedItems e))))
               0);
     CourseProgress.v_lastVisitedItemId :=
       nullish (ofInput (lastVisitedItemId input))
         (optChain existing (fun e => ofColumn (CourseProgress.lastVisitedItemId e)));
     CourseProgress.v_meta :=
       nullish (ofAny (meta input))
         (optChain existing (fun e => ofJsonColumn (CourseProgress.meta e)));
     CourseProgress.v_createdAt := None;
     CourseProgress.v_updatedAt := Some updatedAt |}.

(** [and(eq(CourseProgress.courseId, courseId), eq(CourseProgress.userId, userId))] *)
Definition progressOf (courseId : Z) (userId : string) (p : CourseProgress.row) : bool :=
  (CourseProgress.courseId p =? courseId) && String.eqb (CourseProgress.userId p) userId.

Definition handler (input : input) (context : ActionAPIContext) : Action output :=
  user <- requireUser context ;;
  found <- limit1 (select CoursesT (ownedCourse (courseId input) (User.id user))) ;;
  match first found with
  | None => throw NOT_FOUND "Course not found."
  | Some course =>
      matching <- limit1 (select CourseProgressT
                            (progressOf (courseId input) (User.id user))) ;;
      let existing := first matching in
      startedAt <- match existingStartedAt existing with
                   | Value d => ret d
                   | _ => newDate
                   end ;;
      updatedAt <- newDate ;;
      let baseValues := baseValues input user existing startedAt updatedAt in
      match existing with
      | Some e =>
          updated <- update CourseProgressT baseValues
                       (fun p => CourseProgress.id p =? CourseProgress.id e) ;;
          ret {| progress := first updated |}
      | None =>
          inserted <- insert CourseProgressT baseValues ;;
          ret {| progress := first inserted |}
      end
  end.
End upsertCourseProgress.

Module updateCourseItemProgress.
Record input := {
  itemId : Z;
  status : option ItemProgressStatus.t;
  startedAt : option Z;
  completedAt : option Z;
  notes : option string
}.

Record output := { progress : option CourseItemProgress.row }.

Definition baseValues (input : input) (user : User.t)
    (existing : option CourseItemProgress.row) : CourseItemProgress.values :=
  {| CourseItemProgress.v_itemId := Some (itemId input);
     CourseItemProgress.v_userId := Some (User.id user);
     CourseItemProgress.v_status :=
       Some (nullishOr
               (nullish (ofInput (status input))
                  (optChain existing (fun e => Value (CourseItemProgress.status e))))
               ItemProgressStatus.not_started);
     CourseItemProgress.v_startedAt :=
       nullish (ofInput (startedAt input))
         (optChain existing (fun e => ofColumn (CourseItemProgress.startedAt e)));
     CourseItemProgress.v_completedAt :=
       nullish (ofInput (completedAt input))
         (optChain existing (fun e => ofColumn (CourseItemProgress.completedAt e)));
     CourseItemProgress.v_notes :=
       nullish (ofInput (notes input))
         (optChain existing (fun e => ofColumn (CourseItemProgress.notes e)));
     CourseItemProgress.v_createdAt := None |}.

Definition progressOf (itemId : Z) (userId : string) (p : CourseItemProgress.row) : bool :=
  (CourseItemProgress.itemId p =? itemId)
  && String.eqb (CourseItemProgress.userId p) userId.

Definition handler (input : input) (context : ActionAPIContext) : Action output :=
  user <- requireUser context ;;
  items <- limit1 (select CourseItemsT (fun i => CourseItems.id i =? itemId input)) ;;
  match first items with
  | None => throw NOT_FOUND "Course item not found."
  | Some item =>
      found <- limit1 (select CoursesT
                         (ownedCourse (CourseItems.courseId item) (User.id user))) ;;
      match first found with
      | None => throw NOT_FOUND "Course not found."
      | Some course =>
          matching <- limit1 (select CourseItemProgressT
                                (progressOf (itemId input) (User.id user))) ;;
          let existing := first matching in
          let baseValues := baseValues input user existing in
          match existing with
          | Some e =>
              updated <- update CourseItemProgressT baseValues
                           (fun p => CourseItemProgress.id p =? CourseItemProgress.id e) ;;
              ret {| progress := first updated |}
          | None =>
              inserted <- insert CourseItemProgressT baseValues ;;
              ret {| progress := first inserted |}
          end
      end
  end.
End updateCourseItemProgress.

(** ** The action surface: [export const server = { ... }] *)

Inductive Request :=
  | CreateCourse (i : createCourse.input)
  | UpdateCourse (i : updateCourse.input)
  | ListMyCourses (i : listMyCourses.input)
  | GetCourseWithItems (i : getCourseWithItems.input)
  | SaveCourseItem (i : saveCourseItem.input)
  | DeleteCourseItem (i : deleteCourseItem.input)
  | UpsertCourseProgress (i : upsertCourseProgress.input)
  | UpdateCourseItemProgress (i : updateCourseItemProgress.input).

Inductive Response :=
  | CreateCourseResult (o : createCourse.output)
  | UpdateCourseResult (o : updateCourse.output)
  | ListMyCoursesResult (o : listMyCourses.output)
  | GetCourseWithItemsResult (o : getCourseWithItems.output)
  | SaveCourseItemResult (o : saveCourseItem.output)
  | DeleteCourseItemResult (o : deleteCourseItem.output)
  | UpsertCourseProgressResult (o : upsertCourseProgress.output)
  | UpdateCourseItemProgressResult (o : updateCourseItemProgress.output).

Definition server (r : Request) (context : ActionAPIContext) : Action Response :=
  match r with
  | CreateCourse i =>
      o <- createCourse.handler i context ;; ret (CreateCourseResult o)
  | UpdateCourse i =>
      o <- updateCourse.handler i context ;; ret (UpdateCourseResult o)
  | ListMyCourses i =>
      o <- listMyCourses.handler i context ;; ret (ListMyCoursesResult o)
  | GetCourseWithItems i =>
      o <- getCourseWithItems.handler i context ;; ret (GetCourseWithItemsResult o)
  | SaveCourseItem i =>
      o <- saveCourseItem.handler i context ;; ret (SaveCourseItemResult o)
  | DeleteCourseItem i =>
      o <- deleteCourseItem.handler i context ;; ret (DeleteCourseItemResult o)
  | UpsertCourseProgress i =>
      o <- upsertCourseProgress.handler i context ;; ret (UpsertCourseProgressResult o)
  | UpdateCourseItemProgress i =>
      o <- updateCourseItemProgress.handler i context ;;
      ret (UpdateCourseItemProgressResult o)
  end.

(** ** Worlds used in the examples *)

Definition emptyTable {R} : Table R := {| rows := []; sequence := 0 |}.

Definition emptyDb : Db :=
  {| courses := emptyTable; courseItems := emptyTable;
     courseProgress := emptyTable; courseItemProgress := emptyTable |}.

(** A fresh deployment whose clock reads 1000, 2000, 3000, ... *)
Definition world0 : World :=
  {| db := emptyDb; clock := fun n => 1000 * Z.of_nat (S n); ticks := 0%nat; log := [] |}.

Definition signedIn (userId : string) : ActionAPIContext :=
  {| locals := Some {| user := Some {| User.id := userId |} |} |}.

Definition anonymous : ActionAPIContext :=
  {| locals := Some {| user := None |} |}.

(** The world after the action, whatever its outcome. *)
Definition after {A} (m : Action A) (w : World) : World := snd (m w).

Definition alice : User.t := {| User.id := "alice" |}.
Definition bob : User.t := {| User.id := "bob" |}.

Definition introToGo : createCourse.input :=
  {| createCourse.title := "Intro to Go";
     createCourse.description := None;
     createCourse.provider := None;
     createCourse.platform := None;
     createCourse.url := None;
     createCourse.level := None;
     createCourse.tags := None;
     createCourse.status := None |}.

(** Alice has created the course "Intro to Go": it is course 1. *)
Definition world1 : World :=
  after (createCourse.handler introToGo (signedIn "alice")) world0.

Definition lesson1 : saveCourseItem.input :=
  {| saveCourseItem.id := None;
     saveCourseItem.courseId := 1;
     saveCourseItem.type := Some ItemType.quiz;
     saveCourseItem.title := "Lesson 1";
     saveCourseItem.description := Some "Read chapter 1";
     saveCourseItem.position := Some 3;
     saveCourseItem.dueDate := None;
     saveCourseItem.estimatedMinutes := Some 45;
     saveCourseItem.isRequired := Some false |}.

(** ... and has added an item to it: item 1. *)
Definition world2 : World :=
  after (saveCourseItem.handler lesson1 (signedIn "alice")) world1.

Definition halfway : upsertCourseProgress.input :=
  {| upsertCourseProgress.courseId := 1;
     upsertCourseProgress.status := Some ProgressStatus.in_progress;
     upsertCourseProgress.completionPercent := Some 50;
     upsertCourseProgress.totalItems := Some 2;
     upsertCourseProgress.completedItems := Some 1;
     upsertCourseProgress.lastVisitedItemId := Some 1;
     upsertCourseProgress.meta := Some (JStr "draft") |}.

(** ... and has recorded her progress on it: progress row 1. *)
Definition world3 : World :=
  after (upsertCourseProgress.handler halfway (signedIn "alice")) world2.

(** The second save of item 1, with the title only. *)
Definition retitle : saveCourseItem.input :=
  {| saveCourseItem.id := Some 1;
     saveCourseItem.courseId := 1;
     saveCourseItem.type := None;
     saveCourseItem.title := "Lesson 1, revised";
     saveCourseItem.description := None;
     saveCourseItem.position := None;
     saveCourseItem.dueDate := None;
     saveCourseItem.estimatedMinutes := None;
     saveCourseItem.isRequired := None |}.

(** A progress update that sends [meta: null] and nothing else. *)
Definition clearMeta : upsertCourseProgress.input :=
  {| upsertCourseProgress.courseId := 1;
     upsertCourseProgress.status := None;
     upsertCourseProgress.completionPercent := None;
     upsertCourseProgress.totalItems := None;
     upsertCourseProgress.completedItems := None;
     upsertCourseProgress.lastVisitedItemId := None;
     upsertCourseProgress.meta := Some JNull |}.

(** The rows of [world3]. *)
Definition course1 : Courses.row :=
  {| Courses.id := 1;
     Courses.ownerId := "alice";
     Courses.title := "Intro to Go";
     Courses.description := None;
     Courses.provider := None;
     Courses.platform := None;
     Courses.url := None;
     Courses.level := Level.beginner;
     Courses.tags := None;
     Courses.status := CourseStatus.planned;
     Courses.createdAt := 1000;
     Courses.updatedAt := 2000 |}.

Definition item1 : CourseItems.row :=
  {| CourseItems.id := 1;
     CourseItems.courseId := 1;
     CourseItems.type := ItemType.quiz;
     CourseItems.title := "Lesson 1";
     CourseItems.description := Some "Read chapter 1";
     CourseItems.position := 3;
     CourseItems.dueDate := None;
     CourseItems.estimatedMinutes := Some 45;
     CourseItems.isRequired := false;
     CourseItems.createdAt := 4000 |}.

Definition progress1 : CourseProgress.row :=
  {| CourseProgress.id := 1;
     CourseProgress.courseId := 1;
     CourseProgress.userId := "alice";
     CourseProgress.status := ProgressStatus.in_progress;
     CourseProgress.startedAt := Some 6000;
     CourseProgress.completedAt := None;
     CourseProgress.completionPercent := 50;
     CourseProgress.totalItems := 2;
     CourseProgress.completedItems := 1;
     CourseProgress.lastVisitedItemId := Some 1;
     CourseProgress.meta := Some (JStr "draft");
     CourseProgress.createdAt := 8000;
     CourseProgress.updatedAt := 7000 |}.

(** A second item for course 1, without an id. *)
Definition lesson2 : saveCourseItem.input :=
  {| saveCourseItem.id := None;
     saveCourseItem.courseId := 1;
     saveCourseItem.type := None;
     saveCourseItem.title := "Lesson 2";
     saveCourseItem.description := None;
     saveCourseItem.position := None;
     saveCourseItem.dueDate := None;
     saveCourseItem.estimatedMinutes := None;
     saveCourseItem.isRequired := None |}.

(** A progress update that carries the percentage only. *)
Definition almostDone : upsertCourseProgress.input :=
  {| upsertCourseProgress.courseId := 1;
     upsertCourseProgress.status := None;
     upsertCourseProgress.completionPercent := Some 90;
     upsertCourseProgress.totalItems := None;
     upsertCourseProgress.completedItems := None;
     upsertCourseProgress.lastVisitedItemId := None;
     upsertCourseProgress.meta := None |}.

(** A removal of an item that course 1 does not have. *)
Definition removeMissing : deleteCourseItem.input :=
  {| deleteCourseItem.id := 7; deleteCourseItem.courseId := 1 |}.

(** An update of course 1 that carries the status only. *)
Definition startCourse : updateCourse.input :=
  {| updateCourse.id := 1;
     updateCourse.title := None;
     updateCourse.description := None;
     updateCourse.provider := None;
     updateCourse.platform := None;
     updateCourse.url := None;
     updateCourse.level := None;
     updateCourse.tags := None;
     updateCourse.status := Some CourseStatus.in_progress |}.

(** ** Consistency of a database

    What the schema and the actions maintain: primary keys are positive and
    unique in each table, a progress table holds at most one row per
    (parent, user) pair, and a course progress row has a start date and keeps
    an absent [meta] as SQL [NULL]. *)

Definition keysOk {R} (key : R -> Z) (t : Table R) : Prop :=
  NoDup (map key (rows t))
  /\ Forall (fun r => 0 < key r) (rows t)
  /\ 0 <= sequence t.

Definition progressKey (p : CourseProgress.row) : Z * string :=
  (CourseProgress.courseId p, CourseProgress.userId p).

Definition itemProgressKey (p : CourseItemProgress.row) : Z * string :=
  (CourseItemProgress.itemId p, CourseItemProgress.userId p).

Record consistent (d : Db) : Prop := {
  coursesKeys : keysOk Courses.id (courses d);
  courseItemsKeys : keysOk CourseItems.id (courseItems d);
  courseProgressKeys : keysOk CourseProgress.id (courseProgress d);
  courseItemProgressKeys : keysOk CourseItemProgress.id (courseItemProgress d);
  courseProgressUnique : NoDup (map progressKey (rows (courseProgress d)));
  courseItemProgressUnique : NoDup (map itemProgressKey (rows (courseItemProgress d)));
  courseProgressStarted :
    Forall (fun p => CourseProgress.startedAt p <> None) (rows (courseProgress d));
  courseProgressMeta :
    Forall (fun p => CourseProgress.meta p <> Some JNull) (rows (courseProgress d))
}.

(** The worlds the actions can produce from an empty database. *)
Inductive reachable : World -> Prop :=
  | reachable_init (c : nat -> Z) :
      reachable {| db := emptyDb; clock := c; ticks := 0%nat; log := [] |}
  | reachable_step (w : World) (r : Request) (context : ActionAPIContext) :
      reachable w -> reachable (after (server r context) w).

(** The user owns the course with this key. *)
Definition owns (userId : string) (courseId : Z) (d : Db) : Prop :=
  exists c, In c (rows (courses d))
            /\ Courses.id c = courseId /\ Courses.ownerId c = userId.

(** The course progress row of a user, when there is one: [existing] is a row
    of the table with this (courseId, userId), or nothing and the table has no
    such row. *)
Definition existingProgress (d : Db) (courseId : Z) (userId : string)
    (existing : option CourseProgress.row) : Prop :=
  match existing with
  | Some e => In e (rows (courseProgress d)) /\ progressKey e = (courseId, userId)
  | None => forall e, In e (rows (courseProgress d)) -> progressKey e <> (courseId, userId)
  end.

(** "Input value if supplied, else the existing row's value if a row exists,
    else a default." *)
Definition effective {A R} (supplied : option A) (existing : option R)
    (column : R -> A) (default : A) : A :=
  match supplied, existing with
  | Some a, _ => a
  | None, Some e => column e
  | None, None => default
  end.

(** The same for a nullable column, whose default is [NULL]. *)
Definition effectiveOpt {A R} (supplied : option A) (existing : option R)
    (column : R -> option A) : option A :=
  match supplied, existing with
  | Some a, _ => Some a
  | None, Some e => column e
  | None, None => None
  end.

(** A [meta] input that is given and is not the JSON literal [null]. *)
Definition suppliedMeta (m : option Json) : option Json :=
  match m with
  | Some JNull => None
  | other => other
  end.

(** The row [upsertCourseProgress] leaves for the user: the existing row
    rewritten, or a new row with key [newId]; [t0], [t1] and [t2] are the next
    three readings of the clock. *)
Definition progressAfter (i : upsertCourseProgress.input) (userId : string)
    (existing : option CourseProgress.row) (newId t0 t1 t2 : Z) : CourseProgress.row :=
  {| CourseProgress.id :=
       match existing with Some e => CourseProgress.id e | None => newId end;
     CourseProgress.courseId := upsertCourseProgress.courseId i;
     CourseProgress.userId := userId;
     CourseProgress.status :=
       effective (upsertCourseProgress.status i) existing
         CourseProgress.status ProgressStatus.not_started;
     CourseProgress.startedAt :=
       match existing with Some e => CourseProgress.startedAt e | None => Some t0 end;
     CourseProgress.completedAt :=
       match existing with Some e => CourseProgress.completedAt e | None => None end;
     CourseProgress.completionPercent :=
       effective (upsertCourseProgress.completionPercent i) existing
         CourseProgress.completionPercent 0;
     CourseProgress.totalItems :=
       effective (upsertCourseProgress.totalItems i) existing CourseProgress.totalItems 0;
     CourseProgress.completedItems :=
       effective (upsertCourseProgress.completedItems i) existing
         CourseProgress.completedItems 0;
     CourseProgress.lastVisitedItemId :=
       effectiveOpt (upsertCourseProgress.lastVisitedItemId i) existing
         CourseProgress.lastVisitedItemId;
     CourseProgress.meta :=
       effectiveOpt (suppliedMeta (upsertCourseProgress.meta i)) existing
         CourseProgress.meta;
     CourseProgress.createdAt :=
       match existing with Some e => CourseProgress.createdAt e | None => t2 end;
     CourseProgress.updatedAt :=
       match existing with Some _ => t0 | None => t1 end |}.

(** No statement of the list writes to a table. *)
Definition onlyReads (stmts : list Statement) : Prop :=
  forallb (fun s => negb (mutating s)) stmts = true.

(** The outcome of [throw new ActionError({ code, message })]. *)
Definition thrown {A} (c : ActionErrorCode) (msg : string) : Outcome A :=
  Throw {| code := c; message := msg |}.

(** ** The rest of the action surface *)

(** The status a [listMyCourses] input asks for, if any: [input?.status]. *)
Definition wantedStatus (i : listMyCourses.input) : option CourseStatus.t :=
  match i with
  | Some f => listMyCourses.status f
  | None => None
  end.

(** The item progress row of a user, when there is one. *)
Definition existingItemProgress (d : Db) (itemId : Z) (userId : string)
    (existing : option CourseItemProgress.row) : Prop :=
  match existing with
  | Some e => In e (rows (courseItemProgress d)) /\ itemProgressKey e = (itemId, userId)
  | None =>
      forall e, In e (rows (courseItemProgress d)) -> itemProgressKey e <> (itemId, userId)
  end.

(** The row [updateCourseItemProgress] leaves for the user: the existing row
    rewritten, or a new row with key [newId] created at [now]. *)
Definition itemProgressAfter (i : updateCourseItemProgress.input) (userId : string)
    (existing : option CourseItemProgress.row) (newId now : Z)
  : CourseItemProgress.row :=
  {| CourseItemProgress.id :=
       match existing with Some e => CourseItemProgress.id e | None => newId end;
     CourseItemProgress.itemId := updateCourseItemProgress.itemId i;
     CourseItemProgress.userId := userId;
     CourseItemProgress.status :=
       effective (updateCourseItemProgress.status i) existing
         CourseItemProgress.status ItemProgressStatus.not_started;
     CourseItemProgress.startedAt :=
       effectiveOpt (updateCourseItemProgress.startedAt i) existing
         CourseItemProgress.startedAt;
     CourseItemProgress.completedAt :=
       effectiveOpt (updateCourseItemProgress.completedAt i) existing
         CourseItemProgress.completedAt;
     CourseItemProgress.notes :=
       effectiveOpt (updateCourseItemProgress.notes i) existing
         CourseItemProgress.notes;
     CourseItemProgress.createdAt :=
       match existing with Some e => CourseItemProgress.createdAt e | None => now end |}.

(** What the rows point to: every item belongs to a course of the table, and
    every course progress row belongs to a user who owns its course. *)
Definition references (d : Db) : Prop :=
  (forall it, In it (rows (courseItems d)) ->
     exists c, In c (rows (courses d)) /\ Courses.id c = CourseItems.courseId it)
  /\ (forall p, In p (rows (courseProgress d)) ->
       owns (CourseProgress.userId p) (CourseProgress.courseId p) d).

(** The id of the acting user, if there is one. *)
Definition actingUserId (context : ActionAPIContext) : option string :=
  match currentUser context with
  | Some u => Some (User.id u)
  | None => None
  end.

(** The table an action writes to, if it writes at all. *)
Definition target (r : Request) : option TableName :=
  match r with
  | CreateCourse _ | UpdateCourse _ => Some TCourses
  | ListMyCourses _ | GetCourseWithItems _ => None
  | SaveCourseItem _ | DeleteCourseItem _ => Some TCourseItems
  | UpsertCourseProgress _ => Some TCourseProgress
  | UpdateCourseItemProgress _ => Some TCourseItemProgress
  end.

(** The writing statements an action may send. *)
Definition allowedWrites (r : Request) : list Statement :=
  match r with
  | CreateCourse _ => [INSERT TCourses]
  | UpdateCourse _ => [UPDATE TCourses]
  | ListMyCourses _ | GetCourseWithItems _ => []
  | SaveCourseItem _ => [INSERT TCourseItems; UPDATE TCourseItems]
  | DeleteCourseItem _ => [DELETE TCourseItems]
  | UpsertCourseProgress _ => [INSERT TCourseProgress; UPDATE TCourseProgress]
  | UpdateCourseItemProgress _ =>
      [INSERT TCourseItemProgress; UPDATE TCourseItemProgress]
  end.

(** The acting user owns the course with this key. *)
Definition actingOwns (context : ActionAPIContext) (courseId : Z) (d : Db) : Prop :=
  exists u, currentUser context = Some u /\ owns (User.id u) courseId d.

(** Further inputs for the examples. *)
Definition plannedOnly : listMyCourses.input :=
  Some {| listMyCourses.status := Some CourseStatus.planned |}.

Definition removeItem1 : deleteCourseItem.input :=
  {| deleteCourseItem.id := 1; deleteCourseItem.courseId := 1 |}.

(** [lesson2] sent with [id: 0]. *)
Definition lessonZero : saveCourseItem.input :=
  {| saveCourseItem.id := Some 0;
     saveCourseItem.courseId := 1;
     saveCourseItem.type := None;
     saveCourseItem.title := "Lesson 2";
     saveCourseItem.description := None;
     saveCourseItem.position := None;
     saveCourseItem.dueDate := None;
     saveCourseItem.estimatedMinutes := None;
     saveCourseItem.isRequired := None |}.

(** [lesson2] sent with the id of no item. *)
Definition lessonNine : saveCourseItem.input :=
  {| saveCourseItem.id := Some 9;
     saveCourseItem.courseId := 1;
     saveCourseItem.type := None;
     saveCourseItem.title := "Lesson 2";
     saveCourseItem.description := None;
     saveCourseItem.position := None;
     saveCourseItem.dueDate := None;
     saveCourseItem.estimatedMinutes := None;
     saveCourseItem.isRequired := None |}.

Definition itemStarted : updateCourseItemProgress.input :=
  {| updateCourseItemProgress.itemId := 1;
     updateCourseItemProgress.status := Some ItemProgressStatus.in_progress;
     updateCourseItemProgress.startedAt := Some 500;
     updateCourseItemProgress.completedAt := None;
     updateCourseItemProgress.notes := Some "first pass" |}.


Definition itemFive : updateCourseItemProgress.input :=
  {| updateCourseItemProgress.itemId := 5;
     updateCourseItemProgress.status := None;
     updateCourseItemProgress.startedAt := None;
     updateCourseItemProgress.completedAt := None;
     updateCourseItemProgress.notes := None |}.

(** ** What the storage layer asks of a write

    Two checks of the storage layer are outside the statements modelled above:
    the [references] the schema declares (a write of
    [CourseProgress.lastVisitedItemId] must name an item of the table, a
    [CourseItems] row that is still named by a progress row cannot be deleted),
    and the refusal of the driver to hand back an integer beyond
    [Number.MAX_SAFE_INTEGER].  A write that fails one of them ends the action
    with a storage failure.  The properties that say a write succeeds state
    these conditions as hypotheses. *)

(** [Number.MAX_SAFE_INTEGER], 2^53 - 1. *)
Definition maxSafeInteger : Z := 9007199254740991.

Definition safeInteger (z : Z) : Prop := - maxSafeInteger <= z <= maxSafeInteger.

Definition safeOpt (x : option Z) : Prop :=
  match x with
  | Some z => safeInteger z
  | None => True
  end.

(** The value of a column that references [CourseItems.id]: unset, or the key
    of an item of the table. *)
Definition namesItem (d : Db) (x : option Z) : Prop :=
  match x with
  | Some k => exists it, In it (rows (courseItems d)) /\ CourseItems.id it = k
  | None => True
  end.

(** The numbers an [upsertCourseProgress] input supplies are safe integers. *)
Definition safeProgressInput (i : upsertCourseProgress.input) : Prop :=
  safeOpt (upsertCourseProgress.completionPercent i)
  /\ safeOpt (upsertCourseProgress.totalItems i)
  /\ safeOpt (upsertCourseProgress.completedItems i)
  /\ safeOpt (upsertCourseProgress.lastVisitedItemId i).

(** A course progress row the storage layer accepts and hands back: its
    numbers are safe integers and its lastVisitedItemId names an item. *)
Definition acceptableProgress (d : Db) (p : CourseProgress.row) : Prop :=
  safeInteger (CourseProgress.completionPercent p)
  /\ safeInteger (CourseProgress.totalItems p)
  /\ safeInteger (CourseProgress.completedItems p)
  /\ safeOpt (CourseProgress.lastVisitedItemId p)
  /\ namesItem d (CourseProgress.lastVisitedItemId p).

(** No progress row names the item with this key. *)
Definition unreferenced (d : Db) (itemId : Z) : Prop :=
  (forall p, In p (rows (courseProgress d)) ->
     CourseProgress.lastVisitedItemId p <> Some itemId)
  /\ (forall p, In p (rows (courseItemProgress d)) ->
       CourseItemProgress.itemId p <> itemId).

(** * Properties *)

(** ** Lists *)

Lemma first_firstn1 {R} (l : list R) : first (firstn 1 l) = first l.
Proof. destruct l; reflexivity. Qed.

Lemma first_filter {R} (p : R -> bool) (l : list R) :
  first (filter p l) = find p l.
Proof.
  induction l as [|x l IH]; cbn; [reflexivity|].
  destruct (p x); [reflexivity | exact IH].
Qed.

Lemma filter_none {R} (p : R -> bool) (l : list R) :
  (forall x, In x l -> p x = false) -> filter p l = [].
Proof.
  induction l as [|x l IH]; cbn; intros H; [reflexivity|].
  rewrite (H x (or_introl eq_refl)). apply IH. intros y Hy. apply H. now right.
Qed.

Lemma filter_nil_inv {R} (p : R -> bool) (l : list R) :
  filter p l = [] -> forall x, In x l -> p x = false.
Proof.
  induction l as [|y l IH]; cbn; intros H x Hx; [contradiction|].
  destruct (p y) eqn:E; [discriminate|].
  destruct Hx as [->|Hx]; [exact E | now apply IH].
Qed.

Lemma filter_negb_all {R} (p : R -> bool) (l : list R) :
  filter p l = [] -> filter (fun r => negb (p r)) l = l.
Proof.
  induction l as [|y l IH]; cbn; intros H; [reflexivity|].
  destruct (p y) eqn:E; [discriminate|]. cbn. f_equal. now apply IH.
Qed.

Lemma key_injective {R K} (key : R -> K) (l : list R) (x y : R) :
  NoDup (map key l) -> In x l -> In y l -> key x = key y -> x = y.
Proof.
  induction l as [|z l IH]; cbn; intros Hnd Hx Hy E; [contradiction|].
  inversion Hnd as [|? ? Hnotin Hnd']; subst.
  destruct Hx as [->|Hx], Hy as [->|Hy]; try reflexivity.
  - exfalso. apply Hnotin. rewrite E. now apply in_map.
  - exfalso. apply Hnotin. rewrite <- E. now apply in_map.
  - now apply IH.
Qed.

(** ** The guard and the lookup of an owned course *)

Lemma db_same (w : World) (s : Statement) : db (sent s (db w) w) = db w.
Proof. reflexivity. Qed.

Lemma owned_other_none (l : list Courses.row) (c : Courses.row) (userId : string) :
  NoDup (map Courses.id l) -> In c l -> Courses.ownerId c <> userId ->
  filter (ownedCourse (Courses.id c) userId) l = [].
Proof.
  intros Hnd Hc Hne. apply filter_none. intros r Hr. unfold ownedCourse.
  destruct (Z.eqb_spec (Courses.id r) (Courses.id c)) as [E|E]; [|reflexivity].
  assert (r = c) by (eapply key_injective; eauto). subst r. cbn.
  now apply String.eqb_neq.
Qed.

Lemma owned_found (l : list Courses.row) (c : Courses.row) :
  NoDup (map Courses.id l) -> In c l ->
  find (ownedCourse (Courses.id c) (Courses.ownerId c)) l = Some c.
Proof.
  intros Hnd Hc.
  destruct (find _ l) as [r|] eqn:E.
  - apply find_some in E. destruct E as [Hr Ho]. unfold ownedCourse in Ho.
    apply andb_true_iff in Ho. destruct Ho as [Hid _]. apply Z.eqb_eq in Hid.
    f_equal. eapply key_injective; eauto.
  - eapply find_none in E; [|exact Hc]. unfold ownedCourse in E.
    now rewrite Z.eqb_refl, String.eqb_refl in E.
Qed.

(** Running an action: unfold the combinators and the statements, and compute
    on the world only. *)
Ltac splits := repeat match goal with |- _ /\ _ => split end.

Ltac run :=
  unfold limit1;
  unfold bind, ret, throw, select, insert, update, delete, newDate;
  cbn [fst snd db clock ticks log sent getTable putTable tableName primaryKey
       buildRow setRow CoursesT CourseItemsT CourseProgressT CourseItemProgressT
       courses courseItems courseProgress courseItemProgress rows sequence].

(** C7: with no authenticated user in the request context every action throws
    UNAUTHORIZED, whatever its input, and it does so before anything else: the
    world is the one the action started in. *)
Theorem unauthorized_without_user (r : Request) (context : ActionAPIContext) (w : World) :
  currentUser context = None ->
  server r context w
  = (Throw {| code := UNAUTHORIZED;
              message := "You must be signed in to perform this action." |}, w).
Proof.
  intros H.
  destruct r; cbn;
    unfold createCourse.handler, updateCourse.handler, listMyCourses.handler,
      getCourseWithItems.handler, saveCourseItem.handler, deleteCourseItem.handler,
      upsertCourseProgress.handler, updateCourseItemProgress.handler,
      bind, requireUser; rewrite H; reflexivity.
Qed.

Lemma unauthorized_without_user_witness :
  currentUser anonymous = None
  /\ server (GetCourseWithItems {| getCourseWithItems.id := 1 |}) anonymous world0
     = (Throw {| code := UNAUTHORIZED;
                 message := "You must be signed in to perform this action." |}, world0).
Proof.
  split; [reflexivity|].
  apply (unauthorized_without_user _ anonymous world0). reflexivity.
Defined.

(** C1: a course that exists but belongs to somebody else is not found:
    [updateCourse] and [getCourseWithItems] by its id and [deleteCourseItem]
    by its courseId throw NOT_FOUND "Course not found.", and the database is
    left as it was. *)
Theorem not_found_for_other_owner
    (w : World) (context : ActionAPIContext) (u : User.t) (c : Courses.row) :
  currentUser context = Some u ->
  NoDup (map Courses.id (rows (courses (db w)))) ->
  In c (rows (courses (db w))) ->
  Courses.ownerId c <> User.id u ->
  (forall i, updateCourse.id i = Courses.id c ->
     fst (updateCourse.handler i context w) = thrown NOT_FOUND "Course not found."
     /\ db (after (updateCourse.handler i context) w) = db w)
  /\ (forall i, getCourseWithItems.id i = Courses.id c ->
     fst (getCourseWithItems.handler i context w) = thrown NOT_FOUND "Course not found."
     /\ db (after (getCourseWithItems.handler i context) w) = db w)
  /\ (forall i, deleteCourseItem.courseId i = Courses.id c ->
     fst (deleteCourseItem.handler i context w) = thrown NOT_FOUND "Course not found."
     /\ db (after (deleteCourseItem.handler i context) w) = db w).
Proof.
  intros Hu Hnd Hc Hne.
  pose proof (owned_other_none _ c (User.id u) Hnd Hc Hne) as Hnone.
  split; [|split]; intros i Hi;
    unfold after, updateCourse.handler, getCourseWithItems.handler,
      deleteCourseItem.handler, requireUser; rewrite Hu; run;
    rewrite Hi, Hnone; split; reflexivity.
Qed.

Lemma filter_unique {R K} (key : R -> K) (p : R -> bool) (l : list R) (c : R) :
  NoDup (map key l) -> In c l ->
  (forall r, In r l -> p r = true <-> key r = key c) ->
  filter p l = [c].
Proof.
  induction l as [|z l IH]; cbn; intros Hnd Hc Hp; [contradiction|].
  inversion Hnd as [|? ? Hnotin Hnd']; subst.
  destruct Hc as [->|Hc].
  - destruct (p c) eqn:E.
    + f_equal. apply filter_none. intros r Hr.
      destruct (p r) eqn:Er; [|reflexivity].
      apply (Hp r (or_intror Hr)) in Er.
      exfalso. apply Hnotin. rewrite <- Er. now apply in_map.
    + assert (p c = true) by (now apply Hp; [left|]). congruence.
  - destruct (p z) eqn:E.
    + apply (Hp z (or_introl eq_refl)) in E.
      exfalso. apply Hnotin. rewrite E. now apply in_map.
    + apply IH; auto.
Qed.

Lemma filter_by_key {R} (key : R -> Z) (p : R -> bool) (l : list R) (c : R) :
  NoDup (map key l) -> In c l ->
  (forall r, In r l -> p r = (key r =? key c)) ->
  filter p l = [c].
Proof.
  intros Hnd Hc Hp. apply (filter_unique key); auto.
  intros r Hr. rewrite (Hp r Hr). apply Z.eqb_eq.
Qed.

Lemma owned_is_key (l : list Courses.row) (c r : Courses.row) :
  NoDup (map Courses.id l) -> In c l -> In r l ->
  ownedCourse (Courses.id c) (Courses.ownerId c) r = (Courses.id r =? Courses.id c).
Proof.
  intros Hnd Hc Hr. unfold ownedCourse.
  destruct (Z.eqb_spec (Courses.id r) (Courses.id c)) as [E|E]; [|reflexivity].
  assert (r = c) by (eapply key_injective; eauto). subst r.
  cbn. apply String.eqb_refl.
Qed.

Lemma owned_filter (l : list Courses.row) (c : Courses.row) :
  NoDup (map Courses.id l) -> In c l ->
  filter (ownedCourse (Courses.id c) (Courses.ownerId c)) l = [c].
Proof.
  intros Hnd Hc. apply (filter_by_key Courses.id); auto.
  intros r Hr. now apply (owned_is_key l).
Qed.

(** ** createCourse *)

(** C5: the course [createCourse] returns to an authenticated user belongs to
    that user, has the level of the input or "beginner", and the status of the
    input or "planned"; it is the row appended to the table. *)
Theorem createCourse_owner_and_defaults
    (i : createCourse.input) (context : ActionAPIContext) (u : User.t) (w : World) :
  currentUser context = Some u ->
  exists c,
    fst (createCourse.handler i context w)
    = Return {| createCourse.course := Some c |}
    /\ Courses.ownerId c = User.id u
    /\ Courses.level c
       = match createCourse.level i with Some l => l | None => Level.beginner end
    /\ Courses.status c
       = match createCourse.status i with Some s => s | None => CourseStatus.planned end
    /\ Courses.title c = createCourse.title i
    /\ rows (courses (db (after (createCourse.handler i context) w)))
       = rows (courses (db w)) ++ [c].
Proof.
  intros Hu. unfold after, createCourse.handler, requireUser. rewrite Hu. run.
  cbn. eexists. repeat split.
Qed.

(** ** updateCourse *)

Lemma spread_entries (i : updateCourse.input) (updatedAt : Z) :
  updateCourse.spread (updateCourse.defined (updateCourse.entries i)) updatedAt
  = {| Courses.v_ownerId := None;
       Courses.v_title := updateCourse.title i;
       Courses.v_description := ofInput (updateCourse.description i);
       Courses.v_provider := ofInput (updateCourse.provider i);
       Courses.v_platform := ofInput (updateCourse.platform i);
       Courses.v_url := ofInput (updateCourse.url i);
       Courses.v_level := updateCourse.level i;
       Courses.v_tags := ofInput (updateCourse.tags i);
       Courses.v_status := updateCourse.status i;
       Courses.v_createdAt := None;
       Courses.v_updatedAt := Some updatedAt |}.
Proof.
  destruct i as [id [t|] [d|] [p|] [pl|] [u|] [l|] [tg|] [s|]]; reflexivity.
Qed.

Lemma no_entries (i : updateCourse.input) :
  (List.length (updateCourse.defined (updateCourse.entries i)) =? 0)%nat = true
  <-> updateCourse.onlyId i.
Proof.
  unfold updateCourse.onlyId.
  destruct i as [id [t|] [d|] [p|] [pl|] [u|] [l|] [tg|] [s|]]; cbn;
    split; intros H; try discriminate; try (repeat split; reflexivity);
    repeat match goal with H : _ /\ _ |- _ => destruct H end; discriminate.
Qed.

(** C4: [updateCourse] on an owned course leaves every field that is absent
    from the input as it was (and never touches id, ownerId and createdAt); the
    other courses are untouched.  With an input that carries only the id no
    statement but the lookup is sent, the database is unchanged and the record
    returned is the existing one, updatedAt included. *)
Theorem updateCourse_frame
    (i : updateCourse.input) (context : ActionAPIContext) (u : User.t)
    (c : Courses.row) (w : World) :
  currentUser context = Some u ->
  NoDup (map Courses.id (rows (courses (db w)))) ->
  In c (rows (courses (db w))) ->
  Courses.ownerId c = User.id u ->
  updateCourse.id i = Courses.id c ->
  let w' := after (updateCourse.handler i context) w in
  exists c',
    fst (updateCourse.handler i context w) = Return {| updateCourse.course := Some c' |}
    /\ rows (courses (db w'))
       = map (fun r => if Courses.id r =? Courses.id c then c' else r)
             (rows (courses (db w)))
    /\ (updateCourse.title i = None -> Courses.title c' = Courses.title c)
    /\ (updateCourse.description i = None -> Courses.description c' = Courses.description c)
    /\ (updateCourse.provider i = None -> Courses.provider c' = Courses.provider c)
    /\ (updateCourse.platform i = None -> Courses.platform c' = Courses.platform c)
    /\ (updateCourse.url i = None -> Courses.url c' = Courses.url c)
    /\ (updateCourse.level i = None -> Courses.level c' = Courses.level c)
    /\ (updateCourse.tags i = None -> Courses.tags c' = Courses.tags c)
    /\ (updateCourse.status i = None -> Courses.status c' = Courses.status c)
    /\ Courses.id c' = Courses.id c
    /\ Courses.ownerId c' = Courses.ownerId c
    /\ Courses.createdAt c' = Courses.createdAt c
    /\ (updateCourse.onlyId i ->
        c' = c /\ db w' = db w /\ log w' = log w ++ [SELECT TCourses]).
Proof.
  intros Hu Hnd Hc Ho Hi w'. subst w'.
  unfold after, updateCourse.handler, requireUser. rewrite Hu. run.
  rewrite first_firstn1, Hi, <- Ho, owned_filter by assumption.
  cbn [first hd_error].
  destruct (List.length _ =? 0)%nat eqn:E.
  - apply no_entries in E. destruct E as (E1 & E2 & E3 & E4 & E5 & E6 & E7 & E8).
    exists c. cbn [fst snd db log sent]. repeat split; try assumption.
    rewrite <- (map_id (rows (courses (db w)))) at 1.
    apply map_ext_in. intros r Hr.
    destruct (Z.eqb_spec (Courses.id r) (Courses.id c)); [|reflexivity].
    eapply key_injective; eauto.
  - run. rewrite spread_entries, owned_filter by assumption.
    cbn [map first hd_error].
    eexists. split; [reflexivity|]. split.
    + apply map_ext_in. intros r Hr.
      rewrite (owned_is_key _ c r Hnd Hc Hr).
      destruct (Z.eqb_spec (Courses.id r) (Courses.id c)) as [E'|E']; [|reflexivity].
      assert (r = c) by (eapply key_injective; eauto). now subst r.
    + repeat match goal with |- _ /\ _ => split end;
        try reflexivity;
        try (intros E0; cbn; rewrite E0; reflexivity).
      intros Honly. apply no_entries in Honly. congruence.
Qed.

(** ** Keys *)

Lemma fold_max_ge_init (s : Z) (l : list Z) : s <= fold_right Z.max s l.
Proof. induction l as [|x l IH]; cbn; lia. Qed.

Lemma fold_max_ge_in (s : Z) (l : list Z) (x : Z) :
  In x l -> x <= fold_right Z.max s l.
Proof.
  induction l as [|y l IH]; cbn; intros H; [contradiction|].
  destruct H as [->|H]; [lia|]. specialize (IH H). lia.
Qed.

Lemma nextId_above {R} (key : R -> Z) (t : Table R) (r : R) :
  In r (rows t) -> key r < nextId key t.
Proof.
  intros H. unfold nextId. apply (in_map key) in H.
  destruct (map key (rows t)) as [|k ks]; [contradiction|].
  destruct H as [<-|H].
  - pose proof (fold_max_ge_init k ks). lia.
  - pose proof (fold_max_ge_in k ks (key r) H). lia.
Qed.

Lemma nextId_fresh {R} (key : R -> Z) (t : Table R) :
  ~ In (nextId key t) (map key (rows t)).
Proof.
  intros H. apply in_map_iff in H. destruct H as (r & E & Hr).
  pose proof (nextId_above key t r Hr). lia.
Qed.

Lemma nextId_positive {R} (key : R -> Z) (t : Table R) :
  Forall (fun r => 0 < key r) (rows t) -> 0 < nextId key t.
Proof.
  intros H. unfold nextId. destruct (rows t) as [|r l]; cbn [map]; [lia|].
  inversion H as [|? ? Hr _]; subst.
  pose proof (fold_max_ge_init (key r) (map key l)). lia.
Qed.

Lemma find_by_key {R} (key : R -> Z) (l : list R) (c : R) :
  NoDup (map key l) -> In c l ->
  find (fun r => key r =? key c) l = Some c.
Proof.
  intros Hnd Hc. rewrite <- first_filter.
  rewrite (filter_by_key key _ l c Hnd Hc); [reflexivity|]. reflexivity.
Qed.

Lemma owns_found (userId : string) (courseId : Z) (d : Db) :
  owns userId courseId d ->
  exists c, first (firstn 1 (filter (ownedCourse courseId userId) (rows (courses d))))
            = Some c.
Proof.
  intros (c & Hc & Hid & Ho). rewrite first_firstn1, first_filter.
  destruct (find _ _) as [c'|] eqn:E; [now exists c'|].
  eapply find_none in E; [|exact Hc]. unfold ownedCourse in E.
  rewrite Hid, Ho, Z.eqb_refl, String.eqb_refl in E. discriminate.
Qed.

(** ** saveCourseItem *)

(** C6: on a course the user owns, [saveCourseItem] without an id appends one
    new row (with a key no row had) to the items and returns it; with the id of
    an item that belongs to another course than the one named in the input it
    throws NOT_FOUND and leaves the database, hence the courseId of that item,
    as it was. *)
Theorem saveCourseItem_insert_or_not_found
    (i : saveCourseItem.input) (context : ActionAPIContext) (u : User.t) (w : World) :
  currentUser context = Some u ->
  owns (User.id u) (saveCourseItem.courseId i) (db w) ->
  keysOk CourseItems.id (courseItems (db w)) ->
  let w' := after (saveCourseItem.handler i context) w in
  (saveCourseItem.id i = None ->
   exists it,
     fst (saveCourseItem.handler i context w)
     = Return {| saveCourseItem.item := Some it |}
     /\ rows (courseItems (db w')) = rows (courseItems (db w)) ++ [it]
     /\ ~ In (CourseItems.id it) (map CourseItems.id (rows (courseItems (db w))))
     /\ CourseItems.courseId it = saveCourseItem.courseId i)
  /\ (forall e,
        In e (rows (courseItems (db w))) ->
        saveCourseItem.id i = Some (CourseItems.id e) ->
        CourseItems.courseId e <> saveCourseItem.courseId i ->
        fst (saveCourseItem.handler i context w)
        = thrown NOT_FOUND "Course item not found."
        /\ db w' = db w).
Proof.
  intros Hu Hown (Hnd & Hpos & Hseq) w'. subst w'.
  destruct (owns_found _ _ _ Hown) as (c & Hc).
  split.
  - intros Hid. unfold after, saveCourseItem.handler, requireUser. rewrite Hu. run.
    rewrite Hc. unfold saveCourseItem.truthyId. rewrite Hid. run.
    cbn [CourseItems.ofValues saveCourseItem.baseValues CourseItems.v_courseId
         CourseItems.v_title first hd_error].
    eexists. splits; try reflexivity.
    apply (nextId_fresh CourseItems.id).
  - intros e He Hid Hne. unfold after, saveCourseItem.handler, requireUser.
    rewrite Hu. run. rewrite Hc. unfold saveCourseItem.truthyId. rewrite Hid.
    assert (Hk : 0 < CourseItems.id e) by (rewrite Forall_forall in Hpos; auto).
    destruct (Z.eqb_spec (CourseItems.id e) 0) as [E|_]; [lia|].
    run. rewrite first_firstn1, first_filter.
    rewrite (find_by_key CourseItems.id _ e Hnd He).
    destruct (Z.eqb_spec (CourseItems.courseId e) (saveCourseItem.courseId i));
      [contradiction|].
    cbn. split; reflexivity.
Qed.

(** The update path of [saveCourseItem] as it is written: when the id names an
    item of the course, that row and only that row is rewritten; courseId and
    title come from the input, type, position and isRequired from the input or
    else their defaults ("lesson", 0, true), createdAt is the current time.
    The keys description, dueDate and estimatedMinutes of [baseValues] are
    [undefined] when the input omits them, and then the SET clause leaves the
    stored value in place. *)
Theorem saveCourseItem_update
    (i : saveCourseItem.input) (context : ActionAPIContext) (u : User.t)
    (e : CourseItems.row) (w : World) :
  currentUser context = Some u ->
  owns (User.id u) (saveCourseItem.courseId i) (db w) ->
  keysOk CourseItems.id (courseItems (db w)) ->
  In e (rows (courseItems (db w))) ->
  saveCourseItem.id i = Some (CourseItems.id e) ->
  CourseItems.courseId e = saveCourseItem.courseId i ->
  let w' := after (saveCourseItem.handler i context) w in
  let it :=
    {| CourseItems.id := CourseItems.id e;
       CourseItems.courseId := saveCourseItem.courseId i;
       CourseItems.type :=
         match saveCourseItem.type i with Some t => t | None => ItemType.lesson end;
       CourseItems.title := saveCourseItem.title i;
       CourseItems.description :=
         match saveCourseItem.description i with
         | Some d => Some d
         | None => CourseItems.description e
         end;
       CourseItems.position :=
         match saveCourseItem.position i with Some p => p | None => 0 end;
       CourseItems.dueDate :=
         match saveCourseItem.dueDate i with
         | Some d => Some d
         | None => CourseItems.dueDate e
         end;
       CourseItems.estimatedMinutes :=
         match saveCourseItem.estimatedMinutes i with
         | Some m => Some m
         | None => CourseItems.estimatedMinutes e
         end;
       CourseItems.isRequired :=
         match saveCourseItem.isRequired i with Some b => b | None => true end;
       CourseItems.createdAt := clock w (ticks w) |} in
  fst (saveCourseItem.handler i context w) = Return {| saveCourseItem.item := Some it |}
  /\ rows (courseItems (db w'))
     = map (fun r => if CourseItems.id r =? CourseItems.id e then it else r)
           (rows (courseItems (db w))).
Proof.
  intros Hu Hown (Hnd & Hpos & Hseq) He Hid Hcid w' it. subst w'.
  destruct (owns_found _ _ _ Hown) as (c & Hc).
  unfold after, saveCourseItem.handler, requireUser. rewrite Hu. run. rewrite Hc.
  unfold saveCourseItem.truthyId. rewrite Hid.
  assert (Hk : 0 < CourseItems.id e) by (rewrite Forall_forall in Hpos; auto).
  destruct (Z.eqb_spec (CourseItems.id e) 0) as [E|_]; [lia|].
  run. rewrite first_firstn1, first_filter.
  rewrite (find_by_key CourseItems.id _ e Hnd He).
  rewrite Hcid, Z.eqb_refl. cbn [negb]. run.
  rewrite (filter_by_key CourseItems.id _ _ e Hnd He) by reflexivity.
  assert (Hit : CourseItems.applySet
                  (saveCourseItem.baseValues i (clock w (ticks w))) e = it).
  { subst it. unfold CourseItems.applySet, saveCourseItem.baseValues. cbn.
    destruct (saveCourseItem.description i), (saveCourseItem.dueDate i),
      (saveCourseItem.estimatedMinutes i); reflexivity. }
  cbn [map first hd_error]. rewrite Hit. split; [reflexivity|].
  apply map_ext_in. intros r Hr.
  destruct (Z.eqb_spec (CourseItems.id r) (CourseItems.id e)) as [E|E]; [|reflexivity].
  assert (r = e) by (eapply key_injective; eauto). now subst r.
Qed.

(** ** upsertCourseProgress *)

Lemma progressOf_key (courseId : Z) (userId : string) (p : CourseProgress.row) :
  upsertCourseProgress.progressOf courseId userId p = true
  <-> progressKey p = (courseId, userId).
Proof.
  unfold upsertCourseProgress.progressOf, progressKey.
  rewrite andb_true_iff, Z.eqb_eq, String.eqb_eq.
  split; [intros [-> ->]; reflexivity | intros E; inversion E; auto].
Qed.

Lemma existing_lookup (d : Db) (courseId : Z) (userId : string)
    (existing : option CourseProgress.row) :
  NoDup (map progressKey (rows (courseProgress d))) ->
  existingProgress d courseId userId existing ->
  first (firstn 1 (filter (upsertCourseProgress.progressOf courseId userId)
                     (rows (courseProgress d)))) = existing.
Proof.
  intros Hnd Hex. rewrite first_firstn1.
  destruct existing as [e|]; cbn in Hex.
  - destruct Hex as [He Hk].
    rewrite (filter_unique progressKey _ _ e Hnd He); [reflexivity|].
    intros r _. rewrite Hk. apply progressOf_key.
  - rewrite filter_none; [reflexivity|]. intros r Hr.
    destruct (upsertCourseProgress.progressOf courseId userId r) eqn:E; [|reflexivity].
    apply progressOf_key in E. now apply Hex in E.
Qed.

Lemma existing_decided (d : Db) (courseId : Z) (userId : string) :
  exists existing, existingProgress d courseId userId existing.
Proof.
  destruct (find (upsertCourseProgress.progressOf courseId userId)
              (rows (courseProgress d))) as [e|] eqn:E.
  - apply find_some in E. destruct E as [He Hp]. exists (Some e). split; [exact He|].
    now apply progressOf_key.
  - exists None. intros e He Hk. apply progressOf_key in Hk.
    rewrite (find_none _ _ E e He) in Hk. discriminate.
Qed.

Lemma upsert_set_row (i : upsertCourseProgress.input) (u : User.t)
    (e : CourseProgress.row) (d t0 : Z) :
  CourseProgress.startedAt e = Some d ->
  CourseProgress.meta e <> Some JNull ->
  CourseProgress.applySet (upsertCourseProgress.baseValues i u (Some e) d t0) e
  = progressAfter i (User.id u) (Some e) 0 t0 0 0.
Proof.
  intros Hs Hm.
  unfold CourseProgress.applySet, upsertCourseProgress.baseValues, progressAfter.
  cbn. f_equal.
  - destruct (upsertCourseProgress.status i); reflexivity.
  - now rewrite Hs.
  - destruct (upsertCourseProgress.completionPercent i); reflexivity.
  - destruct (upsertCourseProgress.totalItems i); reflexivity.
  - destruct (upsertCourseProgress.completedItems i); reflexivity.
  - destruct (upsertCourseProgress.lastVisitedItemId i); cbn; [reflexivity|].
    destruct (CourseProgress.lastVisitedItemId e); reflexivity.
  - destruct (upsertCourseProgress.meta i) as [[]|]; cbn; try reflexivity;
      destruct (CourseProgress.meta e) as [[]|]; cbn; congruence.
Qed.

Lemma upsert_new_row (i : upsertCourseProgress.input) (u : User.t)
    (newId t0 t1 t2 : Z) :
  CourseProgress.ofValues newId t2 (upsertCourseProgress.baseValues i u None t0 t1)
  = Some (progressAfter i (User.id u) None newId t0 t1 t2).
Proof.
  unfold CourseProgress.ofValues, upsertCourseProgress.baseValues, progressAfter.
  cbn. do 2 f_equal.
  - destruct (upsertCourseProgress.status i); reflexivity.
  - destruct (upsertCourseProgress.completionPercent i); reflexivity.
  - destruct (upsertCourseProgress.totalItems i); reflexivity.
  - destruct (upsertCourseProgress.completedItems i); reflexivity.
  - destruct (upsertCourseProgress.lastVisitedItemId i); reflexivity.
  - destruct (upsertCourseProgress.meta i) as [[]|]; reflexivity.
Qed.

(** What a call of [upsertCourseProgress] that passes the ownership check
    does, on a consistent database. *)
Lemma upsert_run
    (i : upsertCourseProgress.input) (context : ActionAPIContext) (u : User.t)
    (w : World) (existing : option CourseProgress.row) :
  currentUser context = Some u ->
  owns (User.id u) (upsertCourseProgress.courseId i) (db w) ->
  consistent (db w) ->
  existingProgress (db w) (upsertCourseProgress.courseId i) (User.id u) existing ->
  let t := courseProgress (db w) in
  let p := progressAfter i (User.id u) existing (nextId CourseProgress.id t)
             (clock w (ticks w)) (clock w (S (ticks w))) (clock w (S (S (ticks w)))) in
  fst (upsertCourseProgress.handler i context w)
  = Return {| upsertCourseProgress.progress := Some p |}
  /\ db (after (upsertCourseProgress.handler i context) w)
     = putTable CourseProgressT
         match existing with
         | Some e =>
             {| rows := map (fun r => if CourseProgress.id r =? CourseProgress.id e
                                      then p else r) (rows t);
                sequence := sequence t |}
         | None =>
             {| rows := rows t ++ [p]; sequence := nextId CourseProgress.id t |}
         end (db w).
Proof.
  intros Hu Hown Hcons Hex t p.
  destruct (owns_found _ _ _ Hown) as (c & Hc).
  destruct Hcons as [_ _ (Hnd & _ & _) _ Hkeys _ Hstarted Hmeta].
  unfold after, upsertCourseProgress.handler, requireUser. rewrite Hu. run. rewrite Hc.
  run. rewrite (existing_lookup _ _ _ existing Hkeys Hex).
  destruct existing as [e|].
  - destruct Hex as [He Hk].
    rewrite Forall_forall in Hstarted, Hmeta.
    specialize (Hstarted e He). specialize (Hmeta e He).
    destruct (CourseProgress.startedAt e) as [d|] eqn:Hs; [|contradiction].
    unfold upsertCourseProgress.existingStartedAt, optChain, ofColumn. rewrite Hs.
    run. rewrite (filter_by_key CourseProgress.id _ _ e Hnd He) by reflexivity.
    cbn [map first hd_error].
    rewrite (upsert_set_row i u e d _ Hs Hmeta).
    split; [reflexivity|]. do 2 f_equal.
    apply map_ext_in. intros r Hr.
    destruct (Z.eqb_spec (CourseProgress.id r) (CourseProgress.id e)) as [E|E];
      [|reflexivity].
    assert (r = e) by exact (key_injective CourseProgress.id _ r e Hnd Hr He E).
    subst r. apply upsert_set_row; assumption.
  - unfold upsertCourseProgress.existingStartedAt, optChain. run.
    rewrite upsert_new_row. cbn [first hd_error fst snd db sent].
    split; reflexivity.
Qed.

(** ** Consistency is kept by every statement the actions send *)

Lemma NoDup_snoc {K} (l : list K) (x : K) :
  NoDup l -> ~ In x l -> NoDup (l ++ [x]).
Proof.
  induction l as [|y l IH]; cbn; intros Hnd Hx.
  - constructor; [intros []|constructor].
  - inversion Hnd as [|? ? Hy Hl]; subst. constructor.
    + rewrite in_app_iff. cbn. intros [H|[H|[]]]; [now apply Hy|].
      apply Hx. now left.
    + apply IH; [assumption|]. intros H. apply Hx. now right.
Qed.

Lemma NoDup_map_filter {R K} (key : R -> K) (q : R -> bool) (l : list R) :
  NoDup (map key l) -> NoDup (map key (filter q l)).
Proof.
  induction l as [|x l IH]; cbn; intros Hnd; [constructor|].
  inversion Hnd as [|? ? Hx Hl]; subst.
  destruct (q x); cbn; [constructor|]; auto.
  intros H. apply Hx. apply in_map_iff in H. destruct H as (r & E & Hr).
  apply filter_In in Hr. rewrite <- E. apply in_map. tauto.
Qed.

Lemma replace_same_key {R K} (id : R -> Z) (key : R -> K) (l : list R) (e : R)
    (g : R -> R) :
  NoDup (map id l) -> In e l -> key (g e) = key e ->
  map key (map (fun r => if id r =? id e then g r else r) l) = map key l.
Proof.
  intros Hnd He Hk. rewrite map_map. apply map_ext_in. intros r Hr.
  destruct (Z.eqb_spec (id r) (id e)) as [E|E]; [|reflexivity].
  assert (r = e) by exact (key_injective id l r e Hnd Hr He E). now subst r.
Qed.

Lemma Forall_replace {R} (Q : R -> Prop) (q : R -> bool) (g : R -> R) (l : list R) :
  Forall Q l -> (forall r, In r l -> q r = true -> Q (g r)) ->
  Forall Q (map (fun r => if q r then g r else r) l).
Proof.
  intros Hl Hg. rewrite Forall_forall in *. intros x Hx.
  apply in_map_iff in Hx. destruct Hx as (r & E & Hr). subst x.
  destruct (q r) eqn:Eq; auto.
Qed.

Lemma keysOk_insert {R} (key : R -> Z) (t : Table R) (r : R) :
  keysOk key t -> key r = nextId key t ->
  keysOk key {| rows := rows t ++ [r]; sequence := nextId key t |}.
Proof.
  intros (Hnd & Hpos & Hseq) Hr. unfold keysOk. cbn [rows sequence].
  pose proof (nextId_positive key t Hpos). splits.
  - rewrite map_app. cbn. apply NoDup_snoc; [assumption|].
    rewrite Hr. apply nextId_fresh.
  - apply Forall_app. split; [assumption|]. constructor; [lia|constructor].
  - lia.
Qed.

Lemma keysOk_update {R} (key : R -> Z) (t : Table R) (q : R -> bool) (g : R -> R) :
  keysOk key t -> (forall r, key (g r) = key r) ->
  keysOk key {| rows := map (fun r => if q r then g r else r) (rows t);
                sequence := sequence t |}.
Proof.
  intros (Hnd & Hpos & Hseq) Hg. unfold keysOk. cbn [rows sequence]. splits.
  - rewrite map_map.
    rewrite (map_ext _ key); [assumption|]. intros r. now destruct (q r).
  - apply Forall_replace; [assumption|]. intros r Hr _. rewrite Hg.
    rewrite Forall_forall in Hpos. auto.
  - assumption.
Qed.

Lemma keysOk_delete {R} (key : R -> Z) (t : Table R) (q : R -> bool) :
  keysOk key t ->
  keysOk key {| rows := filter q (rows t); sequence := sequence t |}.
Proof.
  intros (Hnd & Hpos & Hseq). unfold keysOk. cbn [rows sequence]. splits.
  - now apply NoDup_map_filter.
  - rewrite Forall_forall in *. intros r Hr. apply filter_In in Hr. apply Hpos. tauto.
  - assumption.
Qed.

Lemma consistent_courses (d : Db) (t : Table Courses.row) :
  consistent d -> keysOk Courses.id t -> consistent (putTable CoursesT t d).
Proof. intros [] H. constructor; assumption. Qed.

Lemma consistent_courseItems (d : Db) (t : Table CourseItems.row) :
  consistent d -> keysOk CourseItems.id t -> consistent (putTable CourseItemsT t d).
Proof. intros [] H. constructor; assumption. Qed.

Lemma consistent_courseProgress (d : Db) (t : Table CourseProgress.row) :
  consistent d -> keysOk CourseProgress.id t ->
  NoDup (map progressKey (rows t)) ->
  Forall (fun p => CourseProgress.startedAt p <> None) (rows t) ->
  Forall (fun p => CourseProgress.meta p <> Some JNull) (rows t) ->
  consistent (putTable CourseProgressT t d).
Proof. intros [] H1 H2 H3 H4. constructor; assumption. Qed.

Lemma consistent_courseItemProgress (d : Db) (t : Table CourseItemProgress.row) :
  consistent d -> keysOk CourseItemProgress.id t ->
  NoDup (map itemProgressKey (rows t)) ->
  consistent (putTable CourseItemProgressT t d).
Proof. intros [] H1 H2. constructor; assumption. Qed.

Lemma emptyDb_consistent : consistent emptyDb.
Proof.
  constructor; unfold keysOk; cbn; splits;
    try constructor; try lia.
Qed.

Lemma createCourse_consistent (i : createCourse.input) (context : ActionAPIContext)
    (w : World) :
  consistent (db w) -> consistent (db (after (createCourse.handler i context) w)).
Proof.
  intros H. unfold after, createCourse.handler, requireUser.
  destruct (currentUser context) as [u|]; run; [|exact H].
  cbn [Courses.ofValues Courses.v_ownerId Courses.v_title snd db sent].
  apply (consistent_courses (db w)); [exact H|].
  apply keysOk_insert; [apply H | reflexivity].
Qed.

Lemma updateCourse_consistent (i : updateCourse.input) (context : ActionAPIContext)
    (w : World) :
  consistent (db w) -> consistent (db (after (updateCourse.handler i context) w)).
Proof.
  intros H. unfold after, updateCourse.handler, requireUser.
  destruct (currentUser context) as [u|]; run; [|exact H].
  destruct (first _) as [c|]; [|exact H].
  destruct (List.length _ =? 0)%nat; [exact H|]. run.
  apply (consistent_courses (db w)); [exact H|].
  apply keysOk_update; [apply H | reflexivity].
Qed.

Lemma listMyCourses_same (i : listMyCourses.input) (context : ActionAPIContext)
    (w : World) :
  db (after (listMyCourses.handler i context) w) = db w.
Proof.
  unfold after, listMyCourses.handler, requireUser.
  destruct (currentUser context) as [u|]; run; reflexivity.
Qed.

Lemma getCourseWithItems_same (i : getCourseWithItems.input)
    (context : ActionAPIContext) (w : World) :
  db (after (getCourseWithItems.handler i context) w) = db w.
Proof.
  unfold after, getCourseWithItems.handler, requireUser.
  destruct (currentUser context) as [u|]; run; [|reflexivity].
  destruct (first _) as [c|]; run; reflexivity.
Qed.

Lemma saveCourseItem_consistent (i : saveCourseItem.input) (context : ActionAPIContext)
    (w : World) :
  consistent (db w) -> consistent (db (after (saveCourseItem.handler i context) w)).
Proof.
  intros H. unfold after, saveCourseItem.handler, requireUser.
  destruct (currentUser context) as [u|]; run; [|exact H].
  destruct (first _) as [c|]; [|exact H]. run.
  destruct (saveCourseItem.truthyId i) as [k|]; run.
  - destruct (first _) as [e|]; [|exact H].
    destruct (negb _); [exact H|]. run.
    apply (consistent_courseItems (db w)); [exact H|].
    apply keysOk_update; [apply H | reflexivity].
  - cbn [CourseItems.ofValues saveCourseItem.baseValues CourseItems.v_courseId
         CourseItems.v_title snd db sent].
    apply (consistent_courseItems (db w)); [exact H|].
    apply keysOk_insert; [apply H | reflexivity].
Qed.

Lemma deleteCourseItem_consistent (i : deleteCourseItem.input)
    (context : ActionAPIContext) (w : World) :
  consistent (db w) -> consistent (db (after (deleteCourseItem.handler i context) w)).
Proof.
  intros H. unfold after, deleteCourseItem.handler, requireUser.
  destruct (currentUser context) as [u|]; run; [|exact H].
  destruct (first (firstn 1 _)) as [c|]; [|exact H]. run.
  assert (consistent
            (putTable CourseItemsT
               {| rows := filter
                    (fun r => negb ((CourseItems.id r =? deleteCourseItem.id i)
                                    && (CourseItems.courseId r
                                        =? deleteCourseItem.courseId i)))
                    (rows (courseItems (db w)));
                  sequence := sequence (courseItems (db w)) |} (db w))) as H'.
  { apply consistent_courseItems; [exact H|]. apply keysOk_delete. apply H. }
  destruct (first _) as [e|]; exact H'.
Qed.

Lemma keysOk_replace {R} (key : R -> Z) (t : Table R) (e p : R) :
  keysOk key t -> In e (rows t) -> key p = key e ->
  keysOk key {| rows := map (fun r => if key r =? key e then p else r) (rows t);
                sequence := sequence t |}.
Proof.
  intros (Hnd & Hpos & Hseq) He Hp. unfold keysOk. cbn [rows sequence]. splits.
  - rewrite (replace_same_key key key (rows t) e (fun _ => p)); assumption.
  - apply (Forall_replace (fun r => 0 < key r) (fun r => key r =? key e) (fun _ => p));
      [assumption|].
    intros _ _ _. rewrite Hp. rewrite Forall_forall in Hpos. auto.
  - assumption.
Qed.

Lemma owned_first (d : Db) (courseId : Z) (userId : string) (c : Courses.row) :
  first (firstn 1 (filter (ownedCourse courseId userId) (rows (courses d)))) = Some c ->
  owns userId courseId d.
Proof.
  rewrite first_firstn1, first_filter. intros H. apply find_some in H.
  destruct H as [Hc Ho]. unfold ownedCourse in Ho. apply andb_true_iff in Ho.
  destruct Ho as [Hid Hu]. apply Z.eqb_eq in Hid. apply String.eqb_eq in Hu.
  exists c. auto.
Qed.

Lemma suppliedMeta_not_null (m : option Json) (existing : option CourseProgress.row) :
  match existing with
  | Some e => CourseProgress.meta e <> Some JNull
  | None => True
  end ->
  effectiveOpt (suppliedMeta m) existing CourseProgress.meta <> Some JNull.
Proof.
  destruct m as [[]|], existing as [e|]; cbn; intros H; congruence.
Qed.

Lemma upsertCourseProgress_consistent (i : upsertCourseProgress.input)
    (context : ActionAPIContext) (w : World) :
  consistent (db w) ->
  consistent (db (after (upsertCourseProgress.handler i context) w)).
Proof.
  intros H.
  destruct (currentUser context) as [u|] eqn:Hu.
  2:{ unfold after, upsertCourseProgress.handler, requireUser. rewrite Hu. exact H. }
  destruct (first (firstn 1 (filter
              (ownedCourse (upsertCourseProgress.courseId i) (User.id u))
              (rows (courses (db w)))))) as [c|] eqn:Hf.
  2:{ unfold after, upsertCourseProgress.handler, requireUser. rewrite Hu. run.
      rewrite Hf. exact H. }
  apply owned_first in Hf.
  destruct (existing_decided (db w) (upsertCourseProgress.courseId i) (User.id u))
    as [existing Hex].
  destruct (upsert_run i context u w existing Hu Hf H Hex) as [_ Hdb].
  rewrite Hdb. clear Hdb.
  pose proof (courseProgressKeys _ H) as Hk.
  pose proof (courseProgressUnique _ H) as Hq.
  pose proof (courseProgressStarted _ H) as Hs.
  pose proof (courseProgressMeta _ H) as Hm.
  destruct existing as [e|]; cbn in Hex.
  - destruct Hex as [He Hkey]. destruct Hk as (Hnd & Hpos & Hseq).
    rewrite Forall_forall in Hs, Hm.
    apply consistent_courseProgress; [exact H| | | |]; cbn [rows].
    + apply keysOk_replace; [repeat split; assumption | assumption | reflexivity].
    + rewrite (replace_same_key CourseProgress.id progressKey _ e (fun _ => _));
        [assumption | assumption | assumption |].
      unfold progressKey at 1. cbn. now rewrite Hkey.
    + apply (Forall_replace _ (fun r => CourseProgress.id r =? CourseProgress.id e)
               (fun _ => _)); [now apply Forall_forall|].
      intros _ _ _. cbn. auto.
    + apply (Forall_replace _ (fun r => CourseProgress.id r =? CourseProgress.id e)
               (fun _ => _)); [now apply Forall_forall|].
      intros _ _ _. cbn [progressAfter CourseProgress.meta].
      apply suppliedMeta_not_null. auto.
  - apply consistent_courseProgress; [exact H| | | |]; cbn [rows].
    + apply keysOk_insert; [assumption | reflexivity].
    + rewrite map_app. apply NoDup_snoc; [assumption|]. cbn.
      intros Hin. apply in_map_iff in Hin. destruct Hin as (r & E & Hr).
      now apply (Hex r Hr).
    + apply Forall_app. split; [assumption|]. constructor; [|constructor].
      cbn. discriminate.
    + apply Forall_app. split; [assumption|]. constructor; [|constructor].
      cbn [progressAfter CourseProgress.meta].
      now apply suppliedMeta_not_null.
Qed.

Lemma itemProgressOf_key (itemId : Z) (userId : string) (p : CourseItemProgress.row) :
  updateCourseItemProgress.progressOf itemId userId p = true
  <-> itemProgressKey p = (itemId, userId).
Proof.
  unfold updateCourseItemProgress.progressOf, itemProgressKey.
  rewrite andb_true_iff, Z.eqb_eq, String.eqb_eq.
  split; [intros [-> ->]; reflexivity | intros E; inversion E; auto].
Qed.

Lemma updateCourseItemProgress_consistent (i : updateCourseItemProgress.input)
    (context : ActionAPIContext) (w : World) :
  consistent (db w) ->
  consistent (db (after (updateCourseItemProgress.handler i context) w)).
Proof.
  intros H. unfold after, updateCourseItemProgress.handler, requireUser.
  destruct (currentUser context) as [u|]; run; [|exact H].
  destruct (first (firstn 1 _)) as [item|]; [|exact H]. run.
  destruct (first (firstn 1 _)) as [c|]; [|exact H]. run.
  pose proof (courseItemProgressKeys _ H) as Hk.
  pose proof (courseItemProgressUnique _ H) as Hq.
  destruct (first (firstn 1 _)) as [e|] eqn:He; run.
  - rewrite first_firstn1, first_filter in He. apply find_some in He.
    destruct He as [He Hp]. apply itemProgressOf_key in Hp.
    apply (consistent_courseItemProgress (db w)); [exact H| |]; cbn [rows].
    + apply keysOk_update; [assumption | reflexivity].
    + rewrite (replace_same_key CourseItemProgress.id itemProgressKey _ e);
        [assumption | apply Hk | assumption |].
      rewrite Hp. reflexivity.
  - rewrite first_firstn1, first_filter in He.
    cbn [CourseItemProgress.ofValues updateCourseItemProgress.baseValues
         CourseItemProgress.v_itemId CourseItemProgress.v_userId snd db sent].
    apply (consistent_courseItemProgress (db w)); [exact H| |]; cbn [rows].
    + apply keysOk_insert; [assumption | reflexivity].
    + rewrite map_app. apply NoDup_snoc; [assumption|]. cbn.
      intros Hin. apply in_map_iff in Hin. destruct Hin as (r & E & Hr).
      assert (E' : updateCourseItemProgress.progressOf
                     (updateCourseItemProgress.itemId i) (User.id u) r = true)
        by (apply itemProgressOf_key; exact E).
      rewrite (find_none _ _ He r Hr) in E'. discriminate.
Qed.

Lemma server_consistent (r : Request) (context : ActionAPIContext) (w : World) :
  consistent (db w) -> consistent (db (after (server r context) w)).
Proof.
  intros H.
  assert (Hbind : forall A (m : Action A) (k : A -> Response),
             db (after (o <- m ;; ret (k o)) w) = db (after m w)).
  { intros A m k. unfold after, bind, ret. destruct (m w) as [[a|e|s] w']; reflexivity. }
  destruct r; cbn [server]; rewrite Hbind.
  - now apply createCourse_consistent.
  - now apply updateCourse_consistent.
  - now rewrite listMyCourses_same.
  - now rewrite getCourseWithItems_same.
  - now apply saveCourseItem_consistent.
  - now apply deleteCourseItem_consistent.
  - now apply upsertCourseProgress_consistent.
  - now apply updateCourseItemProgress_consistent.
Qed.

(** X11: every world the actions can reach from an empty database is
    consistent: in each table the primary keys are positive and unique, there
    is at most one course progress row per (courseId, userId) and one item
    progress row per (itemId, userId), and every course progress row has a
    start date. *)
Theorem reachable_consistent (w : World) : reachable w -> consistent (db w).
Proof.
  induction 1 as [c|w r context _ IH].
  - exact emptyDb_consistent.
  - now apply server_consistent.
Qed.

Lemma safeInteger_zero : safeInteger 0.
Proof. unfold safeInteger, maxSafeInteger. lia. Qed.

Lemma acceptable_same_items (d d' : Db) (p : CourseProgress.row) :
  courseItems d' = courseItems d -> acceptableProgress d p -> acceptableProgress d' p.
Proof.
  intros E (H1 & H2 & H3 & H4 & H5). unfold acceptableProgress, namesItem in *.
  rewrite E. splits; assumption.
Qed.


(** The row an accepted call writes is acceptable in its turn. *)
Lemma progressAfter_acceptable (d : Db) (i : upsertCourseProgress.input)
    (userId : string) (existing : option CourseProgress.row) (newId t0 t1 t2 : Z) :
  safeProgressInput i ->
  namesItem d (upsertCourseProgress.lastVisitedItemId i) ->
  match existing with Some e => acceptableProgress d e | None => True end ->
  acceptableProgress d (progressAfter i userId existing newId t0 t1 t2).
Proof.
  intros (S1 & S2 & S3 & S4) Hn He.
  pose proof safeInteger_zero as Hz.
  unfold acceptableProgress, progressAfter.
  cbn [CourseProgress.completionPercent CourseProgress.totalItems
       CourseProgress.completedItems CourseProgress.lastVisitedItemId].
  destruct existing as [e|]; [destruct He as (E1 & E2 & E3 & E4 & E5)|];
    destruct (upsertCourseProgress.completionPercent i),
      (upsertCourseProgress.totalItems i), (upsertCourseProgress.completedItems i),
      (upsertCourseProgress.lastVisitedItemId i);
    cbn in *; splits; assumption.
Qed.

(** C2 as amended: on a consistent database, a call of [upsertCourseProgress]
    that passes the ownership check and whose write the storage layer accepts
    (the numbers supplied are safe integers, a supplied lastVisitedItemId names
    an item of the table, and so does the existing row) returns the row it
    wrote, in which status, completionPercent, totalItems, completedItems and
    lastVisitedItemId are the input value if supplied, else the value of the
    existing row of (courseId, acting user) if there is one, else the default
    ("not_started", 0, 0, 0, nothing); meta follows the same rule except that
    an input [null] counts as not supplied; startedAt is the current time when
    there was no row and the start date of the existing row otherwise.  The row
    written is acceptable in its turn. *)
Theorem upsert_effective_values
    (i : upsertCourseProgress.input) (context : ActionAPIContext) (u : User.t)
    (w : World) (existing : option CourseProgress.row) :
  currentUser context = Some u ->
  owns (User.id u) (upsertCourseProgress.courseId i) (db w) ->
  consistent (db w) ->
  existingProgress (db w) (upsertCourseProgress.courseId i) (User.id u) existing ->
  safeProgressInput i ->
  namesItem (db w) (upsertCourseProgress.lastVisitedItemId i) ->
  match existing with Some e => acceptableProgress (db w) e | None => True end ->
  exists p,
    fst (upsertCourseProgress.handler i context w)
    = Return {| upsertCourseProgress.progress := Some p |}
    /\ In p (rows (courseProgress
                     (db (after (upsertCourseProgress.handler i context) w))))
    /\ acceptableProgress (db (after (upsertCourseProgress.handler i context) w)) p
    /\ CourseProgress.status p
       = effective (upsertCourseProgress.status i) existing
           CourseProgress.status ProgressStatus.not_started
    /\ CourseProgress.completionPercent p
       = effective (upsertCourseProgress.completionPercent i) existing
           CourseProgress.completionPercent 0
    /\ CourseProgress.totalItems p
       = effective (upsertCourseProgress.totalItems i) existing
           CourseProgress.totalItems 0
    /\ CourseProgress.completedItems p
       = effective (upsertCourseProgress.completedItems i) existing
           CourseProgress.completedItems 0
    /\ CourseProgress.lastVisitedItemId p
       = effectiveOpt (upsertCourseProgress.lastVisitedItemId i) existing
           CourseProgress.lastVisitedItemId
    /\ CourseProgress.meta p
       = effectiveOpt (suppliedMeta (upsertCourseProgress.meta i)) existing
           CourseProgress.meta
    /\ CourseProgress.startedAt p
       = match existing with
         | Some e => CourseProgress.startedAt e
         | None => Some (clock w (ticks w))
         end.
Proof.
  intros Hu Hown Hcons Hex Hsafe Hnames Hacc.
  destruct (upsert_run i context u w existing Hu Hown Hcons Hex) as [Hr Hdb].
  eexists. split; [exact Hr|]. split; [|split; [|splits; reflexivity]].
  - rewrite Hdb.
    destruct existing as [e|]; cbn [putTable CourseProgressT courseProgress rows].
    + destruct Hex as [He _]. apply in_map_iff. exists e.
      now rewrite Z.eqb_refl.
    + apply in_or_app. right. now left.
  - apply (acceptable_same_items (db w)); [now rewrite Hdb|].
    now apply progressAfter_acceptable.
Qed.


Lemma first_filter_some {R} (q : R -> bool) (l : list R) (e : R) :
  In e l -> q e = true ->
  exists r, first (filter q l) = Some r /\ In r l /\ q r = true.
Proof.
  intros He Hq. rewrite first_filter.
  destruct (find q l) as [r|] eqn:E.
  - exists r. apply find_some in E. tauto.
  - rewrite (find_none _ _ E e He) in Hq. discriminate.
Qed.

(** C10: [upsertCourseProgress] never writes completedAt.  A call either
    throws and leaves the table as it was; or rewrites the row it returns, and
    then every row of the table keeps its key and its completedAt; or appends
    the row it returns, whose completedAt is unset. *)
Theorem upsert_never_writes_completedAt
    (i : upsertCourseProgress.input) (context : ActionAPIContext) (w : World) :
  let w' := after (upsertCourseProgress.handler i context) w in
  let view := map (fun r => (CourseProgress.id r, CourseProgress.completedAt r)) in
  (exists e,
     fst (upsertCourseProgress.handler i context w) = Throw e
     /\ rows (courseProgress (db w')) = rows (courseProgress (db w)))
  \/ (exists p,
        fst (upsertCourseProgress.handler i context w)
        = Return {| upsertCourseProgress.progress := Some p |}
        /\ view (rows (courseProgress (db w'))) = view (rows (courseProgress (db w)))
        /\ In (CourseProgress.id p, CourseProgress.completedAt p)
              (view (rows (courseProgress (db w)))))
  \/ (exists p,
        fst (upsertCourseProgress.handler i context w)
        = Return {| upsertCourseProgress.progress := Some p |}
        /\ rows (courseProgress (db w')) = rows (courseProgress (db w)) ++ [p]
        /\ CourseProgress.completedAt p = None).
Proof.
  intros w' view. subst w'.
  unfold after, upsertCourseProgress.handler, requireUser.
  destruct (currentUser context) as [u|]; run.
  2:{ left. eexists. split; reflexivity. }
  destruct (first (firstn 1 _)) as [c|]; run.
  2:{ left. eexists. split; reflexivity. }
  destruct (first (firstn 1 _)) as [e|] eqn:He.
  - right. left.
    rewrite first_firstn1, first_filter in He. apply find_some in He.
    destruct He as [He _].
    assert (Hupdate : forall v,
      CourseProgress.v_completedAt v = Undefined ->
      exists p,
        Return {| upsertCourseProgress.progress :=
                    first (map (CourseProgress.applySet v)
                             (filter (fun r => CourseProgress.id r =? CourseProgress.id e)
                                (rows (courseProgress (db w))))) |}
        = Return {| upsertCourseProgress.progress := Some p |}
        /\ view (map (fun r => if CourseProgress.id r =? CourseProgress.id e
                               then CourseProgress.applySet v r else r)
                   (rows (courseProgress (db w))))
           = view (rows (courseProgress (db w)))
        /\ In (CourseProgress.id p, CourseProgress.completedAt p)
              (view (rows (courseProgress (db w))))).
    { intros v Hv.
      destruct (first_filter_some
                  (fun r => CourseProgress.id r =? CourseProgress.id e)
                  _ e He (Z.eqb_refl _)) as (r & Hr & Hin & _).
      assert (Hsame : forall x,
                (CourseProgress.id (CourseProgress.applySet v x),
                 CourseProgress.completedAt (CourseProgress.applySet v x))
                = (CourseProgress.id x, CourseProgress.completedAt x))
        by (intros x; cbn; now rewrite Hv).
      exists (CourseProgress.applySet v r). splits.
      - destruct (filter _ _) as [|r0 l]; [discriminate|].
        cbn in Hr. inversion Hr. reflexivity.
      - unfold view. rewrite map_map. apply map_ext. intros x.
        destruct (CourseProgress.id x =? CourseProgress.id e); [apply Hsame|reflexivity].
      - rewrite Hsame. unfold view.
        apply (in_map (fun r => (CourseProgress.id r, CourseProgress.completedAt r))).
        exact Hin. }
    unfold upsertCourseProgress.existingStartedAt, optChain, ofColumn.
    destruct (CourseProgress.startedAt e) as [d|]; run; apply Hupdate; reflexivity.
  - right. right.
    unfold upsertCourseProgress.existingStartedAt, optChain. run.
    rewrite upsert_new_row. cbn [first hd_error fst snd db sent courseProgress rows].
    eexists. splits; reflexivity.
Qed.

(** ** Errors leave the tables alone *)

Lemma put_same_items (d : Db) :
  putTable CourseItemsT
    {| rows := rows (courseItems d); sequence := sequence (courseItems d) |} d = d.
Proof. destruct d as [? [? ?] ? ?]. reflexivity. Qed.

Lemma bind_ret_throw {A B} (m : Action A) (k : A -> B) (w : World) (e : ActionError) :
  fst ((o <- m ;; ret (k o)) w) = Throw e -> fst (m w) = Throw e.
Proof.
  unfold bind, ret. destruct (m w) as [[a|e'|s] w1]; cbn; intros H;
    try discriminate; congruence.
Qed.

Lemma after_bind_ret {A B} (m : Action A) (k : A -> B) (w : World) :
  after (o <- m ;; ret (k o)) w = after m w.
Proof. unfold after, bind, ret. destruct (m w) as [[a|e|s] w1]; reflexivity. Qed.

(** A throwing handler that sent these statements, all of them reads. *)
Ltac reads_only :=
  cbn [fst snd db log sent]; split; [reflexivity|]; eexists; split;
  [ first [ symmetry; apply app_nil_r
          | reflexivity
          | rewrite <- !app_assoc; reflexivity ]
  | left; reflexivity ].

(** C8 as amended: an action that throws UNAUTHORIZED or NOT_FOUND leaves the
    four tables as they were.  The statements it sent before throwing are all
    reads, except in [deleteCourseItem], whose "Course item not found." check
    follows its DELETE statement (which then removed no row). *)
Theorem errors_leave_tables_unchanged (r : Request) (context : ActionAPIContext) (w : World)
    (e : ActionError) :
  fst (server r context w) = Throw e ->
  db (after (server r context) w) = db w
  /\ exists stmts,
       log (after (server r context) w) = log w ++ stmts
       /\ (onlyReads stmts
           \/ (exists i, r = DeleteCourseItem i)
              /\ stmts = [SELECT TCourses; DELETE TCourseItems]).
Proof.
  destruct r; cbn [server]; intros H; apply bind_ret_throw in H;
    rewrite after_bind_ret; revert H; unfold after.
  - unfold createCourse.handler, requireUser.
    destruct (currentUser context) as [u|]; run; intros H; [discriminate|].
    reads_only.
  - unfold updateCourse.handler, requireUser.
    destruct (currentUser context) as [u|]; run; [|intros H; reads_only].
    destruct (first _) as [c|]; [|intros H; reads_only].
    destruct (List.length _ =? 0)%nat; run; discriminate.
  - unfold listMyCourses.handler, requireUser.
    destruct (currentUser context) as [u|]; run; intros H; [discriminate|].
    reads_only.
  - unfold getCourseWithItems.handler, requireUser.
    destruct (currentUser context) as [u|]; run; [|intros H; reads_only].
    destruct (first _) as [c|]; run; intros H; [discriminate|reads_only].
  - unfold saveCourseItem.handler, requireUser.
    destruct (currentUser context) as [u|]; run; [|intros H; reads_only].
    destruct (first _) as [c|]; run; [|intros H; reads_only].
    destruct (saveCourseItem.truthyId i) as [k|]; run.
    + destruct (first _) as [x|]; [|intros H; reads_only].
      destruct (negb _); run; intros H; [reads_only|discriminate].
    + destruct (CourseItems.ofValues _ _ _); cbn; discriminate.
  - unfold deleteCourseItem.handler, requireUser.
    destruct (currentUser context) as [u|]; run; [|intros H; reads_only].
    destruct (first (firstn 1 _)) as [c|]; run; [|intros H; reads_only].
    destruct (first _) as [x|] eqn:Hx; intros H; [discriminate|].
    cbn [fst snd db log sent]. split.
    + rewrite filter_negb_all; [apply put_same_items|].
      now destruct (filter _ _).
    + eexists. split; [rewrite <- app_assoc; reflexivity|].
      right. split; [now exists i | reflexivity].
  - unfold upsertCourseProgress.handler, requireUser.
    destruct (currentUser context) as [u|]; run; [|intros H; reads_only].
    destruct (first (firstn 1 _)) as [c|]; run; [|intros H; reads_only].
    destruct (upsertCourseProgress.existingStartedAt _); run;
      destruct (first _) as [x|]; run;
      try destruct (CourseProgress.ofValues _ _ _); cbn; discriminate.
  - unfold updateCourseItemProgress.handler, requireUser.
    destruct (currentUser context) as [u|]; run; [|intros H; reads_only].
    destruct (first (firstn 1 _)) as [x|]; run; [|intros H; reads_only].
    destruct (first (firstn 1 _)) as [c|]; run; [|intros H; reads_only].
    destruct (first _) as [y|]; run;
      try destruct (CourseItemProgress.ofValues _ _ _); cbn; discriminate.
Qed.

(** ** The properties at work on a small database *)

Lemma world3_db :
  rows (courses (db world3)) = [course1]
  /\ rows (courseItems (db world3)) = [item1]
  /\ rows (courseProgress (db world3)) = [progress1].
Proof. vm_compute. splits; reflexivity. Qed.

Ltac singleton := cbn; constructor; [intros [] | constructor].

(** Facts about the rows of a database given in full. *)
Ltac concrete :=
  cbn;
  repeat match goal with
         | |- NoDup [] => constructor
         | |- NoDup (_ :: _) => constructor; [cbn; tauto|]
         | |- Forall _ [] => constructor
         | |- Forall _ (_ :: _) => constructor; [cbn|]
         end;
  try lia; try discriminate.

Lemma world2_consistent : consistent (db world2).
Proof. constructor; unfold keysOk; splits; concrete. Defined.

Lemma world3_consistent : consistent (db world3).
Proof. constructor; unfold keysOk; splits; concrete. Defined.

Lemma alice_owns_course1 (w : World) :
  In course1 (rows (courses (db w))) -> owns "alice" 1 (db w).
Proof. intros H. exists course1. splits; [exact H | reflexivity | reflexivity]. Defined.

Lemma not_found_for_other_owner_witness :
  fst (updateCourse.handler startCourse (signedIn "bob") world1)
  = thrown NOT_FOUND "Course not found."
  /\ fst (getCourseWithItems.handler {| getCourseWithItems.id := 1 |}
            (signedIn "bob") world1)
     = thrown NOT_FOUND "Course not found."
  /\ fst (deleteCourseItem.handler {| deleteCourseItem.id := 1;
                                      deleteCourseItem.courseId := 1 |}
            (signedIn "bob") world1)
     = thrown NOT_FOUND "Course not found.".
Proof.
  assert (Hnd : NoDup (map Courses.id (rows (courses (db world1))))) by singleton.
  assert (Hin : In course1 (rows (courses (db world1)))) by (left; reflexivity).
  assert (Hne : Courses.ownerId course1 <> User.id bob) by discriminate.
  destruct (not_found_for_other_owner world1 (signedIn "bob") bob course1
              eq_refl Hnd Hin Hne) as (H1 & H2 & H3).
  splits.
  - exact (proj1 (H1 startCourse eq_refl)).
  - exact (proj1 (H2 {| getCourseWithItems.id := 1 |} eq_refl)).
  - exact (proj1 (H3 {| deleteCourseItem.id := 1; deleteCourseItem.courseId := 1 |}
                    eq_refl)).
Defined.

Lemma createCourse_owner_and_defaults_witness :
  exists c,
    fst (createCourse.handler introToGo (signedIn "alice") world0)
    = Return {| createCourse.course := Some c |}
    /\ Courses.ownerId c = "alice"
    /\ Courses.level c = Level.beginner
    /\ Courses.status c = CourseStatus.planned.
Proof.
  destruct (createCourse_owner_and_defaults introToGo (signedIn "alice") alice world0
              eq_refl) as (c & H1 & H2 & H3 & H4 & _).
  exists c. splits; assumption.
Defined.

Lemma updateCourse_frame_witness :
  exists c',
    fst (updateCourse.handler startCourse (signedIn "alice") world3)
    = Return {| updateCourse.course := Some c' |}
    /\ Courses.title c' = "Intro to Go"
    /\ Courses.level c' = Level.beginner
    /\ Courses.createdAt c' = 1000.
Proof.
  assert (Hnd : NoDup (map Courses.id (rows (courses (db world3))))) by singleton.
  assert (Hin : In course1 (rows (courses (db world3)))) by (left; reflexivity).
  destruct (updateCourse_frame startCourse (signedIn "alice") alice course1 world3
              eq_refl Hnd Hin eq_refl eq_refl)
    as (c' & H1 & _ & Ht & _ & _ & _ & _ & Hl & _ & _ & _ & _ & Hc & _).
  exists c'. splits; [exact H1 | exact (Ht eq_refl) | exact (Hl eq_refl) | exact Hc].
Defined.

Lemma saveCourseItem_insert_or_not_found_witness :
  exists it,
    fst (saveCourseItem.handler lesson2 (signedIn "alice") world2)
    = Return {| saveCourseItem.item := Some it |}
    /\ rows (courseItems (db (after (saveCourseItem.handler lesson2 (signedIn "alice"))
                                world2)))
       = [item1; it].
Proof.
  assert (Hin : In course1 (rows (courses (db world2)))) by (left; reflexivity).
  destruct (saveCourseItem_insert_or_not_found lesson2 (signedIn "alice") alice world2
              eq_refl (alice_owns_course1 world2 Hin) (courseItemsKeys _ world2_consistent))
    as [H _].
  destruct (H eq_refl) as (it & H1 & H2 & _).
  exists it. split; [exact H1 | exact H2].
Defined.

Lemma saveCourseItem_update_witness :
  fst (saveCourseItem.handler retitle (signedIn "alice") world2)
  = Return {| saveCourseItem.item :=
                Some {| CourseItems.id := 1;
                        CourseItems.courseId := 1;
                        CourseItems.type := ItemType.lesson;
                        CourseItems.title := "Lesson 1, revised";
                        CourseItems.description := Some "Read chapter 1";
                        CourseItems.position := 0;
                        CourseItems.dueDate := None;
                        CourseItems.estimatedMinutes := Some 45;
                        CourseItems.isRequired := true;
                        CourseItems.createdAt := 6000 |} |}.
Proof.
  assert (Hin : In course1 (rows (courses (db world2)))) by (left; reflexivity).
  assert (Hit : In item1 (rows (courseItems (db world2)))) by (left; reflexivity).
  exact (proj1 (saveCourseItem_update retitle (signedIn "alice") alice item1 world2
                  eq_refl (alice_owns_course1 world2 Hin)
                  (courseItemsKeys _ world2_consistent) Hit eq_refl eq_refl)).
Defined.

(** C9, and where the code falls short of it: an update by [saveCourseItem] is
    to overwrite every column of the item, omitted optional fields going back
    to their defaults and description, dueDate and estimatedMinutes being
    cleared.  The handler hands [.set] the same [baseValues] as the insert and
    does reset type, position, isRequired and createdAt; but item 1, saved with
    a description and an estimate and saved again with its id and a title only,
    still has both afterwards: the keys of the omitted fields are [undefined],
    and a key whose value is [undefined] is dropped from the SET clause. *)
Lemma saveCourseItem_update_keeps_omitted :
  saveCourseItem.description retitle = None
  /\ saveCourseItem.estimatedMinutes retitle = None
  /\ exists it,
       fst (saveCourseItem.handler retitle (signedIn "alice") world2)
       = Return {| saveCourseItem.item := Some it |}
       /\ In it (rows (courseItems
                         (db (after (saveCourseItem.handler retitle (signedIn "alice"))
                                world2))))
       /\ CourseItems.description it = Some "Read chapter 1"
       /\ CourseItems.estimatedMinutes it = Some 45
       /\ CourseItems.description it <> None
       /\ CourseItems.estimatedMinutes it <> None.
Proof.
  splits; try reflexivity. eexists. splits.
  - vm_compute. reflexivity.
  - vm_compute. left. reflexivity.
  - reflexivity.
  - reflexivity.
  - discriminate.
  - discriminate.
Qed.

Lemma upsert_effective_values_witness :
  exists p,
    fst (upsertCourseProgress.handler almostDone (signedIn "alice") world3)
    = Return {| upsertCourseProgress.progress := Some p |}
    /\ CourseProgress.status p = ProgressStatus.in_progress
    /\ CourseProgress.completionPercent p = 90
    /\ CourseProgress.totalItems p = 2
    /\ CourseProgress.meta p = Some (JStr "draft")
    /\ CourseProgress.startedAt p = Some 6000.
Proof.
  assert (Hin : In course1 (rows (courses (db world3)))) by (left; reflexivity).
  assert (Hex : existingProgress (db world3) 1 "alice" (Some progress1))
    by (split; [left; reflexivity | reflexivity]).
  assert (Hsafe : safeProgressInput almostDone)
    by (unfold safeProgressInput, safeOpt, safeInteger, maxSafeInteger; cbn;
        splits; trivial; lia).
  assert (Hitem : namesItem (db world3) (Some 1))
    by (exists item1; split; [left; reflexivity | reflexivity]).
  assert (Hacc : acceptableProgress (db world3) progress1)
    by (unfold acceptableProgress, safeOpt, safeInteger, maxSafeInteger; cbn;
        splits; try lia; exact Hitem).
  destruct (upsert_effective_values almostDone (signedIn "alice") alice world3
              (Some progress1) eq_refl (alice_owns_course1 world3 Hin)
              world3_consistent Hex Hsafe I Hacc)
    as (p & H0 & _ & _ & H1 & H2 & H3 & _ & _ & H4 & H5).
  exists p. splits; assumption.
Defined.

(** C2 as stated fails for meta: progress row 1 holds the meta "draft"; a call
    that supplies [meta: null] writes a row whose meta is still "draft", not
    the value that was supplied. *)
Lemma upsert_null_meta_keeps_existing :
  upsertCourseProgress.meta clearMeta = Some JNull
  /\ existingProgress (db world3) 1 "alice" (Some progress1)
  /\ exists p,
       fst (upsertCourseProgress.handler clearMeta (signedIn "alice") world3)
       = Return {| upsertCourseProgress.progress := Some p |}
       /\ In p (rows (courseProgress
                        (db (after (upsertCourseProgress.handler clearMeta
                                      (signedIn "alice")) world3))))
       /\ CourseProgress.meta p = Some (JStr "draft")
       /\ CourseProgress.meta p <> stored (ofAny (upsertCourseProgress.meta clearMeta)).
Proof.
  split; [reflexivity|]. split; [split; [left; reflexivity | reflexivity]|].
  eexists. splits.
  - vm_compute. reflexivity.
  - vm_compute. left. reflexivity.
  - reflexivity.
  - discriminate.
Qed.


Lemma errors_leave_tables_unchanged_witness :
  fst (server (DeleteCourseItem removeMissing) (signedIn "alice") world1)
  = thrown NOT_FOUND "Course item not found."
  /\ db (after (server (DeleteCourseItem removeMissing) (signedIn "alice")) world1)
     = db world1.
Proof.
  split; [reflexivity|].
  exact (proj1 (errors_leave_tables_unchanged (DeleteCourseItem removeMissing)
                  (signedIn "alice") world1
                  {| code := NOT_FOUND; message := "Course item not found." |}
                  eq_refl)).
Defined.

(** C8 as stated fails in its second half: [deleteCourseItem] on a course the
    user owns, for an item the course does not have, throws NOT_FOUND after it
    has sent its DELETE statement, not before. *)
Lemma deleteCourseItem_checks_after_delete :
  fst (deleteCourseItem.handler removeMissing (signedIn "alice") world1)
  = thrown NOT_FOUND "Course item not found."
  /\ log (after (deleteCourseItem.handler removeMissing (signedIn "alice")) world1)
     = log world1 ++ [SELECT TCourses; DELETE TCourseItems]
  /\ ~ onlyReads [SELECT TCourses; DELETE TCourseItems].
Proof.
  splits; [reflexivity | reflexivity | discriminate].
Qed.

(** The walk through the actions given with the testable properties: create a
    course, start it, add a lesson, remove the lesson, read the course. *)
Example walkthrough :
  let me := signedIn "alice" in
  let lesson :=
    {| CourseItems.id := 1; CourseItems.courseId := 1;
       CourseItems.type := ItemType.lesson; CourseItems.title := "Lesson 2";
       CourseItems.description := None; CourseItems.position := 0;
       CourseItems.dueDate := None; CourseItems.estimatedMinutes := None;
       CourseItems.isRequired := true; CourseItems.createdAt := 5000 |} in
  let started :=
    {| Courses.id := 1; Courses.ownerId := "alice"; Courses.title := "Intro to Go";
       Courses.description := None; Courses.provider := None;
       Courses.platform := None; Courses.url := None;
       Courses.level := Level.beginner; Courses.tags := None;
       Courses.status := CourseStatus.in_progress;
       Courses.createdAt := 1000; Courses.updatedAt := 4000 |} in
  let wa := after (updateCourse.handler startCourse me) world1 in
  let wb := after (saveCourseItem.handler lesson2 me) wa in
  let remove := {| deleteCourseItem.id := 1; deleteCourseItem.courseId := 1 |} in
  let wc := after (deleteCourseItem.handler remove me) wb in
  fst (createCourse.handler introToGo me world0)
  = Return {| createCourse.course := Some course1 |}
  /\ fst (updateCourse.handler startCourse me world1)
     = Return {| updateCourse.course := Some started |}
  /\ fst (saveCourseItem.handler lesson2 me wa)
     = Return {| saveCourseItem.item := Some lesson |}
  /\ fst (deleteCourseItem.handler remove me wb)
     = Return {| deleteCourseItem.item := lesson |}
  /\ fst (getCourseWithItems.handler {| getCourseWithItems.id := 1 |} me wc)
     = Return {| getCourseWithItems.course := started;
                 getCourseWithItems.items := [] |}.
Proof. vm_compute. splits; reflexivity. Qed.

(** * Further properties of the actions *)

(** ** Reading: listMyCourses and getCourseWithItems *)

Lemma CourseStatus_eqb_eq (a b : CourseStatus.t) :
  CourseStatus.eqb a b = true <-> a = b.
Proof. destruct a, b; cbn; split; intros H; try reflexivity; discriminate. Qed.

(** X1: [listMyCourses] returns the courses of the table that belong to the
    acting user, and only those; with a status in the input, those among them
    that have this status.  It changes nothing. *)
Theorem listMyCourses_own_courses
    (i : listMyCourses.input) (context : ActionAPIContext) (u : User.t) (w : World) :
  currentUser context = Some u ->
  exists l,
    fst (listMyCourses.handler i context w) = Return {| listMyCourses.courses := l |}
    /\ (forall c,
          In c l
          <-> In c (rows (courses (db w)))
              /\ Courses.ownerId c = User.id u
              /\ match wantedStatus i with
                 | Some s => Courses.status c = s
                 | None => True
                 end)
    /\ db (after (listMyCourses.handler i context) w) = db w.
Proof.
  intros Hu. unfold after, listMyCourses.handler, requireUser. rewrite Hu. run.
  destruct i as [[[s|]]|]; cbn [wantedStatus listMyCourses.status];
    eexists; (split; [reflexivity|]); (split; [|reflexivity]); intros c;
    rewrite ?filter_In, ?CourseStatus_eqb_eq, String.eqb_eq; tauto.
Qed.

(** What [getCourseWithItems] answers to the owner of a course. *)
Lemma getCourseWithItems_run
    (i : getCourseWithItems.input) (context : ActionAPIContext) (u : User.t)
    (c : Courses.row) (w : World) :
  currentUser context = Some u ->
  NoDup (map Courses.id (rows (courses (db w)))) ->
  In c (rows (courses (db w))) ->
  Courses.ownerId c = User.id u ->
  getCourseWithItems.id i = Courses.id c ->
  getCourseWithItems.handler i context w
  = (Return {| getCourseWithItems.course := c;
               getCourseWithItems.items :=
                 filter (fun it => CourseItems.courseId it =? Courses.id c)
                        (rows (courseItems (db w))) |},
     sent (SELECT TCourseItems) (db w) (sent (SELECT TCourses) (db w) w)).
Proof.
  intros Hu Hnd Hc Ho Hi. unfold getCourseWithItems.handler, requireUser.
  rewrite Hu. run. rewrite first_firstn1, Hi, <- Ho, owned_filter by assumption.
  reflexivity.
Qed.

(** X2: to its owner, [getCourseWithItems] returns the course and the items of
    the table whose courseId is the id of the course, all of them and no
    other; it changes nothing. *)
Theorem getCourseWithItems_course_and_items
    (i : getCourseWithItems.input) (context : ActionAPIContext) (u : User.t)
    (c : Courses.row) (w : World) :
  currentUser context = Some u ->
  NoDup (map Courses.id (rows (courses (db w)))) ->
  In c (rows (courses (db w))) ->
  Courses.ownerId c = User.id u ->
  getCourseWithItems.id i = Courses.id c ->
  exists items,
    fst (getCourseWithItems.handler i context w)
    = Return {| getCourseWithItems.course := c; getCourseWithItems.items := items |}
    /\ (forall it,
          In it items
          <-> In it (rows (courseItems (db w)))
              /\ CourseItems.courseId it = Courses.id c)
    /\ db (after (getCourseWithItems.handler i context) w) = db w.
Proof.
  intros Hu Hnd Hc Ho Hi. unfold after.
  rewrite (getCourseWithItems_run i context u c w Hu Hnd Hc Ho Hi).
  eexists. split; [reflexivity|]. split; [|reflexivity].
  intros it. rewrite filter_In, Z.eqb_eq. tauto.
Qed.

(** ** deleteCourseItem *)

(** The item a [deleteCourseItem] input names: same id, same course. *)
Lemma delete_pair_is_key (l : list CourseItems.row) (e r : CourseItems.row)
    (i : deleteCourseItem.input) :
  NoDup (map CourseItems.id l) -> In e l -> In r l ->
  deleteCourseItem.id i = CourseItems.id e ->
  deleteCourseItem.courseId i = CourseItems.courseId e ->
  (CourseItems.id r =? deleteCourseItem.id i)
  && (CourseItems.courseId r =? deleteCourseItem.courseId i)
  = (CourseItems.id r =? CourseItems.id e).
Proof.
  intros Hnd He Hr Hid Hcid. rewrite Hid, Hcid.
  destruct (Z.eqb_spec (CourseItems.id r) (CourseItems.id e)) as [E|E]; [|reflexivity].
  assert (r = e) by exact (key_injective CourseItems.id l r e Hnd Hr He E).
  subst r. cbn. apply Z.eqb_refl.
Qed.

(** What [deleteCourseItem] does for the owner of the course of an item. *)
Lemma deleteCourseItem_run
    (i : deleteCourseItem.input) (context : ActionAPIContext) (u : User.t)
    (e : CourseItems.row) (w : World) :
  currentUser context = Some u ->
  owns (User.id u) (deleteCourseItem.courseId i) (db w) ->
  NoDup (map CourseItems.id (rows (courseItems (db w)))) ->
  In e (rows (courseItems (db w))) ->
  deleteCourseItem.id i = CourseItems.id e ->
  deleteCourseItem.courseId i = CourseItems.courseId e ->
  fst (deleteCourseItem.handler i context w) = Return {| deleteCourseItem.item := e |}
  /\ db (after (deleteCourseItem.handler i context) w)
     = putTable CourseItemsT
         {| rows := filter (fun r => negb (CourseItems.id r =? CourseItems.id e))
                      (rows (courseItems (db w)));
            sequence := sequence (courseItems (db w)) |} (db w).
Proof.
  intros Hu Hown Hnd He Hid Hcid.
  destruct (owns_found _ _ _ Hown) as (c & Hc).
  unfold after, deleteCourseItem.handler, requireUser. rewrite Hu. run. rewrite Hc. run.
  rewrite (filter_by_key CourseItems.id _ _ e Hnd He)
    by (intros r Hr; now apply (delete_pair_is_key (rows (courseItems (db w))))).
  cbn [first hd_error fst snd db sent]. split; [reflexivity|].
  do 2 f_equal. apply filter_ext_in. intros r Hr.
  now rewrite (delete_pair_is_key (rows (courseItems (db w))) e r i).
Qed.

(** X3: for the owner of a course, [deleteCourseItem] with the id and the
    courseId of an item that no progress row names returns that item and
    removes it from the table; the other items stay, and so do the three other
    tables, in which no row is left naming the removed item. *)
Theorem deleteCourseItem_removes_the_item
    (i : deleteCourseItem.input) (context : ActionAPIContext) (u : User.t)
    (e : CourseItems.row) (w : World) :
  currentUser context = Some u ->
  owns (User.id u) (deleteCourseItem.courseId i) (db w) ->
  NoDup (map CourseItems.id (rows (courseItems (db w)))) ->
  In e (rows (courseItems (db w))) ->
  unreferenced (db w) (CourseItems.id e) ->
  deleteCourseItem.id i = CourseItems.id e ->
  deleteCourseItem.courseId i = CourseItems.courseId e ->
  let w' := after (deleteCourseItem.handler i context) w in
  fst (deleteCourseItem.handler i context w) = Return {| deleteCourseItem.item := e |}
  /\ unreferenced (db w') (CourseItems.id e)
  /\ ~ In e (rows (courseItems (db w')))
  /\ (forall r, In r (rows (courseItems (db w')))
                <-> In r (rows (courseItems (db w))) /\ r <> e)
  /\ courses (db w') = courses (db w)
  /\ courseProgress (db w') = courseProgress (db w)
  /\ courseItemProgress (db w') = courseItemProgress (db w).
Proof.
  intros Hu Hown Hnd He Hfree Hid Hcid w'. subst w'.
  destruct (deleteCourseItem_run i context u e w Hu Hown Hnd He Hid Hcid) as [Hr Hdb].
  rewrite Hdb. unfold unreferenced.
  cbn [putTable CourseItemsT courses courseItems courseProgress
       courseItemProgress rows].
  assert (Hiff : forall r,
             In r (filter (fun r => negb (CourseItems.id r =? CourseItems.id e))
                     (rows (courseItems (db w))))
             <-> In r (rows (courseItems (db w))) /\ r <> e).
  { intros r. rewrite filter_In, negb_true_iff, Z.eqb_neq. split.
    - intros [Hin Hne]. split; [exact Hin|]. intros ->. now apply Hne.
    - intros [Hin Hne]. split; [exact Hin|]. intros E. apply Hne.
      exact (key_injective CourseItems.id _ r e Hnd Hin He E). }
  splits; try reflexivity; [exact Hr | apply Hfree | apply Hfree | | exact Hiff].
  intros Hin. apply Hiff in Hin. now destruct Hin.
Qed.

(** X4: for the owner of the course, [deleteCourseItem] throws NOT_FOUND
    "Course item not found." when no item has both the id and the courseId of
    the input (the id is unknown, or it is the id of an item of another
    course), and then the database is as it was. *)
Theorem deleteCourseItem_no_such_item
    (i : deleteCourseItem.input) (context : ActionAPIContext) (u : User.t) (w : World) :
  currentUser context = Some u ->
  owns (User.id u) (deleteCourseItem.courseId i) (db w) ->
  (forall r, In r (rows (courseItems (db w))) ->
     CourseItems.id r = deleteCourseItem.id i ->
     CourseItems.courseId r <> deleteCourseItem.courseId i) ->
  fst (deleteCourseItem.handler i context w)
  = thrown NOT_FOUND "Course item not found."
  /\ db (after (deleteCourseItem.handler i context) w) = db w.
Proof.
  intros Hu Hown Hno.
  destruct (owns_found _ _ _ Hown) as (c & Hc).
  unfold after, deleteCourseItem.handler, requireUser. rewrite Hu. run. rewrite Hc. run.
  assert (Hnone : filter (fun r => (CourseItems.id r =? deleteCourseItem.id i)
                                   && (CourseItems.courseId r
                                       =? deleteCourseItem.courseId i))
                    (rows (courseItems (db w))) = []).
  { apply filter_none. intros r Hr. apply andb_false_iff.
    destruct (Z.eqb_spec (CourseItems.id r) (deleteCourseItem.id i)) as [E|E];
      [right | now left].
    apply Z.eqb_neq. now apply Hno. }
  rewrite Hnone. cbn [first hd_error fst snd db sent]. split; [reflexivity|].
  rewrite filter_negb_all by exact Hnone. apply put_same_items.
Qed.

(** ** saveCourseItem: the id that is not one *)

(** X5: an id of 0 is no id.  On a course the user owns, [saveCourseItem]
    with [id: 0] appends a new item with a key no row had and returns it; the
    rows of the table, a row with key 0 included, are not rewritten. *)
Theorem saveCourseItem_zero_id_inserts
    (i : saveCourseItem.input) (context : ActionAPIContext) (u : User.t) (w : World) :
  currentUser context = Some u ->
  owns (User.id u) (saveCourseItem.courseId i) (db w) ->
  saveCourseItem.id i = Some 0 ->
  exists it,
    fst (saveCourseItem.handler i context w)
    = Return {| saveCourseItem.item := Some it |}
    /\ rows (courseItems (db (after (saveCourseItem.handler i context) w)))
       = rows (courseItems (db w)) ++ [it]
    /\ ~ In (CourseItems.id it) (map CourseItems.id (rows (courseItems (db w))))
    /\ CourseItems.courseId it = saveCourseItem.courseId i
    /\ CourseItems.title it = saveCourseItem.title i.
Proof.
  intros Hu Hown Hid. destruct (owns_found _ _ _ Hown) as (c & Hc).
  unfold after, saveCourseItem.handler, requireUser. rewrite Hu. run. rewrite Hc.
  unfold saveCourseItem.truthyId. rewrite Hid. cbn [Z.eqb]. run.
  cbn [CourseItems.ofValues saveCourseItem.baseValues CourseItems.v_courseId
       CourseItems.v_title first hd_error].
  eexists. splits; try reflexivity. apply (nextId_fresh CourseItems.id).
Qed.

(** X6: on a course the user owns, [saveCourseItem] with an id other than 0
    that no item has throws NOT_FOUND "Course item not found."; nothing is
    inserted in its place and the database is as it was. *)
Theorem saveCourseItem_unknown_id
    (i : saveCourseItem.input) (context : ActionAPIContext) (u : User.t)
    (k : Z) (w : World) :
  currentUser context = Some u ->
  owns (User.id u) (saveCourseItem.courseId i) (db w) ->
  saveCourseItem.id i = Some k ->
  k <> 0 ->
  (forall r, In r (rows (courseItems (db w))) -> CourseItems.id r <> k) ->
  fst (saveCourseItem.handler i context w) = thrown NOT_FOUND "Course item not found."
  /\ db (after (saveCourseItem.handler i context) w) = db w.
Proof.
  intros Hu Hown Hid Hk Hno. destruct (owns_found _ _ _ Hown) as (c & Hc).
  unfold after, saveCourseItem.handler, requireUser. rewrite Hu. run. rewrite Hc.
  unfold saveCourseItem.truthyId. rewrite Hid.
  destruct (Z.eqb_spec k 0) as [E|_]; [contradiction|]. run.
  rewrite filter_none; [split; reflexivity|].
  intros r Hr. apply Z.eqb_neq. now apply Hno.
Qed.

(** ** updateCourse: the fields that are supplied *)

(** X7: [updateCourse] on an owned course with at least one field supplied
    returns the stored row after the update: every supplied field has the
    value of the input, every other field its former value, and updatedAt is
    the current time. *)
Theorem updateCourse_applies_supplied
    (i : updateCourse.input) (context : ActionAPIContext) (u : User.t)
    (c : Courses.row) (w : World) :
  currentUser context = Some u ->
  NoDup (map Courses.id (rows (courses (db w)))) ->
  In c (rows (courses (db w))) ->
  Courses.ownerId c = User.id u ->
  updateCourse.id i = Courses.id c ->
  ~ updateCourse.onlyId i ->
  let c' :=
    {| Courses.id := Courses.id c;
       Courses.ownerId := Courses.ownerId c;
       Courses.title :=
         match updateCourse.title i with Some t => t | None => Courses.title c end;
       Courses.description :=
         match updateCourse.description i with
         | Some d => Some d
         | None => Courses.description c
         end;
       Courses.provider :=
         match updateCourse.provider i with
         | Some p => Some p
         | None => Courses.provider c
         end;
       Courses.platform :=
         match updateCourse.platform i with
         | Some p => Some p
         | None => Courses.platform c
         end;
       Courses.url :=
         match updateCourse.url i with Some x => Some x | None => Courses.url c end;
       Courses.level :=
         match updateCourse.level i with Some l => l | None => Courses.level c end;
       Courses.tags :=
         match updateCourse.tags i with Some t => Some t | None => Courses.tags c end;
       Courses.status :=
         match updateCourse.status i with Some s => s | None => Courses.status c end;
       Courses.createdAt := Courses.createdAt c;
       Courses.updatedAt := clock w (ticks w) |} in
  fst (updateCourse.handler i context w) = Return {| updateCourse.course := Some c' |}
  /\ In c' (rows (courses (db (after (updateCourse.handler i context) w))))
  /\ log (after (updateCourse.handler i context) w)
     = log w ++ [SELECT TCourses; UPDATE TCourses].
Proof.
  intros Hu Hnd Hc Ho Hi Hsome c'.
  unfold after, updateCourse.handler, requireUser. rewrite Hu. run.
  rewrite first_firstn1, Hi, <- Ho, owned_filter by assumption.
  cbn [first hd_error].
  destruct (List.length _ =? 0)%nat eqn:E.
  { apply no_entries in E. contradiction. }
  run. rewrite spread_entries, owned_filter by assumption.
  cbn [map first hd_error].
  assert (Hc' : Courses.applySet
                  {| Courses.v_ownerId := None;
                     Courses.v_title := updateCourse.title i;
                     Courses.v_description := ofInput (updateCourse.description i);
                     Courses.v_provider := ofInput (updateCourse.provider i);
                     Courses.v_platform := ofInput (updateCourse.platform i);
                     Courses.v_url := ofInput (updateCourse.url i);
                     Courses.v_level := updateCourse.level i;
                     Courses.v_tags := ofInput (updateCourse.tags i);
                     Courses.v_status := updateCourse.status i;
                     Courses.v_createdAt := None;
                     Courses.v_updatedAt := Some (clock w (ticks w)) |} c = c').
  { subst c'. unfold Courses.applySet. cbn.
    destruct (updateCourse.description i), (updateCourse.provider i),
      (updateCourse.platform i), (updateCourse.url i), (updateCourse.tags i);
      reflexivity. }
  rewrite Hc'. splits.
  - reflexivity.
  - apply in_map_iff. exists c. split; [|exact Hc].
    unfold ownedCourse. now rewrite Z.eqb_refl, String.eqb_refl.
  - now rewrite <- app_assoc.
Qed.

(** ** updateCourseItemProgress *)

Lemma existing_item_lookup (d : Db) (itemId : Z) (userId : string)
    (existing : option CourseItemProgress.row) :
  NoDup (map itemProgressKey (rows (courseItemProgress d))) ->
  existingItemProgress d itemId userId existing ->
  first (firstn 1 (filter (updateCourseItemProgress.progressOf itemId userId)
                     (rows (courseItemProgress d)))) = existing.
Proof.
  intros Hnd Hex. rewrite first_firstn1.
  destruct existing as [e|]; cbn in Hex.
  - destruct Hex as [He Hk].
    rewrite (filter_unique itemProgressKey _ _ e Hnd He); [reflexivity|].
    intros r _. rewrite Hk. apply itemProgressOf_key.
  - rewrite filter_none; [reflexivity|]. intros r Hr.
    destruct (updateCourseItemProgress.progressOf itemId userId r) eqn:E; [|reflexivity].
    apply itemProgressOf_key in E. now apply Hex in E.
Qed.


Lemma itemProgress_set_row (i : updateCourseItemProgress.input) (u : User.t)
    (e : CourseItemProgress.row) :
  CourseItemProgress.applySet (updateCourseItemProgress.baseValues i u (Some e)) e
  = itemProgressAfter i (User.id u) (Some e) 0 0.
Proof.
  unfold CourseItemProgress.applySet, updateCourseItemProgress.baseValues,
    itemProgressAfter.
  cbn. f_equal.
  - destruct (updateCourseItemProgress.status i); reflexivity.
  - destruct (updateCourseItemProgress.startedAt i); cbn; [reflexivity|].
    destruct (CourseItemProgress.startedAt e); reflexivity.
  - destruct (updateCourseItemProgress.completedAt i); cbn; [reflexivity|].
    destruct (CourseItemProgress.completedAt e); reflexivity.
  - destruct (updateCourseItemProgress.notes i); cbn; [reflexivity|].
    destruct (CourseItemProgress.notes e); reflexivity.
Qed.

Lemma itemProgress_new_row (i : updateCourseItemProgress.input) (u : User.t)
    (newId now : Z) :
  CourseItemProgress.ofValues newId now (updateCourseItemProgress.baseValues i u None)
  = Some (itemProgressAfter i (User.id u) None newId now).
Proof.
  unfold CourseItemProgress.ofValues, updateCourseItemProgress.baseValues,
    itemProgressAfter.
  cbn. do 2 f_equal.
  - destruct (updateCourseItemProgress.status i); reflexivity.
  - destruct (updateCourseItemProgress.startedAt i); reflexivity.
  - destruct (updateCourseItemProgress.completedAt i); reflexivity.
  - destruct (updateCourseItemProgress.notes i); reflexivity.
Qed.

(** What a call of [updateCourseItemProgress] that passes both checks does, on
    a consistent database. *)
Lemma itemProgress_run
    (i : updateCourseItemProgress.input) (context : ActionAPIContext) (u : User.t)
    (item : CourseItems.row) (w : World) (existing : option CourseItemProgress.row) :
  currentUser context = Some u ->
  consistent (db w) ->
  In item (rows (courseItems (db w))) ->
  CourseItems.id item = updateCourseItemProgress.itemId i ->
  owns (User.id u) (CourseItems.courseId item) (db w) ->
  existingItemProgress (db w) (updateCourseItemProgress.itemId i) (User.id u) existing ->
  let t := courseItemProgress (db w) in
  let p := itemProgressAfter i (User.id u) existing
             (nextId CourseItemProgress.id t) (clock w (ticks w)) in
  fst (updateCourseItemProgress.handler i context w)
  = Return {| updateCourseItemProgress.progress := Some p |}
  /\ db (after (updateCourseItemProgress.handler i context) w)
     = putTable CourseItemProgressT
         match existing with
         | Some e =>
             {| rows := map (fun r => if CourseItemProgress.id r
                                         =? CourseItemProgress.id e
                                      then p else r) (rows t);
                sequence := sequence t |}
         | None =>
             {| rows := rows t ++ [p]; sequence := nextId CourseItemProgress.id t |}
         end (db w).
Proof.
  intros Hu Hcons Hitem Hid Hown Hex t p.
  destruct (owns_found _ _ _ Hown) as (c & Hc).
  destruct Hcons as [_ (Hndi & _ & _) _ (Hnd & _ & _) _ Hkeys _ _].
  unfold after, updateCourseItemProgress.handler, requireUser. rewrite Hu. run.
  rewrite <- Hid, first_firstn1, first_filter.
  rewrite (find_by_key CourseItems.id _ item Hndi Hitem). run. rewrite Hc. run.
  rewrite Hid, (existing_item_lookup _ _ _ existing Hkeys Hex).
  destruct existing as [e|].
  - destruct Hex as [He Hk]. run.
    rewrite (filter_by_key CourseItemProgress.id _ _ e Hnd He) by reflexivity.
    cbn [map first hd_error]. rewrite itemProgress_set_row.
    split; [reflexivity|]. do 2 f_equal.
    apply map_ext_in. intros r Hr.
    destruct (Z.eqb_spec (CourseItemProgress.id r) (CourseItemProgress.id e)) as [E|E];
      [|reflexivity].
    assert (r = e) by exact (key_injective CourseItemProgress.id _ r e Hnd Hr He E).
    subst r. apply itemProgress_set_row.
  - run. rewrite itemProgress_new_row. cbn [first hd_error fst snd db sent].
    split; reflexivity.
Qed.

(** X8: on a consistent database, a call of [updateCourseItemProgress] for an
    item of a course the user owns returns the row it wrote; in it status,
    startedAt, completedAt and notes are the input value if supplied, else the
    value of the user's existing row for the item if there is one, else
    "not_started" for status and nothing for the three others; the creation
    date of an existing row is kept. *)
Theorem itemProgress_effective_values
    (i : updateCourseItemProgress.input) (context : ActionAPIContext) (u : User.t)
    (item : CourseItems.row) (w : World) (existing : option CourseItemProgress.row) :
  currentUser context = Some u ->
  consistent (db w) ->
  In item (rows (courseItems (db w))) ->
  CourseItems.id item = updateCourseItemProgress.itemId i ->
  owns (User.id u) (CourseItems.courseId item) (db w) ->
  existingItemProgress (db w) (updateCourseItemProgress.itemId i) (User.id u) existing ->
  exists p,
    fst (updateCourseItemProgress.handler i context w)
    = Return {| updateCourseItemProgress.progress := Some p |}
    /\ In p (rows (courseItemProgress
                     (db (after (updateCourseItemProgress.handler i context) w))))
    /\ CourseItemProgress.itemId p = updateCourseItemProgress.itemId i
    /\ CourseItemProgress.userId p = User.id u
    /\ CourseItemProgress.status p
       = effective (updateCourseItemProgress.status i) existing
           CourseItemProgress.status ItemProgressStatus.not_started
    /\ CourseItemProgress.startedAt p
       = effectiveOpt (updateCourseItemProgress.startedAt i) existing
           CourseItemProgress.startedAt
    /\ CourseItemProgress.completedAt p
       = effectiveOpt (updateCourseItemProgress.completedAt i) existing
           CourseItemProgress.completedAt
    /\ CourseItemProgress.notes p
       = effectiveOpt (updateCourseItemProgress.notes i) existing
           CourseItemProgress.notes
    /\ match existing with
       | Some e =>
           CourseItemProgress.id p = CourseItemProgress.id e
           /\ CourseItemProgress.createdAt p = CourseItemProgress.createdAt e
       | None =>
           ~ In (CourseItemProgress.id p)
               (map CourseItemProgress.id (rows (courseItemProgress (db w))))
       end.
Proof.
  intros Hu Hcons Hitem Hid Hown Hex.
  destruct (itemProgress_run i context u item w existing Hu Hcons Hitem Hid Hown Hex)
    as [Hr Hdb].
  eexists. split; [exact Hr|]. split.
  - rewrite Hdb.
    destruct existing as [e|];
      cbn [putTable CourseItemProgressT courseItemProgress rows].
    + destruct Hex as [He _]. apply in_map_iff. exists e. now rewrite Z.eqb_refl.
    + apply in_or_app. right. now left.
  - splits; try reflexivity. destruct existing as [e|]; cbn.
    + split; reflexivity.
    + apply (nextId_fresh CourseItemProgress.id).
Qed.

(** X9: [updateCourseItemProgress] throws NOT_FOUND "Course item not found."
    when no item has the itemId of the input, and NOT_FOUND "Course not found."
    when the item exists but the user does not own its course; in both cases
    the database is as it was. *)
Theorem itemProgress_not_found
    (i : updateCourseItemProgress.input) (context : ActionAPIContext) (u : User.t)
    (w : World) :
  currentUser context = Some u ->
  NoDup (map CourseItems.id (rows (courseItems (db w)))) ->
  ((forall r, In r (rows (courseItems (db w))) ->
      CourseItems.id r <> updateCourseItemProgress.itemId i) ->
   fst (updateCourseItemProgress.handler i context w)
   = thrown NOT_FOUND "Course item not found."
   /\ db (after (updateCourseItemProgress.handler i context) w) = db w)
  /\ (forall item,
        In item (rows (courseItems (db w))) ->
        CourseItems.id item = updateCourseItemProgress.itemId i ->
        ~ owns (User.id u) (CourseItems.courseId item) (db w) ->
        fst (updateCourseItemProgress.handler i context w)
        = thrown NOT_FOUND "Course not found."
        /\ db (after (updateCourseItemProgress.handler i context) w) = db w).
Proof.
  intros Hu Hnd. split.
  - intros Hno. unfold after, updateCourseItemProgress.handler, requireUser.
    rewrite Hu. run. rewrite filter_none; [split; reflexivity|].
    intros r Hr. apply Z.eqb_neq. now apply Hno.
  - intros item Hitem Hid Hnot.
    unfold after, updateCourseItemProgress.handler, requireUser. rewrite Hu. run.
    rewrite <- Hid, first_firstn1, first_filter.
    rewrite (find_by_key CourseItems.id _ item Hnd Hitem). run.
    destruct (first (firstn 1 _)) as [c|] eqn:Hc; [|split; reflexivity].
    apply owned_first in Hc. contradiction.
Qed.


(** ** What an action writes, and where *)

Ltac effect_leaf :=
  cbn [fst snd db log sent putTable CoursesT CourseItemsT CourseProgressT
       CourseItemProgressT courses courseItems courseProgress courseItemProgress
       target allowedWrites];
  split;
  [ splits; intros Ht; first [reflexivity | exfalso; apply Ht; reflexivity]
  | eexists; split;
    [ first [ symmetry; apply app_nil_r
            | reflexivity
            | rewrite <- !app_assoc; reflexivity ]
    | cbn; first [ left; reflexivity
                 | right; eexists; split; [reflexivity | cbn; tauto] ] ] ].

Lemma server_effect (r : Request) (context : ActionAPIContext) (w : World) :
  let w' := after (server r context) w in
  ((target r <> Some TCourses -> courses (db w') = courses (db w))
   /\ (target r <> Some TCourseItems -> courseItems (db w') = courseItems (db w))
   /\ (target r <> Some TCourseProgress ->
       courseProgress (db w') = courseProgress (db w))
   /\ (target r <> Some TCourseItemProgress ->
       courseItemProgress (db w') = courseItemProgress (db w)))
  /\ exists stmts,
       log w' = log w ++ stmts
       /\ (filter mutating stmts = []
           \/ exists s, filter mutating stmts = [s] /\ In s (allowedWrites r)).
Proof.
  intros w'. subst w'.
  destruct r; cbn [server]; rewrite after_bind_ret; unfold after.
  - unfold createCourse.handler, requireUser.
    destruct (currentUser context) as [u|]; run; [|effect_leaf].
    destruct (Courses.ofValues _ _ _); effect_leaf.
  - unfold updateCourse.handler, requireUser.
    destruct (currentUser context) as [u|]; run; [|effect_leaf].
    destruct (first _) as [c|]; [|effect_leaf].
    destruct (List.length _ =? 0)%nat; run; effect_leaf.
  - unfold listMyCourses.handler, requireUser.
    destruct (currentUser context) as [u|]; run; effect_leaf.
  - unfold getCourseWithItems.handler, requireUser.
    destruct (currentUser context) as [u|]; run; [|effect_leaf].
    destruct (first _) as [c|]; run; effect_leaf.
  - unfold saveCourseItem.handler, requireUser.
    destruct (currentUser context) as [u|]; run; [|effect_leaf].
    destruct (first _) as [c|]; run; [|effect_leaf].
    destruct (saveCourseItem.truthyId i) as [k|]; run.
    + destruct (first _) as [x|]; [|effect_leaf].
      destruct (negb _); run; effect_leaf.
    + destruct (CourseItems.ofValues _ _ _); effect_leaf.
  - unfold deleteCourseItem.handler, requireUser.
    destruct (currentUser context) as [u|]; run; [|effect_leaf].
    destruct (first (firstn 1 _)) as [c|]; run; [|effect_leaf].
    destruct (first _) as [x|]; effect_leaf.
  - unfold upsertCourseProgress.handler, requireUser.
    destruct (currentUser context) as [u|]; run; [|effect_leaf].
    destruct (first (firstn 1 _)) as [c|]; run; [|effect_leaf].
    destruct (upsertCourseProgress.existingStartedAt _); run;
      destruct (first _) as [x|]; run;
      try destruct (CourseProgress.ofValues _ _ _); effect_leaf.
  - unfold updateCourseItemProgress.handler, requireUser.
    destruct (currentUser context) as [u|]; run; [|effect_leaf].
    destruct (first (firstn 1 _)) as [x|]; run; [|effect_leaf].
    destruct (first (firstn 1 _)) as [c|]; run; [|effect_leaf].
    destruct (first _) as [y|]; run;
      try destruct (CourseItemProgress.ofValues _ _ _); effect_leaf.
Qed.

(** X14: whatever its outcome, an action sends at most one writing statement,
    of a kind its handler has (createCourse an INSERT into Courses, updateCourse
    an UPDATE of Courses, saveCourseItem an INSERT or UPDATE and
    deleteCourseItem a DELETE on CourseItems, the progress actions an INSERT or
    UPDATE on their table, the two readers none), and the tables other than
    the one it writes to are as they were. *)
Theorem one_write_to_own_table (r : Request) (context : ActionAPIContext) (w : World) :
  let w' := after (server r context) w in
  (exists stmts,
     log w' = log w ++ stmts
     /\ (filter mutating stmts = []
         \/ exists s, filter mutating stmts = [s] /\ In s (allowedWrites r)))
  /\ match target r with
     | Some TCourses =>
         courseItems (db w') = courseItems (db w)
         /\ courseProgress (db w') = courseProgress (db w)
         /\ courseItemProgress (db w') = courseItemProgress (db w)
     | Some TCourseItems =>
         courses (db w') = courses (db w)
         /\ courseProgress (db w') = courseProgress (db w)
         /\ courseItemProgress (db w') = courseItemProgress (db w)
     | Some TCourseProgress =>
         courses (db w') = courses (db w)
         /\ courseItems (db w') = courseItems (db w)
         /\ courseItemProgress (db w') = courseItemProgress (db w)
     | Some TCourseItemProgress =>
         courses (db w') = courses (db w)
         /\ courseItems (db w') = courseItems (db w)
         /\ courseProgress (db w') = courseProgress (db w)
     | None => db w' = db w
     end.
Proof.
  intros w'. destruct (server_effect r context w) as [(H1 & H2 & H3 & H4) Hlog].
  fold w' in H1, H2, H3, H4, Hlog. split; [exact Hlog|].
  destruct (target r) as [[]|]; splits;
    try (apply H1; discriminate); try (apply H2; discriminate);
    try (apply H3; discriminate); try (apply H4; discriminate).
  assert (E1 := H1 ltac:(discriminate)). assert (E2 := H2 ltac:(discriminate)).
  assert (E3 := H3 ltac:(discriminate)). assert (E4 := H4 ltac:(discriminate)).
  destruct (db w'), (db w). cbn in *. congruence.
Qed.

(** ** Courses stay, and stay with their owner *)

Lemma actingUserId_some (context : ActionAPIContext) (u : User.t) :
  currentUser context = Some u -> actingUserId context = Some (User.id u).
Proof. intros H. unfold actingUserId. now rewrite H. Qed.

Lemma courses_step (r : Request) (context : ActionAPIContext) (w : World) :
  exists g tail,
    rows (courses (db (after (server r context) w)))
    = map g (rows (courses (db w))) ++ tail
    /\ forall c,
         Courses.id (g c) = Courses.id c
         /\ Courses.ownerId (g c) = Courses.ownerId c
         /\ Courses.createdAt (g c) = Courses.createdAt c
         /\ (actingUserId context <> Some (Courses.ownerId c) -> g c = c).
Proof.
  assert (Hsame : forall l : list Courses.row,
             l = map (fun c => c) l ++ []) by (intros l; now rewrite map_id, app_nil_r).
  assert (Hid : forall c : Courses.row,
             Courses.id c = Courses.id c /\ Courses.ownerId c = Courses.ownerId c
             /\ Courses.createdAt c = Courses.createdAt c
             /\ (actingUserId context <> Some (Courses.ownerId c) -> c = c))
    by (intros c; splits; reflexivity).
  destruct (server_effect r context w) as [(H1 & _) _].
  destruct r;
    try (exists (fun c => c), []; split;
         [rewrite (H1 ltac:(discriminate)); apply Hsame | exact Hid]).
  - cbn [server]. rewrite after_bind_ret. unfold after, createCourse.handler, requireUser.
    destruct (currentUser context) as [u|]; run.
    + cbn [Courses.ofValues Courses.v_ownerId Courses.v_title snd db sent
           putTable CoursesT courses rows].
      exists (fun c => c). eexists. rewrite map_id. split; [reflexivity | exact Hid].
    + exists (fun c => c), []. split; [apply Hsame | exact Hid].
  - cbn [server]. rewrite after_bind_ret. unfold after, updateCourse.handler, requireUser.
    destruct (currentUser context) as [u|] eqn:Hu; run;
      [|exists (fun c => c), []; split; [apply Hsame | exact Hid]].
    destruct (first _) as [c0|];
      [|exists (fun c => c), []; split; [apply Hsame | exact Hid]].
    destruct (List.length _ =? 0)%nat; run;
      [exists (fun c => c), []; split; [apply Hsame | exact Hid]|].
    eexists. exists []. split; [now rewrite app_nil_r|].
    intros c. cbn beta.
    destruct (ownedCourse (updateCourse.id i) (User.id u) c) eqn:Ho.
    + rewrite spread_entries. splits; try reflexivity.
      intros Hne. exfalso. apply Hne.
      unfold ownedCourse in Ho. apply andb_true_iff in Ho. destruct Ho as [_ Ho].
      apply String.eqb_eq in Ho. rewrite Ho. now apply actingUserId_some.
    + splits; reflexivity.
Qed.

(** X13: no action removes a course or gives it away.  Every course of the
    table is still there after any action, with its id, its owner and its
    creation date; and it is there unchanged unless the acting user is its
    owner. *)
Theorem courses_persist
    (r : Request) (context : ActionAPIContext) (w : World) (c : Courses.row) :
  In c (rows (courses (db w))) ->
  exists c',
    In c' (rows (courses (db (after (server r context) w))))
    /\ Courses.id c' = Courses.id c
    /\ Courses.ownerId c' = Courses.ownerId c
    /\ Courses.createdAt c' = Courses.createdAt c
    /\ (actingUserId context <> Some (Courses.ownerId c) -> c' = c).
Proof.
  intros Hc. destruct (courses_step r context w) as (g & tail & Hrows & Hg).
  exists (g c). split; [|apply Hg].
  rewrite Hrows. apply in_or_app. left. now apply in_map.
Qed.

(** ** Rows point to rows that exist *)

Lemma references_step (d d' : Db) :
  references d ->
  (forall c, In c (rows (courses d)) ->
     exists c', In c' (rows (courses d'))
                /\ Courses.id c' = Courses.id c
                /\ Courses.ownerId c' = Courses.ownerId c) ->
  (forall it, In it (rows (courseItems d')) ->
     In it (rows (courseItems d))
     \/ exists c, In c (rows (courses d)) /\ Courses.id c = CourseItems.courseId it) ->
  (forall p, In p (rows (courseProgress d')) ->
     In p (rows (courseProgress d))
     \/ owns (CourseProgress.userId p) (CourseProgress.courseId p) d) ->
  references d'.
Proof.
  intros [Hitems Hprogress] Hcourses Hi Hp.
  assert (Hexists : forall cid,
             (exists c, In c (rows (courses d)) /\ Courses.id c = cid) ->
             exists c, In c (rows (courses d')) /\ Courses.id c = cid).
  { intros cid (c & Hc & E). destruct (Hcourses c Hc) as (c' & Hc' & E' & _).
    exists c'. split; [exact Hc' | congruence]. }
  assert (Howns : forall uid cid, owns uid cid d -> owns uid cid d').
  { intros uid cid (c & Hc & E & Eo). destruct (Hcourses c Hc) as (c' & Hc' & E' & Eo').
    exists c'. splits; [exact Hc' | congruence | congruence]. }
  split.
  - intros it Hit. apply Hexists. destruct (Hi it Hit) as [Hold|Hnew]; auto.
  - intros p Hin. apply Howns. destruct (Hp p Hin) as [Hold|Hnew]; auto.
Qed.

Lemma items_step (r : Request) (context : ActionAPIContext) (w : World) :
  forall it,
    In it (rows (courseItems (db (after (server r context) w)))) ->
    In it (rows (courseItems (db w)))
    \/ exists c, In c (rows (courses (db w))) /\ Courses.id c = CourseItems.courseId it.
Proof.
  destruct (server_effect r context w) as [(_ & H2 & _) _].
  destruct r; try (rewrite (H2 ltac:(discriminate)); now left); clear H2;
    cbn [server]; rewrite after_bind_ret; unfold after.
  - unfold saveCourseItem.handler, requireUser.
    destruct (currentUser context) as [u|]; run; [|now left].
    destruct (first (firstn 1 _)) as [c|] eqn:Hc; run; [|now left].
    apply owned_first in Hc. destruct Hc as (c' & Hc' & Hid & _).
    destruct (saveCourseItem.truthyId i) as [k|]; run.
    + destruct (first _) as [x|]; [|now left].
      destruct (negb _); run; [now left|].
      cbn [putTable CourseItemsT courseItems rows]. intros it Hit.
      apply in_map_iff in Hit. destruct Hit as (r0 & E & Hr0).
      destruct (CourseItems.id r0 =? k); subst it; [|now left].
      right. exists c'. split; [exact Hc'|]. now rewrite Hid.
    + cbn [CourseItems.ofValues saveCourseItem.baseValues CourseItems.v_courseId
           CourseItems.v_title snd db sent putTable CourseItemsT courseItems rows].
      intros it Hit. apply in_app_or in Hit. destruct Hit as [Hit|[<-|[]]]; [now left|].
      right. exists c'. split; [exact Hc'|]. now rewrite Hid.
  - unfold deleteCourseItem.handler, requireUser.
    destruct (currentUser context) as [u|]; run; [|now left].
    destruct (first (firstn 1 _)) as [c|]; run; [|now left].
    assert (Hsub : forall it,
               In it (filter (fun r => negb ((CourseItems.id r =? deleteCourseItem.id i)
                                             && (CourseItems.courseId r
                                                 =? deleteCourseItem.courseId i)))
                        (rows (courseItems (db w)))) ->
               In it (rows (courseItems (db w)))
               \/ exists c, In c (rows (courses (db w)))
                            /\ Courses.id c = CourseItems.courseId it).
    { intros it Hit. apply filter_In in Hit. left. tauto. }
    destruct (first _) as [x|]; exact Hsub.
Qed.

Lemma progress_step (r : Request) (context : ActionAPIContext) (w : World) :
  forall p,
    In p (rows (courseProgress (db (after (server r context) w)))) ->
    In p (rows (courseProgress (db w)))
    \/ owns (CourseProgress.userId p) (CourseProgress.courseId p) (db w).
Proof.
  destruct (server_effect r context w) as [(_ & _ & H3 & _) _].
  destruct r; try (rewrite (H3 ltac:(discriminate)); now left); clear H3.
  cbn [server]. rewrite after_bind_ret. unfold after.
  unfold upsertCourseProgress.handler, requireUser.
  destruct (currentUser context) as [u|]; run; [|now left].
  destruct (first (firstn 1 _)) as [c|] eqn:Hc; run; [|now left].
  apply owned_first in Hc.
  assert (Hupdate : forall v (q : CourseProgress.row -> bool) p,
             CourseProgress.v_courseId v = Some (upsertCourseProgress.courseId i) ->
             CourseProgress.v_userId v = Some (User.id u) ->
             In p (map (fun r => if q r then CourseProgress.applySet v r else r)
                     (rows (courseProgress (db w)))) ->
             In p (rows (courseProgress (db w)))
             \/ owns (CourseProgress.userId p) (CourseProgress.courseId p) (db w)).
  { intros v q p Hv1 Hv2 Hin. apply in_map_iff in Hin. destruct Hin as (r0 & E & Hr0).
    destruct (q r0); subst p; [|now left].
    right. cbn. now rewrite Hv1, Hv2. }
  assert (Hinsert : forall p0 p,
             CourseProgress.courseId p0 = upsertCourseProgress.courseId i ->
             CourseProgress.userId p0 = User.id u ->
             In p (rows (courseProgress (db w)) ++ [p0]) ->
             In p (rows (courseProgress (db w)))
             \/ owns (CourseProgress.userId p) (CourseProgress.courseId p) (db w)).
  { intros p0 p E1 E2 Hin. apply in_app_or in Hin.
    destruct Hin as [Hin|[<-|[]]]; [now left|]. right. now rewrite E1, E2. }
  destruct (upsertCourseProgress.existingStartedAt _); run;
    destruct (first _) as [x|]; run; cbn [putTable CourseProgressT courseProgress rows];
    try (intros p; now apply Hupdate);
    rewrite upsert_new_row;
    cbn [snd db sent putTable CourseProgressT courseProgress rows];
    intros p; now apply Hinsert.
Qed.

Lemma server_references (r : Request) (context : ActionAPIContext) (w : World) :
  references (db w) -> references (db (after (server r context) w)).
Proof.
  intros H. apply (references_step (db w)); [exact H | | apply items_step
                                            | apply progress_step].
  intros c Hc. destruct (courses_step r context w) as (g & tail & Hrows & Hg).
  exists (g c). destruct (Hg c) as (E1 & E2 & _). splits; [|exact E1|exact E2].
  rewrite Hrows. apply in_or_app. left. now apply in_map.
Qed.

(** X12: in every world the actions can reach from an empty database, every
    item belongs to a course of the table, and every course progress row
    belongs to a user who owns its course: progress is only ever recorded by
    the owner, for the owner. *)
Theorem reachable_references (w : World) : reachable w -> references (db w).
Proof.
  induction 1 as [c|w r context _ IH].
  - split; intros x [].
  - now apply server_references.
Qed.

(** ** Writing, then reading *)

(** What [createCourse] does for an authenticated user. *)
Lemma createCourse_run (i : createCourse.input) (context : ActionAPIContext)
    (u : User.t) (w : World) :
  currentUser context = Some u ->
  let t := courses (db w) in
  let c :=
    {| Courses.id := nextId Courses.id t;
       Courses.ownerId := User.id u;
       Courses.title := createCourse.title i;
       Courses.description := createCourse.description i;
       Courses.provider := createCourse.provider i;
       Courses.platform := createCourse.platform i;
       Courses.url := createCourse.url i;
       Courses.level :=
         match createCourse.level i with Some l => l | None => Level.beginner end;
       Courses.tags := createCourse.tags i;
       Courses.status :=
         match createCourse.status i with
         | Some s => s
         | None => CourseStatus.planned
         end;
       Courses.createdAt := clock w (ticks w);
       Courses.updatedAt := clock w (S (ticks w)) |} in
  fst (createCourse.handler i context w) = Return {| createCourse.course := Some c |}
  /\ db (after (createCourse.handler i context) w)
     = putTable CoursesT
         {| rows := rows t ++ [c]; sequence := nextId Courses.id t |} (db w).
Proof.
  intros Hu t c. unfold after, createCourse.handler, requireUser. rewrite Hu. run.
  assert (Hrow : forall newId now v1 v2,
             Courses.ofValues newId now
               {| Courses.v_ownerId := Some (User.id u);
                  Courses.v_title := Some (createCourse.title i);
                  Courses.v_description := ofInput (createCourse.description i);
                  Courses.v_provider := ofInput (createCourse.provider i);
                  Courses.v_platform := ofInput (createCourse.platform i);
                  Courses.v_url := ofInput (createCourse.url i);
                  Courses.v_level := Some v1;
                  Courses.v_tags := ofInput (createCourse.tags i);
                  Courses.v_status := Some v2;
                  Courses.v_createdAt := Some (clock w (ticks w));
                  Courses.v_updatedAt := Some (clock w (S (ticks w))) |}
             = Some {| Courses.id := newId;
                       Courses.ownerId := User.id u;
                       Courses.title := createCourse.title i;
                       Courses.description := createCourse.description i;
                       Courses.provider := createCourse.provider i;
                       Courses.platform := createCourse.platform i;
                       Courses.url := createCourse.url i;
                       Courses.level := v1;
                       Courses.tags := createCourse.tags i;
                       Courses.status := v2;
                       Courses.createdAt := clock w (ticks w);
                       Courses.updatedAt := clock w (S (ticks w)) |}).
  { intros. unfold Courses.ofValues. cbn.
    destruct (createCourse.description i), (createCourse.provider i),
      (createCourse.platform i), (createCourse.url i), (createCourse.tags i);
      reflexivity. }
  rewrite Hrow. cbn [first hd_error fst snd db sent]. split; reflexivity.
Qed.

(** X15: on a database with sound keys and references, the course that
    [createCourse] returns can be read back by its creator:
    [getCourseWithItems] with its id answers that very course, with no items,
    and [listMyCourses] lists it. *)
Theorem createCourse_then_read
    (i : createCourse.input) (context : ActionAPIContext) (u : User.t) (w : World) :
  currentUser context = Some u ->
  keysOk Courses.id (courses (db w)) ->
  references (db w) ->
  let w1 := after (createCourse.handler i context) w in
  exists c,
    fst (createCourse.handler i context w) = Return {| createCourse.course := Some c |}
    /\ fst (getCourseWithItems.handler {| getCourseWithItems.id := Courses.id c |}
              context w1)
       = Return {| getCourseWithItems.course := c; getCourseWithItems.items := [] |}
    /\ exists l,
         fst (listMyCourses.handler None context w1)
         = Return {| listMyCourses.courses := l |}
         /\ In c l.
Proof.
  intros Hu Hkeys [Hitems _] w1.
  destruct (createCourse_run i context u w Hu) as [Hr Hdb].
  set (c := {| Courses.id := nextId Courses.id (courses (db w)) |}) in *.
  fold w1 in Hdb.
  assert (Hkeys1 : keysOk Courses.id (courses (db w1))).
  { rewrite Hdb. cbn [putTable CoursesT courses].
    apply keysOk_insert; [exact Hkeys | reflexivity]. }
  assert (Hin : In c (rows (courses (db w1)))).
  { rewrite Hdb. cbn [putTable CoursesT courses rows]. apply in_or_app. right. now left. }
  exists c. split; [exact Hr|]. split.
  - rewrite (getCourseWithItems_run {| getCourseWithItems.id := Courses.id c |} context u c w1 Hu (proj1 Hkeys1) Hin
               eq_refl eq_refl).
    cbn [fst]. do 2 f_equal. rewrite Hdb. cbn [putTable CoursesT courseItems].
    apply filter_none. intros it Hit. apply Z.eqb_neq.
    destruct (Hitems it Hit) as (c0 & Hc0 & E). rewrite <- E.
    pose proof (nextId_above Courses.id (courses (db w)) c0 Hc0) as Hlt.
    cbn [c Courses.id]. lia.
  - unfold listMyCourses.handler, requireUser. rewrite Hu. run.
    eexists. split; [reflexivity|]. apply filter_In. split; [exact Hin|].
    apply String.eqb_refl.
Qed.

(** What [saveCourseItem] does without an id, on a course the user owns. *)
Lemma saveCourseItem_insert_run (i : saveCourseItem.input)
    (context : ActionAPIContext) (u : User.t) (w : World) :
  currentUser context = Some u ->
  owns (User.id u) (saveCourseItem.courseId i) (db w) ->
  saveCourseItem.id i = None ->
  let t := courseItems (db w) in
  let it :=
    {| CourseItems.id := nextId CourseItems.id t;
       CourseItems.courseId := saveCourseItem.courseId i;
       CourseItems.type :=
         match saveCourseItem.type i with Some x => x | None => ItemType.lesson end;
       CourseItems.title := saveCourseItem.title i;
       CourseItems.description := saveCourseItem.description i;
       CourseItems.position :=
         match saveCourseItem.position i with Some p => p | None => 0 end;
       CourseItems.dueDate := saveCourseItem.dueDate i;
       CourseItems.estimatedMinutes := saveCourseItem.estimatedMinutes i;
       CourseItems.isRequired :=
         match saveCourseItem.isRequired i with Some b => b | None => true end;
       CourseItems.createdAt := clock w (ticks w) |} in
  fst (saveCourseItem.handler i context w) = Return {| saveCourseItem.item := Some it |}
  /\ db (after (saveCourseItem.handler i context) w)
     = putTable CourseItemsT
         {| rows := rows t ++ [it]; sequence := nextId CourseItems.id t |} (db w).
Proof.
  intros Hu Hown Hid t it. destruct (owns_found _ _ _ Hown) as (c & Hc).
  unfold after, saveCourseItem.handler, requireUser. rewrite Hu. run. rewrite Hc.
  unfold saveCourseItem.truthyId. rewrite Hid. run.
  assert (Hrow : forall newId now,
             CourseItems.ofValues newId now
               (saveCourseItem.baseValues i (clock w (ticks w)))
             = Some {| CourseItems.id := newId;
                       CourseItems.courseId := saveCourseItem.courseId i;
                       CourseItems.type :=
                         match saveCourseItem.type i with
                         | Some x => x
                         | None => ItemType.lesson
                         end;
                       CourseItems.title := saveCourseItem.title i;
                       CourseItems.description := saveCourseItem.description i;
                       CourseItems.position :=
                         match saveCourseItem.position i with
                         | Some p => p
                         | None => 0
                         end;
                       CourseItems.dueDate := saveCourseItem.dueDate i;
                       CourseItems.estimatedMinutes := saveCourseItem.estimatedMinutes i;
                       CourseItems.isRequired :=
                         match saveCourseItem.isRequired i with
                         | Some b => b
                         | None => true
                         end;
                       CourseItems.createdAt := clock w (ticks w) |}).
  { intros. unfold CourseItems.ofValues, saveCourseItem.baseValues. cbn.
    destruct (saveCourseItem.description i), (saveCourseItem.dueDate i),
      (saveCourseItem.estimatedMinutes i); reflexivity. }
  rewrite Hrow. cbn [first hd_error fst snd db sent]. split; reflexivity.
Qed.

(** X16: an item saved without an id shows up when the course is read: after
    [saveCourseItem] on a course of the user, [getCourseWithItems] answers the
    items the course had, in their order, followed by the new item, which
    carries the fields of the input, the defaults "lesson", 0 and true for
    those omitted, and the time of the call. *)
Theorem saveCourseItem_then_read
    (i : saveCourseItem.input) (context : ActionAPIContext) (u : User.t)
    (c : Courses.row) (w : World) :
  currentUser context = Some u ->
  NoDup (map Courses.id (rows (courses (db w)))) ->
  In c (rows (courses (db w))) ->
  Courses.ownerId c = User.id u ->
  saveCourseItem.courseId i = Courses.id c ->
  saveCourseItem.id i = None ->
  let w1 := after (saveCourseItem.handler i context) w in
  exists it,
    fst (saveCourseItem.handler i context w) = Return {| saveCourseItem.item := Some it |}
    /\ fst (getCourseWithItems.handler {| getCourseWithItems.id := Courses.id c |}
              context w1)
       = Return {| getCourseWithItems.course := c;
                   getCourseWithItems.items :=
                     filter (fun x => CourseItems.courseId x =? Courses.id c)
                            (rows (courseItems (db w))) ++ [it] |}
    /\ CourseItems.title it = saveCourseItem.title i
    /\ CourseItems.description it = saveCourseItem.description i
    /\ CourseItems.dueDate it = saveCourseItem.dueDate i
    /\ CourseItems.estimatedMinutes it = saveCourseItem.estimatedMinutes i
    /\ CourseItems.type it
       = match saveCourseItem.type i with Some x => x | None => ItemType.lesson end
    /\ CourseItems.position it
       = match saveCourseItem.position i with Some p => p | None => 0 end
    /\ CourseItems.isRequired it
       = match saveCourseItem.isRequired i with Some b => b | None => true end
    /\ CourseItems.createdAt it = clock w (ticks w).
Proof.
  intros Hu Hnd Hc Ho Hcid Hid w1.
  assert (Hown : owns (User.id u) (saveCourseItem.courseId i) (db w))
    by (exists c; auto).
  destruct (saveCourseItem_insert_run i context u w Hu Hown Hid) as [Hr Hdb].
  set (it := {| CourseItems.id := nextId CourseItems.id (courseItems (db w)) |}) in *.
  fold w1 in Hdb.
  exists it. split; [exact Hr|]. split; [|splits; reflexivity].
  assert (Hnd1 : NoDup (map Courses.id (rows (courses (db w1)))))
    by (rewrite Hdb; exact Hnd).
  assert (Hc1 : In c (rows (courses (db w1)))) by (rewrite Hdb; exact Hc).
  rewrite (getCourseWithItems_run {| getCourseWithItems.id := Courses.id c |} context u c w1 Hu Hnd1 Hc1 Ho eq_refl).
  cbn [fst]. do 2 f_equal. rewrite Hdb. cbn [putTable CourseItemsT courseItems rows].
  rewrite filter_app. f_equal. cbn [filter it CourseItems.courseId].
  now rewrite Hcid, Z.eqb_refl.
Qed.

(** X17: an item that was deleted is no longer read: after
    [deleteCourseItem] of an item of a course of the user that no progress row
    names, [getCourseWithItems] answers the items the course had, in their
    order, without that item, and no progress row names it. *)
Theorem deleteCourseItem_then_read
    (i : deleteCourseItem.input) (context : ActionAPIContext) (u : User.t)
    (c : Courses.row) (e : CourseItems.row) (w : World) :
  currentUser context = Some u ->
  NoDup (map Courses.id (rows (courses (db w)))) ->
  In c (rows (courses (db w))) ->
  Courses.ownerId c = User.id u ->
  NoDup (map CourseItems.id (rows (courseItems (db w)))) ->
  In e (rows (courseItems (db w))) ->
  unreferenced (db w) (CourseItems.id e) ->
  CourseItems.courseId e = Courses.id c ->
  deleteCourseItem.id i = CourseItems.id e ->
  deleteCourseItem.courseId i = Courses.id c ->
  let w1 := after (deleteCourseItem.handler i context) w in
  exists items,
    fst (deleteCourseItem.handler i context w) = Return {| deleteCourseItem.item := e |}
    /\ unreferenced (db w1) (CourseItems.id e)
    /\ fst (getCourseWithItems.handler {| getCourseWithItems.id := Courses.id c |}
              context w1)
       = Return {| getCourseWithItems.course := c; getCourseWithItems.items := items |}
    /\ ~ In e items
    /\ (forall x, In x items
                  <-> In x (rows (courseItems (db w)))
                      /\ CourseItems.courseId x = Courses.id c /\ x <> e).
Proof.
  intros Hu Hnd Hc Ho Hndi He Hfree Hce Hid Hcid w1.
  assert (Hown : owns (User.id u) (deleteCourseItem.courseId i) (db w))
    by (exists c; auto).
  assert (Hcid' : deleteCourseItem.courseId i = CourseItems.courseId e) by congruence.
  destruct (deleteCourseItem_run i context u e w Hu Hown Hndi He Hid Hcid')
    as [Hr Hdb].
  fold w1 in Hdb.
  assert (Hnd1 : NoDup (map Courses.id (rows (courses (db w1)))))
    by (rewrite Hdb; exact Hnd).
  assert (Hc1 : In c (rows (courses (db w1)))) by (rewrite Hdb; exact Hc).
  assert (Hfree1 : unreferenced (db w1) (CourseItems.id e)).
  { unfold unreferenced. rewrite Hdb.
    cbn [putTable CourseItemsT courseProgress courseItemProgress]. exact Hfree. }
  eexists. split; [exact Hr|]. split; [exact Hfree1|]. split.
  - rewrite (getCourseWithItems_run {| getCourseWithItems.id := Courses.id c |}
               context u c w1 Hu Hnd1 Hc1 Ho eq_refl).
    reflexivity.
  - rewrite Hdb. cbn [putTable CourseItemsT courseItems rows].
    assert (Hiff : forall x,
               In x (filter (fun it => CourseItems.courseId it =? Courses.id c)
                       (filter (fun r => negb (CourseItems.id r =? CourseItems.id e))
                          (rows (courseItems (db w)))))
               <-> In x (rows (courseItems (db w)))
                   /\ CourseItems.courseId x = Courses.id c /\ x <> e).
    { intros x. rewrite !filter_In, negb_true_iff, Z.eqb_neq, Z.eqb_eq. split.
      - intros [[Hin Hne] Hx]. splits; [exact Hin | exact Hx |].
        intros ->. now apply Hne.
      - intros (Hin & Hx & Hne). splits; [exact Hin | | exact Hx].
        intros E. apply Hne. exact (key_injective CourseItems.id _ x e Hndi Hin He E). }
    split; [|exact Hiff].
    intros Hin. apply Hiff in Hin. destruct Hin as (_ & _ & Hne). now apply Hne.
Qed.

(** ** The courses of others *)

Lemma not_owned_none (d : Db) (courseId : Z) (userId : string) :
  ~ owns userId courseId d ->
  first (firstn 1 (filter (ownedCourse courseId userId) (rows (courses d)))) = None.
Proof.
  intros Hnot. destruct (first _) as [c|] eqn:E; [|reflexivity].
  apply owned_first in E. contradiction.
Qed.

(** X18: [saveCourseItem] and [upsertCourseProgress] for a course the acting
    user does not own, whether it belongs to somebody else or does not exist,
    throw NOT_FOUND "Course not found." and leave the database as it was. *)
Theorem not_found_without_ownership
    (context : ActionAPIContext) (u : User.t) (courseId : Z) (w : World) :
  currentUser context = Some u ->
  ~ owns (User.id u) courseId (db w) ->
  (forall i, saveCourseItem.courseId i = courseId ->
     fst (saveCourseItem.handler i context w) = thrown NOT_FOUND "Course not found."
     /\ db (after (saveCourseItem.handler i context) w) = db w)
  /\ (forall i, upsertCourseProgress.courseId i = courseId ->
     fst (upsertCourseProgress.handler i context w)
     = thrown NOT_FOUND "Course not found."
     /\ db (after (upsertCourseProgress.handler i context) w) = db w).
Proof.
  intros Hu Hnot. pose proof (not_owned_none _ _ _ Hnot) as Hnone.
  split; intros i Hi;
    unfold after, saveCourseItem.handler, upsertCourseProgress.handler, requireUser;
    rewrite Hu; run; rewrite Hi, Hnone; split; reflexivity.
Qed.

(** X19: an action leaves alone what is not the acting user's.  On a
    consistent database, an item whose course the acting user does not own, a
    course progress row of another user and an item progress row of another
    user are still in their table, unchanged, after any action. *)
Theorem rows_of_others_untouched
    (r : Request) (context : ActionAPIContext) (w : World) :
  consistent (db w) ->
  let w' := after (server r context) w in
  (forall it, In it (rows (courseItems (db w))) ->
     ~ actingOwns context (CourseItems.courseId it) (db w) ->
     In it (rows (courseItems (db w'))))
  /\ (forall p, In p (rows (courseProgress (db w))) ->
     actingUserId context <> Some (CourseProgress.userId p) ->
     In p (rows (courseProgress (db w'))))
  /\ (forall p, In p (rows (courseItemProgress (db w))) ->
     actingUserId context <> Some (CourseItemProgress.userId p) ->
     In p (rows (courseItemProgress (db w')))).
Proof.
  intros Hcons w'. subst w'.
  destruct (server_effect r context w) as [(_ & H2 & H3 & H4) _].
  splits.
  - destruct r; try (rewrite (H2 ltac:(discriminate)); tauto); clear H2 H3 H4;
      cbn [server]; rewrite after_bind_ret; unfold after; intros it Hit Hnot.
    + unfold saveCourseItem.handler, requireUser.
      destruct (currentUser context) as [u|] eqn:Hu; run; [|exact Hit].
      destruct (first (firstn 1 _)) as [c|] eqn:Hc; run; [|exact Hit].
      apply owned_first in Hc.
      destruct (saveCourseItem.truthyId i) as [k|]; run.
      * destruct (first (firstn 1 _)) as [x|] eqn:Hx; [|exact Hit].
        destruct (CourseItems.courseId x =? saveCourseItem.courseId i) eqn:Ecid;
          cbn [negb]; run; [|exact Hit].
        cbn [putTable CourseItemsT courseItems rows].
        apply in_map_iff. exists it. split; [|exact Hit].
        destruct (Z.eqb_spec (CourseItems.id it) k) as [E|E]; [|reflexivity].
        exfalso. apply Hnot.
        rewrite first_firstn1, first_filter in Hx. apply find_some in Hx.
        destruct Hx as [Hxin Hxk]. apply Z.eqb_eq in Hxk.
        assert (it = x).
        { apply (key_injective CourseItems.id (rows (courseItems (db w))));
            [apply (courseItemsKeys _ Hcons) | exact Hit | exact Hxin | congruence]. }
        subst x. apply Z.eqb_eq in Ecid. rewrite Ecid. now exists u.
      * cbn [CourseItems.ofValues saveCourseItem.baseValues CourseItems.v_courseId
             CourseItems.v_title snd db sent putTable CourseItemsT courseItems rows].
        apply in_or_app. now left.
    + unfold deleteCourseItem.handler, requireUser.
      destruct (currentUser context) as [u|] eqn:Hu; run; [|exact Hit].
      destruct (first (firstn 1 _)) as [c|] eqn:Hc; run; [|exact Hit].
      apply owned_first in Hc.
      assert (Hkept : In it (filter
                               (fun r => negb ((CourseItems.id r =? deleteCourseItem.id i)
                                               && (CourseItems.courseId r
                                                   =? deleteCourseItem.courseId i)))
                               (rows (courseItems (db w))))).
      { apply filter_In. split; [exact Hit|]. apply negb_true_iff.
        destruct (_ && _) eqn:E; [|reflexivity]. exfalso. apply Hnot.
        apply andb_true_iff in E. destruct E as [_ E]. apply Z.eqb_eq in E.
        rewrite E. now exists u. }
      destruct (first _) as [x|]; exact Hkept.
  - destruct r; try (rewrite (H3 ltac:(discriminate)); tauto); clear H2 H3 H4.
    cbn [server]. rewrite after_bind_ret. unfold after. intros p Hp Hne.
    unfold upsertCourseProgress.handler, requireUser.
    destruct (currentUser context) as [u|] eqn:Hu; run; [|exact Hp].
    destruct (first (firstn 1 _)) as [c|]; run; [|exact Hp].
    destruct (first (firstn 1 _)) as [e|] eqn:He.
    + rewrite first_firstn1, first_filter in He. apply find_some in He.
      destruct He as [He Hk]. apply progressOf_key in Hk.
      assert (Hkept : forall v,
                 In p (map (fun r => if CourseProgress.id r =? CourseProgress.id e
                                     then CourseProgress.applySet v r else r)
                         (rows (courseProgress (db w))))).
      { intros v. apply in_map_iff. exists p. split; [|exact Hp].
        destruct (Z.eqb_spec (CourseProgress.id p) (CourseProgress.id e)) as [E|E];
          [|reflexivity].
        exfalso. apply Hne.
        assert (p = e).
        { apply (key_injective CourseProgress.id (rows (courseProgress (db w))));
            [apply (courseProgressKeys _ Hcons) | exact Hp | exact He | exact E]. }
        subst p. unfold progressKey in Hk. inversion Hk as [[Hk1 Hk2]].
        rewrite Hk2. now apply actingUserId_some. }
      destruct (upsertCourseProgress.existingStartedAt _); run; apply Hkept.
    + unfold upsertCourseProgress.existingStartedAt, optChain. run.
      rewrite upsert_new_row.
      cbn [snd db sent putTable CourseProgressT courseProgress rows].
      apply in_or_app. now left.
  - destruct r; try (rewrite (H4 ltac:(discriminate)); tauto); clear H2 H3 H4.
    cbn [server]. rewrite after_bind_ret. unfold after. intros p Hp Hne.
    unfold updateCourseItemProgress.handler, requireUser.
    destruct (currentUser context) as [u|] eqn:Hu; run; [|exact Hp].
    destruct (first (firstn 1 _)) as [x|]; run; [|exact Hp].
    destruct (first (firstn 1 _)) as [c|]; run; [|exact Hp].
    destruct (first (firstn 1 _)) as [e|] eqn:He; run.
    + rewrite first_firstn1, first_filter in He. apply find_some in He.
      destruct He as [He Hk]. apply itemProgressOf_key in Hk.
      cbn [putTable CourseItemProgressT courseItemProgress rows].
      apply in_map_iff. exists p. split; [|exact Hp].
      destruct (Z.eqb_spec (CourseItemProgress.id p) (CourseItemProgress.id e)) as [E|E];
        [|reflexivity].
      exfalso. apply Hne.
      assert (p = e).
      { apply (key_injective CourseItemProgress.id (rows (courseItemProgress (db w))));
          [apply (courseItemProgressKeys _ Hcons) | exact Hp | exact He | exact E]. }
      subst p. unfold itemProgressKey in Hk. inversion Hk as [[Hk1 Hk2]].
      rewrite Hk2. now apply actingUserId_some.
    + rewrite itemProgress_new_row.
      cbn [snd db sent putTable CourseItemProgressT courseItemProgress rows].
      apply in_or_app. now left.
Qed.

(** ** The further properties at work on the small database *)

Lemma world3_reachable : reachable world3.
Proof.
  unfold world3.
  rewrite <- (after_bind_ret (upsertCourseProgress.handler halfway (signedIn "alice"))
                UpsertCourseProgressResult world2).
  apply (reachable_step world2 (UpsertCourseProgress halfway) (signedIn "alice")).
  unfold world2.
  rewrite <- (after_bind_ret (saveCourseItem.handler lesson1 (signedIn "alice"))
                SaveCourseItemResult world1).
  apply (reachable_step world1 (SaveCourseItem lesson1) (signedIn "alice")).
  unfold world1.
  rewrite <- (after_bind_ret (createCourse.handler introToGo (signedIn "alice"))
                CreateCourseResult world0).
  apply (reachable_step world0 (CreateCourse introToGo) (signedIn "alice")).
  apply (reachable_init (fun n => 1000 * Z.of_nat (S n))).
Defined.

Lemma course1_in_world3 : In course1 (rows (courses (db world3))).
Proof. left. reflexivity. Defined.

Lemma course1_in_world2 : In course1 (rows (courses (db world2))).
Proof. left. reflexivity. Defined.

Lemma item1_in_world3 : In item1 (rows (courseItems (db world3))).
Proof. left. reflexivity. Defined.

Lemma item1_in_world2 : In item1 (rows (courseItems (db world2))).
Proof. left. reflexivity. Defined.

Lemma listMyCourses_own_courses_witness :
  exists l,
    fst (listMyCourses.handler plannedOnly (signedIn "alice") world3)
    = Return {| listMyCourses.courses := l |}
    /\ (In course1 l
        <-> In course1 (rows (courses (db world3)))
            /\ Courses.ownerId course1 = "alice"
            /\ Courses.status course1 = CourseStatus.planned).
Proof.
  destruct (listMyCourses_own_courses plannedOnly (signedIn "alice") alice world3
              eq_refl) as (l & H1 & H2 & _).
  exists l. split; [exact H1 | exact (H2 course1)].
Defined.

Lemma getCourseWithItems_course_and_items_witness :
  exists items,
    fst (getCourseWithItems.handler {| getCourseWithItems.id := 1 |}
           (signedIn "alice") world3)
    = Return {| getCourseWithItems.course := course1;
                getCourseWithItems.items := items |}
    /\ (In item1 items
        <-> In item1 (rows (courseItems (db world3)))
            /\ CourseItems.courseId item1 = 1).
Proof.
  destruct (getCourseWithItems_course_and_items {| getCourseWithItems.id := 1 |}
              (signedIn "alice") alice course1 world3 eq_refl
              (proj1 (coursesKeys _ world3_consistent)) course1_in_world3
              eq_refl eq_refl) as (items & H1 & H2 & _).
  exists items. split; [exact H1 | exact (H2 item1)].
Defined.

Lemma item1_unreferenced_in_world2 : unreferenced (db world2) 1.
Proof. split; intros p []. Defined.

Lemma deleteCourseItem_removes_the_item_witness :
  fst (deleteCourseItem.handler removeItem1 (signedIn "alice") world2)
  = Return {| deleteCourseItem.item := item1 |}
  /\ ~ In item1 (rows (courseItems
                         (db (after (deleteCourseItem.handler removeItem1
                                       (signedIn "alice")) world2)))).
Proof.
  destruct (deleteCourseItem_removes_the_item removeItem1 (signedIn "alice") alice
              item1 world2 eq_refl (alice_owns_course1 world2 course1_in_world2)
              (proj1 (courseItemsKeys _ world2_consistent)) item1_in_world2
              item1_unreferenced_in_world2 eq_refl eq_refl) as (H1 & _ & H2 & _).
  split; [exact H1 | exact H2].
Defined.

Lemma deleteCourseItem_no_such_item_witness :
  fst (deleteCourseItem.handler removeMissing (signedIn "alice") world3)
  = thrown NOT_FOUND "Course item not found."
  /\ db (after (deleteCourseItem.handler removeMissing (signedIn "alice")) world3)
     = db world3.
Proof.
  apply (deleteCourseItem_no_such_item removeMissing (signedIn "alice") alice world3
           eq_refl (alice_owns_course1 world3 course1_in_world3)).
  intros r [<-|[]]. discriminate.
Defined.

Lemma saveCourseItem_zero_id_inserts_witness :
  exists it,
    fst (saveCourseItem.handler lessonZero (signedIn "alice") world2)
    = Return {| saveCourseItem.item := Some it |}
    /\ rows (courseItems (db (after (saveCourseItem.handler lessonZero
                                       (signedIn "alice")) world2)))
       = [item1; it].
Proof.
  destruct (saveCourseItem_zero_id_inserts lessonZero (signedIn "alice") alice world2
              eq_refl (alice_owns_course1 world2 course1_in_world2) eq_refl)
    as (it & H1 & H2 & _).
  exists it. split; [exact H1 | exact H2].
Defined.

Lemma saveCourseItem_unknown_id_witness :
  fst (saveCourseItem.handler lessonNine (signedIn "alice") world2)
  = thrown NOT_FOUND "Course item not found."
  /\ db (after (saveCourseItem.handler lessonNine (signedIn "alice")) world2)
     = db world2.
Proof.
  apply (saveCourseItem_unknown_id lessonNine (signedIn "alice") alice 9 world2
           eq_refl (alice_owns_course1 world2 course1_in_world2) eq_refl).
  - discriminate.
  - intros r [<-|[]]. discriminate.
Defined.

Lemma updateCourse_applies_supplied_witness :
  fst (updateCourse.handler startCourse (signedIn "alice") world3)
  = Return {| updateCourse.course :=
                Some {| Courses.id := 1;
                        Courses.ownerId := "alice";
                        Courses.title := "Intro to Go";
                        Courses.description := None;
                        Courses.provider := None;
                        Courses.platform := None;
                        Courses.url := None;
                        Courses.level := Level.beginner;
                        Courses.tags := None;
                        Courses.status := CourseStatus.in_progress;
                        Courses.createdAt := 1000;
                        Courses.updatedAt := 9000 |} |}.
Proof.
  refine (proj1 (updateCourse_applies_supplied startCourse (signedIn "alice") alice
                   course1 world3 eq_refl (proj1 (coursesKeys _ world3_consistent))
                   course1_in_world3 eq_refl eq_refl _)).
  intros (_ & _ & _ & _ & _ & _ & _ & H). discriminate.
Defined.

Lemma no_item_progress_in_world3 :
  existingItemProgress (db world3) 1 "alice" None.
Proof. intros e []. Defined.

Lemma itemProgress_effective_values_witness :
  exists p,
    fst (updateCourseItemProgress.handler itemStarted (signedIn "alice") world3)
    = Return {| updateCourseItemProgress.progress := Some p |}
    /\ CourseItemProgress.status p = ItemProgressStatus.in_progress
    /\ CourseItemProgress.startedAt p = Some 500
    /\ CourseItemProgress.completedAt p = None
    /\ CourseItemProgress.notes p = Some "first pass".
Proof.
  destruct (itemProgress_effective_values itemStarted (signedIn "alice") alice item1
              world3 None eq_refl world3_consistent item1_in_world3 eq_refl
              (alice_owns_course1 world3 course1_in_world3)
              no_item_progress_in_world3)
    as (p & H0 & _ & _ & _ & H1 & H2 & H3 & H4 & _).
  exists p. splits; assumption.
Defined.

Lemma itemProgress_not_found_witness :
  fst (updateCourseItemProgress.handler itemFive (signedIn "alice") world3)
  = thrown NOT_FOUND "Course item not found."
  /\ fst (updateCourseItemProgress.handler itemStarted (signedIn "bob") world3)
     = thrown NOT_FOUND "Course not found.".
Proof.
  split.
  - refine (proj1 (proj1 (itemProgress_not_found itemFive (signedIn "alice") alice
                            world3 eq_refl
                            (proj1 (courseItemsKeys _ world3_consistent))) _)).
    intros r [<-|[]]. discriminate.
  - refine (proj1 (proj2 (itemProgress_not_found itemStarted (signedIn "bob") bob
                            world3 eq_refl
                            (proj1 (courseItemsKeys _ world3_consistent)))
                     item1 item1_in_world3 eq_refl _)).
    intros (c & [<-|[]] & _ & H). discriminate.
Defined.


Lemma reachable_consistent_witness : consistent (db world3).
Proof. exact (reachable_consistent world3 world3_reachable). Defined.

Lemma reachable_references_witness : references (db world3).
Proof. exact (reachable_references world3 world3_reachable). Defined.

Lemma courses_persist_witness :
  exists c',
    In c' (rows (courses (db (after (server (UpdateCourse startCourse) (signedIn "bob"))
                                world3))))
    /\ Courses.id c' = 1
    /\ Courses.ownerId c' = "alice"
    /\ c' = course1.
Proof.
  destruct (courses_persist (UpdateCourse startCourse) (signedIn "bob") world3 course1
              course1_in_world3) as (c' & H1 & H2 & H3 & _ & H4).
  exists c'. splits; [exact H1 | exact H2 | exact H3 |].
  apply H4. discriminate.
Defined.

Lemma createCourse_then_read_witness :
  exists c,
    fst (createCourse.handler introToGo (signedIn "alice") world0)
    = Return {| createCourse.course := Some c |}
    /\ fst (getCourseWithItems.handler {| getCourseWithItems.id := Courses.id c |}
              (signedIn "alice") world1)
       = Return {| getCourseWithItems.course := c; getCourseWithItems.items := [] |}.
Proof.
  assert (Hkeys : keysOk Courses.id (courses (db world0)))
    by (unfold keysOk; splits; concrete).
  assert (Href : references (db world0)) by (split; intros x []).
  destruct (createCourse_then_read introToGo (signedIn "alice") alice world0
              eq_refl Hkeys Href) as (c & H1 & H2 & _).
  exists c. split; [exact H1 | exact H2].
Defined.

Lemma saveCourseItem_then_read_witness :
  exists it,
    fst (saveCourseItem.handler lesson2 (signedIn "alice") world2)
    = Return {| saveCourseItem.item := Some it |}
    /\ fst (getCourseWithItems.handler {| getCourseWithItems.id := 1 |}
              (signedIn "alice")
              (after (saveCourseItem.handler lesson2 (signedIn "alice")) world2))
       = Return {| getCourseWithItems.course := course1;
                   getCourseWithItems.items := [item1; it] |}.
Proof.
  destruct (saveCourseItem_then_read lesson2 (signedIn "alice") alice course1 world2
              eq_refl (proj1 (coursesKeys _ world2_consistent)) course1_in_world2
              eq_refl eq_refl eq_refl) as (it & H1 & H2 & _).
  exists it. split; [exact H1 | exact H2].
Defined.

Lemma deleteCourseItem_then_read_witness :
  exists items,
    fst (getCourseWithItems.handler {| getCourseWithItems.id := 1 |}
           (signedIn "alice")
           (after (deleteCourseItem.handler removeItem1 (signedIn "alice")) world2))
    = Return {| getCourseWithItems.course := course1;
                getCourseWithItems.items := items |}
    /\ ~ In item1 items.
Proof.
  destruct (deleteCourseItem_then_read removeItem1 (signedIn "alice") alice course1
              item1 world2 eq_refl (proj1 (coursesKeys _ world2_consistent))
              course1_in_world2 eq_refl
              (proj1 (courseItemsKeys _ world2_consistent)) item1_in_world2
              item1_unreferenced_in_world2 eq_refl eq_refl eq_refl)
    as (items & _ & _ & H2 & H3 & _).
  exists items. split; [exact H2 | exact H3].
Defined.

Lemma bob_owns_nothing_in_world3 : ~ owns "bob" 1 (db world3).
Proof. intros (c & [<-|[]] & _ & H). discriminate. Defined.

Lemma not_found_without_ownership_witness :
  fst (saveCourseItem.handler lesson2 (signedIn "bob") world3)
  = thrown NOT_FOUND "Course not found."
  /\ fst (upsertCourseProgress.handler almostDone (signedIn "bob") world3)
     = thrown NOT_FOUND "Course not found.".
Proof.
  destruct (not_found_without_ownership (signedIn "bob") bob 1 world3 eq_refl
              bob_owns_nothing_in_world3) as [H1 H2].
  split; [exact (proj1 (H1 lesson2 eq_refl)) | exact (proj1 (H2 almostDone eq_refl))].
Defined.

Lemma rows_of_others_untouched_witness :
  In item1 (rows (courseItems
                    (db (after (server (DeleteCourseItem removeItem1) (signedIn "bob"))
                           world3))))
  /\ In progress1 (rows (courseProgress
                           (db (after (server (UpsertCourseProgress almostDone)
                                         (signedIn "bob")) world3)))).
Proof.
  split.
  - refine (proj1 (rows_of_others_untouched (DeleteCourseItem removeItem1)
                     (signedIn "bob") world3 world3_consistent)
              item1 item1_in_world3 _).
    intros (u & Hu & Hown). inversion Hu. subst u.
    exact (bob_owns_nothing_in_world3 Hown).
  - refine (proj1 (proj2 (rows_of_others_untouched (UpsertCourseProgress almostDone)
                            (signedIn "bob") world3 world3_consistent))
              progress1 _ _).
    + left. reflexivity.
    + discriminate.
Defined.
